(** * vSphere cloud-provider lifecycle: a shallow embedding

    The Go package [vsphere] (provider.go, carried in
    [cluster-summary/component.ts]) is embedded here function by function.
    Calls that leave the process (vCenter, the secret store, the cluster
    updater) are answered by an environment of oracles and recorded, in
    order, in a call log; everything else is translated as written. *)

From Stdlib Require Import String Ascii List Bool Lia.
From stdpp Require Import gmap strings.
Import ListNotations.

Local Open Scope string_scope.
Local Open Scope list_scope.

(** ** Strings and Go's [path] package *)

Module GoString.

(** [s != ""] *)
Definition nonempty (s : string) : bool :=
  match s with
  | EmptyString => false
  | String _ _ => true
  end.

(** [strings.HasPrefix(s, prefix)] *)
Definition HasPrefix (s prefix : string) : bool := String.prefix prefix s.

End GoString.

Module GoPath.

Definition slash : ascii := "/"%char.

(** The elements of a path between its slashes; [""] has the single
    element [""]. *)
Fixpoint split (s : string) : list string :=
  match s with
  | EmptyString => [EmptyString]
  | String c rest =>
      if Ascii.eqb c slash then EmptyString :: split rest
      else match split rest with
           | [] => [String c EmptyString]
           | x :: xs => String c x :: xs
           end
  end.

(** One round of the loop of [path.Clean], on a whole element instead of
    byte by byte. [out] holds the elements written so far, last first:
    empty and ["."] elements are skipped, [".."] removes the last element
    when there is one to remove ([out.w > dotdot]) and is otherwise kept
    only in a path that is not rooted. *)
Definition clean_step (rooted : bool) (out : list string) (elem : string)
  : list string :=
  if String.eqb elem "" || String.eqb elem "." then out
  else if String.eqb elem ".." then
    match out with
    | top :: below =>
        if String.eqb top ".." then (if rooted then out else ".." :: out)
        else below
    | [] => if rooted then [] else [".."]
    end
  else elem :: out.

(** [path.Clean] *)
Definition Clean (p : string) : string :=
  match p with
  | EmptyString => "."
  | String c _ =>
      let rooted := Ascii.eqb c slash in
      let out := fold_left (clean_step rooted) (split p) [] in
      let body := String.concat "/" (rev out) in
      if rooted then "/" +:+ body
      else if GoString.nonempty body then body else "."
  end.

(** The loop body of [path.Join]: empty elements before the first
    written one are dropped, later elements are separated by a slash. *)
Definition join_step (buf e : string) : string :=
  if GoString.nonempty buf || GoString.nonempty e then
    (if GoString.nonempty buf then buf +:+ "/" else buf) +:+ e
  else buf.

(** [path.Join] *)
Definition Join (elem : list string) : string :=
  if Nat.eqb (fold_left (fun n e => n + String.length e) elem 0) 0 then ""
  else Clean (fold_left join_step elem "").

(** A single path element: no slash, not empty, neither ["."] nor [".."]. *)
Fixpoint no_slash (s : string) : bool :=
  match s with
  | EmptyString => true
  | String c rest => negb (Ascii.eqb c slash) && no_slash rest
  end.

Definition plain_element (s : string) : bool :=
  GoString.nonempty s && no_slash s
  && negb (String.eqb s ".") && negb (String.eqb s "..").

End GoPath.

(** ** Data model (package kubermaticv1, as far as the provider reads it) *)

Module VSphereCredentials.
Record t := mk { Username : string; Password : string }.
End VSphereCredentials.

Module GlobalSecretKeySelector.
Record t := mk { Namespace : string; Name : string; Key : string }.
End GlobalSecretKeySelector.

Module VSphereCloudSpec.
Record t := mk {
  CredentialsReference : option GlobalSecretKeySelector.t;
  Username : string;
  Password : string;
  InfraManagementUser : VSphereCredentials.t;
  Folder : string;
  Datastore : string;
  DatastoreCluster : string;
  ResourcePool : string;
  TagCategoryID : string
}.

Definition with_Folder (vs : t) (folder : string) : t :=
  mk (CredentialsReference vs) (Username vs) (Password vs)
     (InfraManagementUser vs) folder (Datastore vs) (DatastoreCluster vs)
     (ResourcePool vs) (TagCategoryID vs).

Definition with_TagCategoryID (vs : t) (id : string) : t :=
  mk (CredentialsReference vs) (Username vs) (Password vs)
     (InfraManagementUser vs) (Folder vs) (Datastore vs) (DatastoreCluster vs)
     (ResourcePool vs) id.
End VSphereCloudSpec.

Module CloudSpec.
(** [VSphere] is a pointer in the source: [None] is nil. *)
Record t := mk { VSphere : option VSphereCloudSpec.t }.
End CloudSpec.

Module ClusterSpec.
Record t := mk { Cloud : CloudSpec.t }.
End ClusterSpec.

Module Cluster.
Record t := mk {
  Name : string;
  Finalizers : gset string;
  Spec : ClusterSpec.t
}.

Definition vsphere (c : t) : option VSphereCloudSpec.t :=
  CloudSpec.VSphere (ClusterSpec.Cloud (Spec c)).

Definition with_Finalizers (c : t) (fs : gset string) : t :=
  mk (Name c) fs (Spec c).

Definition with_vsphere (c : t) (vs : VSphereCloudSpec.t) : t :=
  mk (Name c) (Finalizers c) (ClusterSpec.mk (CloudSpec.mk (Some vs))).
End Cluster.

Module DatacenterSpecVSphere.
(** [InfraManagementUser] is a pointer in the source: [None] is nil. *)
Record t := mk {
  Endpoint : string;
  AllowInsecure : bool;
  DefaultDatastore : string;
  Datacenter : string;
  RootPath : string;
  InfraManagementUser : option VSphereCredentials.t
}.
End DatacenterSpecVSphere.

(** ** Errors and results *)

(** [errors.New(msg)], [fmt.Errorf(format, args...)] without and with a
    wrapped cause ([%w]), and the errors collaborators come back with. *)
Inductive error : Type :=
| errors_New (msg : string)
| fmt_Errorf (format : string) (args : list string)
| fmt_Errorf_w (format : string) (args : list string) (cause : error).

(** What a call comes back with: a value and a nil error, an error, or a
    nil-pointer dereference on the way. *)
Inductive outcome (A : Type) : Type :=
| Ok (a : A)
| Err (e : error)
| Panic.
Arguments Ok {A} a.
Arguments Err {A} e.
Arguments Panic {A}.

Definition of_sum {A} (r : error + A) : outcome A :=
  match r with
  | inl e => Err e
  | inr a => Ok a
  end.

Definition of_err (r : option error) : outcome unit :=
  match r with
  | Some e => Err e
  | None => Ok tt
  end.

(** ** Finalizer helpers (package kuberneteshelper) *)

Definition folderCleanupFinalizer : string :=
  "kubermatic.k8c.io/cleanup-vsphere-folder".
Definition tagCategoryCleanupFinilizer : string :=
  "kubermatic.k8c.io/cleanup-vsphere-tag-category".
Definition defaultCategory : string := "cluster".

(** Modelled from the spec: [HasFinalizer], [AddFinalizer] and
    [RemoveFinalizer] of package kuberneteshelper are not part of this
    source; the spec has them as pure structural operations on the
    resource's finalizer set. *)
Definition HasFinalizer (c : Cluster.t) (name : string) : bool :=
  bool_decide (name ∈ Cluster.Finalizers c).
Definition AddFinalizer (c : Cluster.t) (name : string) : Cluster.t :=
  Cluster.with_Finalizers c ({[ name ]} ∪ Cluster.Finalizers c).
Definition RemoveFinalizer (c : Cluster.t) (name : string) : Cluster.t :=
  Cluster.with_Finalizers c (Cluster.Finalizers c ∖ {[ name ]}).

(** Keys of the credentials secret (constants of package resources). *)
Definition VsphereUsername : string := "username".
Definition VspherePassword : string := "password".
Definition VsphereInfraManagementUserUsername : string :=
  "infraManagementUserUsername".
Definition VsphereInfraManagementUserPassword : string :=
  "infraManagementUserPassword".

(** ** Sessions, the call log and the environment *)

Definition CertPool : Type := list string.

Module Userinfo.
(** [url.UserPassword(username, password)] *)
Record t := UserPassword { username : string; password : string }.
End Userinfo.

Module Session.
(** The handles of a data-plane session; the finder is determined by the
    client and the datacenter it was set to. *)
Record t := mk { Client : nat; Datacenter : nat }.
End Session.

Module RESTSession.
Record t := mk { Client : nat }.
End RESTSession.

Module FolderRef.
(** [object.Folder], of which only [Common.InventoryPath] is read. *)
Record t := mk { InventoryPath : string }.
End FolderRef.

(** Folder represents a vsphere folder. *)
Module Folder.
Record t := mk { Path : string }.
End Folder.

(** The function handed to the cluster updater. [None] is the nil-pointer
    dereference of a cluster without vSphere cloud spec. *)
Definition Mutation : Type := Cluster.t -> option Cluster.t.

(** Every call that leaves the process, with its arguments. *)
Inductive Call : Type :=
| CallSecret (ref : GlobalSecretKeySelector.t) (key : string)
| CallNewClient (url : string) (insecure : bool) (caBundle : CertPool)
| CallLogin (client : nat) (user : Userinfo.t)
| CallFinderDatacenter (client : nat) (name : string)
| CallLogout (s : Session.t)
| CallFolderList (s : Session.t) (pattern : string)
| CallFinderDatastore (s : Session.t) (name : string)
| CallFinderResourcePool (s : Session.t) (name : string)
| CallFinderDatastoreCluster (s : Session.t) (name : string)
| CallNewRESTSession (dc : DatacenterSpecVSphere.t) (username password : string)
    (caBundle : CertPool)
| CallRESTLogout (s : RESTSession.t)
| CallCreateVMFolder (s : Session.t) (path : string)
| CallDeleteVMFolder (s : Session.t) (path : string)
| CallCreateTagCategory (s : RESTSession.t) (cluster : Cluster.t)
| CallDeleteTagCategory (s : RESTSession.t) (cluster : Cluster.t)
| CallUpdate (name : string) (mutate : Mutation).

Definition Log : Type := list Call.

(** [provider.SecretKeySelectorValueFunc]: a read-only lookup in the secret
    store, taken as a function of the reference and the key. *)
Definition SecretKeySelectorValueFunc : Type :=
  GlobalSecretKeySelector.t -> string -> error + string.

(** [provider.ClusterUpdater]; its answer may depend on all that happened
    before. *)
Definition ClusterUpdater : Type :=
  Log -> string -> Mutation -> error + Cluster.t.

(** The vCenter side and the helpers of this package that are not part of
    this source ([newRESTSession], [createVMFolder], [deleteVMFolder],
    [createTagCategory], [deleteTagCategory]). Each answer may depend on
    the calls made so far. *)
Record Env := {
  url_Parse : string -> error + string;
  vim25_NewClient : Log -> string -> bool -> CertPool -> error + nat;
  client_Login : Log -> nat -> Userinfo.t -> option error;
  finder_Datacenter : Log -> nat -> string -> error + nat;
  finder_FolderList : Log -> Session.t -> string -> error + list FolderRef.t;
  finder_Datastore : Log -> Session.t -> string -> option error;
  finder_ResourcePool : Log -> Session.t -> string -> option error;
  finder_DatastoreCluster : Log -> Session.t -> string -> option error;
  newRESTSession_answer :
    Log -> DatacenterSpecVSphere.t -> string -> string -> CertPool ->
    error + RESTSession.t;
  createVMFolder_answer : Log -> Session.t -> string -> option error;
  deleteVMFolder_answer : Log -> Session.t -> string -> option error;
  createTagCategory_answer : Log -> RESTSession.t -> Cluster.t -> error + string;
  deleteTagCategory_answer : Log -> RESTSession.t -> Cluster.t -> option error
}.

(** ** The monad of the embedding: a call log and an outcome *)

Definition M (A : Type) : Type := Log -> outcome A * Log.

(** A step that makes no call. *)
Definition lift {A} (r : outcome A) : M A := fun h => (r, h).

Definition ret {A} (a : A) : M A := lift (Ok a).

Definition fail {A} (e : error) : M A := lift (Err e).

Definition bind {A B} (m : M A) (k : A -> M B) : M B :=
  fun h =>
    match m h with
    | (Ok a, h1) => k a h1
    | (Err e, h1) => (Err e, h1)
    | (Panic, h1) => (Panic, h1)
    end.

(** [p.f] for a pointer [p]. *)
Definition deref {A} (p : option A) : M A :=
  lift (match p with
        | Some a => Ok a
        | None => Panic
        end).

(** A call that leaves the process: answered from the log so far, then
    logged. *)
Definition call {A} (c : Call) (answer : Log -> outcome A) : M A :=
  fun h => (answer h, h ++ [c]).

(** [if err != nil { return fmt.Errorf(format, args..., err) }] *)
Definition wrap {A} (format : string) (args : list string) (m : M A) : M A :=
  fun h =>
    match m h with
    | (Err e, h1) => (Err (fmt_Errorf_w format args e), h1)
    | r => r
    end.

(** [defer cleanup] followed by [body]: the cleanup runs when the function
    returns, whatever it returns. *)
Definition defer {A} (cleanup : M unit) (body : M A) : M A :=
  fun h =>
    let (r, h1) := body h in
    (r, snd (cleanup h1)).

Declare Scope go_scope.
Delimit Scope go_scope with go.
Notation "x <- m ;; k" := (bind m (fun x => k))
  (at level 100, m at next level, right associativity) : go_scope.
Notation "m ;;; k" := (bind m (fun _ => k))
  (at level 100, right associativity) : go_scope.
Local Open Scope go_scope.

(** ** The provider *)

Module Provider.
(** [dc] is never nil in a provider made by [NewCloudProvider]. *)
Record t := mk {
  dc : DatacenterSpecVSphere.t;
  secretKeySelector : SecretKeySelectorValueFunc;
  caBundle : CertPool
}.
End Provider.

(** NewCloudProvider creates a new vSphere provider; its first argument is
    [dc.Spec.VSphere]. *)
Definition NewCloudProvider (vsphere : option DatacenterSpecVSphere.t)
    (secretKeyGetter : SecretKeySelectorValueFunc) (caBundle : CertPool)
  : outcome Provider.t :=
  match vsphere with
  | None => Err (errors_New "datacenter is not a vSphere datacenter")
  | Some dc => Ok (Provider.mk dc secretKeyGetter caBundle)
  end.

(** Logout closes the idling vCenter connections; a failure is handed to
    [kruntime.HandleError] and goes no further. *)
Definition Logout (s : Session.t) : M unit :=
  call (CallLogout s) (fun _ => Ok tt).

(** [RESTSession.Logout], not part of this source. *)
Definition RESTLogout (s : RESTSession.t) : M unit :=
  call (CallRESTLogout s) (fun _ => Ok tt).

Definition newSession (env : Env) (dc : DatacenterSpecVSphere.t)
    (username password : string) (caBundle : CertPool) : M Session.t :=
  u <- lift (of_sum (url_Parse env (DatacenterSpecVSphere.Endpoint dc +:+ "/sdk")));;
  vim25Client <-
    call (CallNewClient u (DatacenterSpecVSphere.AllowInsecure dc) caBundle)
         (fun h => of_sum (vim25_NewClient env h u
                             (DatacenterSpecVSphere.AllowInsecure dc) caBundle));;
  let user := Userinfo.UserPassword username password in
  let user :=
    match DatacenterSpecVSphere.InfraManagementUser dc with
    | Some imu =>
        Userinfo.UserPassword (VSphereCredentials.Username imu)
                              (VSphereCredentials.Password imu)
    | None => user
    end in
  wrap "failed to login: %w" []
    (call (CallLogin vim25Client user)
          (fun h => of_err (client_Login env h vim25Client user)));;;
  datacenter <-
    wrap "failed to get vSphere datacenter %q: %w"
         [DatacenterSpecVSphere.Datacenter dc]
      (call (CallFinderDatacenter vim25Client (DatacenterSpecVSphere.Datacenter dc))
            (fun h => of_sum (finder_Datacenter env h vim25Client
                                (DatacenterSpecVSphere.Datacenter dc))));;
  ret (Session.mk vim25Client datacenter).

(** [newRESTSession], not part of this source: one call to the
    environment. *)
Definition newRESTSession (env : Env) (dc : DatacenterSpecVSphere.t)
    (username password : string) (caBundle : CertPool) : M RESTSession.t :=
  call (CallNewRESTSession dc username password caBundle)
       (fun h => of_sum (newRESTSession_answer env h dc username password caBundle)).

Definition createVMFolder (env : Env) (s : Session.t) (fullPath : string)
  : M unit :=
  call (CallCreateVMFolder s fullPath)
       (fun h => of_err (createVMFolder_answer env h s fullPath)).

Definition deleteVMFolder (env : Env) (s : Session.t) (path : string)
  : M unit :=
  call (CallDeleteVMFolder s path)
       (fun h => of_err (deleteVMFolder_answer env h s path)).

Definition createTagCategory (env : Env) (s : RESTSession.t)
    (cluster : Cluster.t) : M string :=
  call (CallCreateTagCategory s cluster)
       (fun h => of_sum (createTagCategory_answer env h s cluster)).

Definition deleteTagCategory (env : Env) (s : RESTSession.t)
    (cluster : Cluster.t) : M unit :=
  call (CallDeleteTagCategory s cluster)
       (fun h => of_err (deleteTagCategory_answer env h s cluster)).

(** [update(ctx, name, mutate)] *)
Definition run_update (update : ClusterUpdater) (name : string)
    (mutate : Mutation) : M Cluster.t :=
  call (CallUpdate name mutate) (fun h => of_sum (update h name mutate)).

(** getVMRootPath is a helper func to get the root path for VM's. *)
Definition getVMRootPath (dc : DatacenterSpecVSphere.t) : string :=
  let rootPath := GoPath.Join ["/"; DatacenterSpecVSphere.Datacenter dc; "vm"] in
  if GoString.nonempty (DatacenterSpecVSphere.RootPath dc)
  then GoPath.Clean (DatacenterSpecVSphere.RootPath dc)
  else rootPath.

(** ** Credentials *)

(** One lookup in the secret store. *)
Definition selectSecret (secretKeySelector : SecretKeySelectorValueFunc)
    (ref : GlobalSecretKeySelector.t) (key : string) : M string :=
  call (CallSecret ref key) (fun _ => of_sum (secretKeySelector ref key)).

Definition getUsernameAndPassword (cloud : CloudSpec.t)
    (secretKeySelector : SecretKeySelectorValueFunc)
    (infraManagementUser : bool) : M (string * string) :=
  vs <- deref (CloudSpec.VSphere cloud);;
  let username :=
    if infraManagementUser
    then VSphereCredentials.Username (VSphereCloudSpec.InfraManagementUser vs)
    else "" in
  let password :=
    if infraManagementUser
    then VSphereCredentials.Password (VSphereCloudSpec.InfraManagementUser vs)
    else "" in
  let username :=
    if GoString.nonempty username then username
    else VSphereCloudSpec.Username vs in
  let password :=
    if GoString.nonempty password then password
    else VSphereCloudSpec.Password vs in
  if GoString.nonempty username && GoString.nonempty password
  then ret (username, password)
  else
    match VSphereCloudSpec.CredentialsReference vs with
    | None =>
        fail (errors_New
                "cluster contains no password an and empty credentialsReference")
    | Some ref =>
        username <-
          (if negb (GoString.nonempty username) && infraManagementUser
           then selectSecret secretKeySelector ref
                  VsphereInfraManagementUserUsername
           else ret username);;
        username <-
          (if negb (GoString.nonempty username)
           then selectSecret secretKeySelector ref VsphereUsername
           else ret username);;
        password <-
          (if negb (GoString.nonempty password) && infraManagementUser
           then selectSecret secretKeySelector ref
                  VsphereInfraManagementUserPassword
           else ret password);;
        password <-
          (if negb (GoString.nonempty password)
           then selectSecret secretKeySelector ref VspherePassword
           else ret password);;
        if negb (GoString.nonempty username)
        then fail (errors_New "unable to get username")
        else if negb (GoString.nonempty password)
        then fail (errors_New "unable to get password")
        else ret (username, password)
    end.

Definition GetCredentialsForCluster (cloud : CloudSpec.t)
    (secretKeySelector : SecretKeySelectorValueFunc)
    (dc : option DatacenterSpecVSphere.t) : M (string * string) :=
  (* InfraManagementUser from Datacenter *)
  let fromDatacenter :=
    match dc with
    | Some dc =>
        match DatacenterSpecVSphere.InfraManagementUser dc with
        | Some imu =>
            if GoString.nonempty (VSphereCredentials.Username imu)
               && GoString.nonempty (VSphereCredentials.Password imu)
            then Some (VSphereCredentials.Username imu,
                       VSphereCredentials.Password imu)
            else None
        | None => None
        end
    | None => None
    end in
  match fromDatacenter with
  | Some cred => ret cred
  | None =>
      (* InfraManagementUser from Cluster *)
      getUsernameAndPassword cloud secretKeySelector true
  end.

(** ** InitializeCloudProvider *)

(** The function handed to [update] after the folder was created. *)
Definition setFolder (clusterFolder : string) : Mutation :=
  fun cluster =>
    let cluster := AddFinalizer cluster folderCleanupFinalizer in
    match Cluster.vsphere cluster with
    | Some vs =>
        Some (Cluster.with_vsphere cluster
                (VSphereCloudSpec.with_Folder vs clusterFolder))
    | None => None
    end.

(** The function handed to [update] after the tag category was created. *)
Definition setTagCategoryID (categoryID : string) : Mutation :=
  fun cluster =>
    let cluster := AddFinalizer cluster tagCategoryCleanupFinilizer in
    match Cluster.vsphere cluster with
    | Some vs =>
        Some (Cluster.with_vsphere cluster
                (VSphereCloudSpec.with_TagCategoryID vs categoryID))
    | None => None
    end.

(** The second [if] of InitializeCloudProvider and its [return]; the
    logout deferred by the first [if] runs after it. *)
Definition initializeTagCategory (env : Env) (v : Provider.t)
    (username password : string) (cluster : Cluster.t)
    (update : ClusterUpdater) : M Cluster.t :=
  vs <- deref (Cluster.vsphere cluster);;
  if negb (GoString.nonempty (VSphereCloudSpec.TagCategoryID vs)) then
    restSession <-
      wrap "failed to create REST client session: %w" []
        (newRESTSession env (Provider.dc v) username password
           (Provider.caBundle v));;
    defer (RESTLogout restSession)
      (categoryID <-
         wrap "failed to create tag category: %w" []
           (createTagCategory env restSession cluster);;
       cluster <-
         run_update update (Cluster.Name cluster) (setTagCategoryID categoryID);;
       ret cluster)
  else ret cluster.

(** InitializeCloudProvider initializes the vsphere cloud provider by
    setting up vm folders for the cluster. *)
Definition InitializeCloudProvider (env : Env) (v : Provider.t)
    (cluster : Cluster.t) (update : ClusterUpdater) : M Cluster.t :=
  cred <-
    GetCredentialsForCluster (ClusterSpec.Cloud (Cluster.Spec cluster))
      (Provider.secretKeySelector v) (Some (Provider.dc v));;
  let username := fst cred in
  let password := snd cred in
  let rootPath := getVMRootPath (Provider.dc v) in
  vs <- deref (Cluster.vsphere cluster);;
  if negb (GoString.nonempty (VSphereCloudSpec.Folder vs)) then
    session <-
      wrap "failed to create vCenter session: %w" []
        (newSession env (Provider.dc v) username password (Provider.caBundle v));;
    defer (Logout session)
      (let clusterFolder := GoPath.Join [rootPath; Cluster.Name cluster] in
       wrap "failed to create the VM folder %q: %w" [clusterFolder]
         (createVMFolder env session clusterFolder);;;
       cluster <-
         run_update update (Cluster.Name cluster) (setFolder clusterFolder);;
       initializeTagCategory env v username password cluster update)
  else initializeTagCategory env v username password cluster update.

(** ** GetVMFolders *)

(** The body of the loop over the folder references. *)
Definition appendIfBelow (rootPath : string) (folders : list Folder.t)
    (folderRef : FolderRef.t) : list Folder.t :=
  if negb (GoString.HasPrefix (FolderRef.InventoryPath folderRef)
                              (rootPath +:+ "/"))
     && negb (String.eqb (FolderRef.InventoryPath folderRef) rootPath)
  then folders
  else folders ++ [Folder.mk (FolderRef.InventoryPath folderRef)].

(** GetVMFolders returns a slice of VSphereFolders of the datacenter from
    the passed cloudspec. *)
Definition GetVMFolders (env : Env) (dc : DatacenterSpecVSphere.t)
    (username password : string) (caBundle : CertPool) : M (list Folder.t) :=
  session <-
    wrap "failed to create vCenter session: %w" []
      (newSession env dc username password caBundle);;
  defer (Logout session)
    (folderRefs <-
       wrap "couldn't retrieve folder list: %w" []
         (call (CallFolderList session "*")
               (fun h => of_sum (finder_FolderList env h session "*")));;
     let rootPath := getVMRootPath dc in
     ret (fold_left (appendIfBelow rootPath) folderRefs [])).

(** ** ValidateCloudSpec *)

(** [if name != "" { if _, err := find(ctx, name); err != nil { return
    fmt.Errorf(format, name, err) } }] *)
Definition lookupIfSet (c : string -> Call) (answer : Log -> string -> option error)
    (format : string) (name : string) : M unit :=
  if GoString.nonempty name
  then wrap format [name] (call (c name) (fun h => of_err (answer h name)))
  else ret tt.

(** ValidateCloudSpec validates whether a vsphere client can be constructed
    for the passed cloudspec and perform some additional checks on
    datastore config. *)
Definition ValidateCloudSpec (env : Env) (v : Provider.t) (spec : CloudSpec.t)
  : M unit :=
  cred <-
    GetCredentialsForCluster spec (Provider.secretKeySelector v)
      (Some (Provider.dc v));;
  let username := fst cred in
  let password := snd cred in
  vs <- deref (CloudSpec.VSphere spec);;
  if negb (GoString.nonempty (DatacenterSpecVSphere.DefaultDatastore (Provider.dc v)))
     && negb (GoString.nonempty (VSphereCloudSpec.DatastoreCluster vs))
     && negb (GoString.nonempty (VSphereCloudSpec.Datastore vs))
  then fail (errors_New
    "no default datastore provided at datacenter nor datastore/datastore cluster at cluster level")
  else if GoString.nonempty (VSphereCloudSpec.DatastoreCluster vs)
          && GoString.nonempty (VSphereCloudSpec.Datastore vs)
  then fail (errors_New "either datastore or datastore cluster can be selected")
  else
    session <-
      wrap "failed to create vCenter session: %w" []
        (newSession env (Provider.dc v) username password (Provider.caBundle v));;
    defer (Logout session)
      (lookupIfSet (CallFinderDatastore session)
         (fun h => finder_Datastore env h session)
         "failed to get default datastore provided by datacenter spec %q: %w"
         (DatacenterSpecVSphere.DefaultDatastore (Provider.dc v));;;
       lookupIfSet (CallFinderResourcePool session)
         (fun h => finder_ResourcePool env h session)
         "failed to get resource pool %s: %w"
         (VSphereCloudSpec.ResourcePool vs);;;
       lookupIfSet (CallFinderDatastoreCluster session)
         (fun h => finder_DatastoreCluster env h session)
         "failed to get datastore cluster provided by cluster spec %q: %w"
         (VSphereCloudSpec.DatastoreCluster vs);;;
       lookupIfSet (CallFinderDatastore session)
         (fun h => finder_Datastore env h session)
         "failed to get datastore cluster provided by cluste spec %q: %w"
         (VSphereCloudSpec.Datastore vs);;;
       ret tt).

(** ** CleanUpCloudProvider *)

(** The function handed to [update] after a resource was deleted. *)
Definition dropFinalizer (name : string) : Mutation :=
  fun cluster => Some (RemoveFinalizer cluster name).

Definition CleanUpCloudProvider (env : Env) (v : Provider.t)
    (cluster : Cluster.t) (update : ClusterUpdater) : M Cluster.t :=
  cred <-
    GetCredentialsForCluster (ClusterSpec.Cloud (Cluster.Spec cluster))
      (Provider.secretKeySelector v) (Some (Provider.dc v));;
  let username := fst cred in
  let password := snd cred in
  session <-
    wrap "failed to create vCenter session: %w" []
      (newSession env (Provider.dc v) username password (Provider.caBundle v));;
  defer (Logout session)
    (restSession <-
       wrap "failed to create REST client session: %w" []
         (newRESTSession env (Provider.dc v) username password
            (Provider.caBundle v));;
     defer (RESTLogout restSession)
       (cluster <-
          (if HasFinalizer cluster folderCleanupFinalizer then
             vs <- deref (Cluster.vsphere cluster);;
             deleteVMFolder env session (VSphereCloudSpec.Folder vs);;;
             run_update update (Cluster.Name cluster)
               (dropFinalizer folderCleanupFinalizer)
           else ret cluster);;
        cluster <-
          (if HasFinalizer cluster tagCategoryCleanupFinilizer then
             deleteTagCategory env restSession cluster;;;
             run_update update (Cluster.Name cluster)
               (dropFinalizer tagCategoryCleanupFinilizer)
           else ret cluster);;
        ret cluster)).

(** ** ValidateCloudSpecUpdate *)

(** ValidateCloudSpecUpdate verifies whether an update of cloud spec is
    valid and permitted; the result is the error, [None] for nil. *)
Definition ValidateCloudSpecUpdate (oldSpec newSpec : CloudSpec.t)
  : option error :=
  match CloudSpec.VSphere oldSpec, CloudSpec.VSphere newSpec with
  | Some oldV, Some newV =>
      if GoString.nonempty (VSphereCloudSpec.Folder oldV)
         && negb (String.eqb (VSphereCloudSpec.Folder oldV)
                             (VSphereCloudSpec.Folder newV))
      then Some (fmt_Errorf
                   "updating vSphere folder is not supported (was %s, updated to %s)"
                   [VSphereCloudSpec.Folder oldV; VSphereCloudSpec.Folder newV])
      else None
  | _, _ => Some (errors_New "'vsphere' spec is empty")
  end.

(** ** What the log shows *)

Inductive CallKind : Type :=
| KSecret | KSessionOpen | KLogout | KFinder
| KRESTOpen | KRESTLogout
| KCreateVMFolder | KDeleteVMFolder
| KCreateTagCategory | KDeleteTagCategory
| KUpdate.

Definition kind (c : Call) : CallKind :=
  match c with
  | CallSecret _ _ => KSecret
  | CallNewClient _ _ _ | CallLogin _ _ | CallFinderDatacenter _ _ => KSessionOpen
  | CallLogout _ => KLogout
  | CallFolderList _ _ | CallFinderDatastore _ _ | CallFinderResourcePool _ _
  | CallFinderDatastoreCluster _ _ => KFinder
  | CallNewRESTSession _ _ _ _ => KRESTOpen
  | CallRESTLogout _ => KRESTLogout
  | CallCreateVMFolder _ _ => KCreateVMFolder
  | CallDeleteVMFolder _ _ => KDeleteVMFolder
  | CallCreateTagCategory _ _ => KCreateTagCategory
  | CallDeleteTagCategory _ _ => KDeleteTagCategory
  | CallUpdate _ _ => KUpdate
  end.

(** [m] only ever adds calls to the log, and each call it adds satisfies
    [P]. *)
Definition emits {A} (P : Call -> Prop) (m : M A) : Prop :=
  forall h, exists t, snd (m h) = h ++ t /\ Forall P t.

(** The user a login call carries is [user]. *)
Definition logsInAs (user : Userinfo.t) (c : Call) : Prop :=
  match c with
  | CallLogin _ u => u = user
  | _ => True
  end.

(** ** The precedence of credentials, in the words of the specification *)

(** Where a field can come from. *)
Inductive Source : Type :=
| Inline (value : string)
| Secret (key : string).

Definition usernameChain (vs : VSphereCloudSpec.t) : list Source :=
  [ Inline (VSphereCredentials.Username (VSphereCloudSpec.InfraManagementUser vs));
    Inline (VSphereCloudSpec.Username vs);
    Secret VsphereInfraManagementUserUsername;
    Secret VsphereUsername ].

Definition passwordChain (vs : VSphereCloudSpec.t) : list Source :=
  [ Inline (VSphereCredentials.Password (VSphereCloudSpec.InfraManagementUser vs));
    Inline (VSphereCloudSpec.Password vs);
    Secret VsphereInfraManagementUserPassword;
    Secret VspherePassword ].

(** The first source of the chain that has a non-empty value; a secret is
    only looked up when every source before it was empty. *)
Fixpoint firstNonEmpty (secretKeySelector : SecretKeySelectorValueFunc)
    (ref : option GlobalSecretKeySelector.t) (chain : list Source) : M string :=
  match chain with
  | [] => ret ""
  | Inline value :: rest =>
      if GoString.nonempty value then ret value
      else firstNonEmpty secretKeySelector ref rest
  | Secret key :: rest =>
      match ref with
      | None =>
          fail (errors_New
                  "cluster contains no password an and empty credentialsReference")
      | Some r =>
          value <- selectSecret secretKeySelector r key;;
          if GoString.nonempty value then ret value
          else firstNonEmpty secretKeySelector ref rest
      end
  end.

(** Username and password, each resolved on its own through its chain. *)
Definition resolveByPrecedence (secretKeySelector : SecretKeySelectorValueFunc)
    (vs : VSphereCloudSpec.t) : M (string * string) :=
  username <-
    firstNonEmpty secretKeySelector (VSphereCloudSpec.CredentialsReference vs)
      (usernameChain vs);;
  password <-
    firstNonEmpty secretKeySelector (VSphereCloudSpec.CredentialsReference vs)
      (passwordChain vs);;
  if negb (GoString.nonempty username)
  then fail (errors_New "unable to get username")
  else if negb (GoString.nonempty password)
  then fail (errors_New "unable to get password")
  else ret (username, password).

(** The datacenter-level management user, when both its fields are set. *)
Definition datacenterCredentials (dc : option DatacenterSpecVSphere.t)
  : option (string * string) :=
  match dc with
  | Some {| DatacenterSpecVSphere.InfraManagementUser := Some imu |} =>
      if GoString.nonempty (VSphereCredentials.Username imu)
         && GoString.nonempty (VSphereCredentials.Password imu)
      then Some (VSphereCredentials.Username imu, VSphereCredentials.Password imu)
      else None
  | _ => None
  end.

(** ** The folder filter, in the words of the specification *)

(** A path is kept when it equals the root path or begins with the root
    path followed by a slash. *)
Definition belowRoot (rootPath : string) (folderRef : FolderRef.t) : bool :=
  String.eqb (FolderRef.InventoryPath folderRef) rootPath
  || GoString.HasPrefix (FolderRef.InventoryPath folderRef) (rootPath +:+ "/").

Definition toFolder (folderRef : FolderRef.t) : Folder.t :=
  Folder.mk (FolderRef.InventoryPath folderRef).

(** ** The datastore checks of ValidateCloudSpec *)

Definition noDatastore (dc : DatacenterSpecVSphere.t) (vs : VSphereCloudSpec.t)
  : bool :=
  negb (GoString.nonempty (DatacenterSpecVSphere.DefaultDatastore dc))
  && negb (GoString.nonempty (VSphereCloudSpec.DatastoreCluster vs))
  && negb (GoString.nonempty (VSphereCloudSpec.Datastore vs)).

Definition bothDatastores (vs : VSphereCloudSpec.t) : bool :=
  GoString.nonempty (VSphereCloudSpec.DatastoreCluster vs)
  && GoString.nonempty (VSphereCloudSpec.Datastore vs).

Definition configurationError (dc : DatacenterSpecVSphere.t)
    (vs : VSphereCloudSpec.t) : error :=
  if noDatastore dc vs
  then errors_New
    "no default datastore provided at datacenter nor datastore/datastore cluster at cluster level"
  else errors_New "either datastore or datastore cluster can be selected".

(** The folder a cloud spec carries, empty when it has none. *)
Definition folderOf (spec : CloudSpec.t) : string :=
  match CloudSpec.VSphere spec with
  | Some vs => VSphereCloudSpec.Folder vs
  | None => ""
  end.

(** ** The opening of a clean-up *)

(** The credentials resolved and both sessions opened, from log [h] to log
    [h2] and the REST session's call. *)
Definition opened env v cluster (h : Log) cred (s : Session.t)
    (restSession : RESTSession.t) (h2 : Log) : Prop :=
  exists h1,
    GetCredentialsForCluster (ClusterSpec.Cloud (Cluster.Spec cluster))
      (Provider.secretKeySelector v) (Some (Provider.dc v)) h = (Ok cred, h1)
    /\ newSession env (Provider.dc v) (fst cred) (snd cred) (Provider.caBundle v) h1
       = (Ok s, h2)
    /\ newRESTSession_answer env h2 (Provider.dc v) (fst cred) (snd cred)
         (Provider.caBundle v) = inr restSession.

(** ** Concrete providers, clusters and environments *)

Module Fixture.

Definition noCredentials : VSphereCredentials.t := VSphereCredentials.mk "" "".

Definition secretRef : GlobalSecretKeySelector.t :=
  GlobalSecretKeySelector.mk "kubermatic" "credential-vsphere-c1" "".

(** A secret that holds the plain keys only. *)
Definition plainSecret : SecretKeySelectorValueFunc :=
  fun _ key =>
    if String.eqb key VsphereUsername then inr "secret-user"
    else if String.eqb key VspherePassword then inr "secret-pass"
    else inr "".

Definition vsphere (ref : option GlobalSecretKeySelector.t)
    (username password : string) (imu : VSphereCredentials.t)
    (folder tagCategoryID datastore datastoreCluster : string)
  : VSphereCloudSpec.t :=
  VSphereCloudSpec.mk ref username password imu folder datastore
    datastoreCluster "" tagCategoryID.

Definition cloud (vs : VSphereCloudSpec.t) : CloudSpec.t :=
  CloudSpec.mk (Some vs).

(** A cluster with inline credentials. *)
Definition cluster (finalizers : gset string) (folder tagCategoryID : string)
  : Cluster.t :=
  Cluster.mk "c1" finalizers
    (ClusterSpec.mk
       (cloud (vsphere None "admin" "hunter2" noCredentials folder
                 tagCategoryID "ds1" ""))).

Definition datacenter (rootPath : string)
    (imu : option VSphereCredentials.t) : DatacenterSpecVSphere.t :=
  DatacenterSpecVSphere.mk "https://vcenter.example.com" false "" "dc"
    rootPath imu.

Definition provider : Provider.t :=
  Provider.mk (datacenter "" None) plainSecret [].

Definition inventory : list FolderRef.t :=
  [ FolderRef.mk "/dc/vm"; FolderRef.mk "/dc/vm/a";
    FolderRef.mk "/dc/vm/ab"; FolderRef.mk "/dc/other" ].

(** A vCenter that opens every session and answers the folder and tag
    category operations as told. *)
Definition vcenter (createFolder deleteFolder : option error)
    (createTag : error + string) (deleteTag : option error) : Env :=
  {| url_Parse := fun raw => inr raw;
     vim25_NewClient := fun _ _ _ _ => inr 1;
     client_Login := fun _ _ _ => None;
     finder_Datacenter := fun _ _ _ => inr 2;
     finder_FolderList := fun _ _ _ => inr inventory;
     finder_Datastore := fun _ _ _ => None;
     finder_ResourcePool := fun _ _ _ => None;
     finder_DatastoreCluster := fun _ _ _ => None;
     newRESTSession_answer := fun _ _ _ _ _ => inr (RESTSession.mk 3);
     createVMFolder_answer := fun _ _ _ => createFolder;
     deleteVMFolder_answer := fun _ _ _ => deleteFolder;
     createTagCategory_answer := fun _ _ _ => createTag;
     deleteTagCategory_answer := fun _ _ _ => deleteTag |}.

Definition healthy : Env := vcenter None None (inr "urn:category:1") None.

Definition refused : error := errors_New "dial tcp: connection refused".

(** A vCenter that cannot be reached. *)
Definition unreachable : Env :=
  {| url_Parse := fun raw => inr raw;
     vim25_NewClient := fun _ _ _ _ => inl refused;
     client_Login := fun _ _ _ => Some refused;
     finder_Datacenter := fun _ _ _ => inl refused;
     finder_FolderList := fun _ _ _ => inl refused;
     finder_Datastore := fun _ _ _ => Some refused;
     finder_ResourcePool := fun _ _ _ => Some refused;
     finder_DatastoreCluster := fun _ _ _ => Some refused;
     newRESTSession_answer := fun _ _ _ _ _ => inl refused;
     createVMFolder_answer := fun _ _ _ => Some refused;
     deleteVMFolder_answer := fun _ _ _ => Some refused;
     createTagCategory_answer := fun _ _ _ => inl refused;
     deleteTagCategory_answer := fun _ _ _ => Some refused |}.

Definition denied : error := errors_New "permission denied".

(** An updater that applies the mutation to the cluster it stores. *)
Definition updaterOf (stored : Cluster.t) : ClusterUpdater :=
  fun _ _ mutate =>
    match mutate stored with
    | Some c => inr c
    | None => inl (errors_New "mutation failed")
    end.

End Fixture.

(** ** Further definitions for the provider *)

(** The user newSession logs in with. *)
Definition loginUser (dc : DatacenterSpecVSphere.t) (username password : string)
  : Userinfo.t :=
  match DatacenterSpecVSphere.InfraManagementUser dc with
  | Some imu =>
      Userinfo.UserPassword (VSphereCredentials.Username imu)
                            (VSphereCredentials.Password imu)
  | None => Userinfo.UserPassword username password
  end.

(** The chains without management user, as the comment on
    getUsernameAndPassword has them: user from cluster, user from secret. *)
Definition plainUsernameChain (vs : VSphereCloudSpec.t) : list Source :=
  [ Inline (VSphereCloudSpec.Username vs); Secret VsphereUsername ].

Definition plainPasswordChain (vs : VSphereCloudSpec.t) : list Source :=
  [ Inline (VSphereCloudSpec.Password vs); Secret VspherePassword ].

(** A datacenter spec with another root path. *)
Definition withRootPath (dc : DatacenterSpecVSphere.t) (rootPath : string)
  : DatacenterSpecVSphere.t :=
  DatacenterSpecVSphere.mk (DatacenterSpecVSphere.Endpoint dc)
    (DatacenterSpecVSphere.AllowInsecure dc)
    (DatacenterSpecVSphere.DefaultDatastore dc)
    (DatacenterSpecVSphere.Datacenter dc) rootPath
    (DatacenterSpecVSphere.InfraManagementUser dc).

(** The lookups ValidateCloudSpec makes for the names that are set, in the
    order it makes them. *)
Definition lookupCalls (s : Session.t) (dc : DatacenterSpecVSphere.t)
    (vs : VSphereCloudSpec.t) : list Call :=
  (if GoString.nonempty (DatacenterSpecVSphere.DefaultDatastore dc)
   then [CallFinderDatastore s (DatacenterSpecVSphere.DefaultDatastore dc)]
   else [])
  ++ (if GoString.nonempty (VSphereCloudSpec.ResourcePool vs)
      then [CallFinderResourcePool s (VSphereCloudSpec.ResourcePool vs)]
      else [])
  ++ (if GoString.nonempty (VSphereCloudSpec.DatastoreCluster vs)
      then [CallFinderDatastoreCluster s (VSphereCloudSpec.DatastoreCluster vs)]
      else [])
  ++ (if GoString.nonempty (VSphereCloudSpec.Datastore vs)
      then [CallFinderDatastore s (VSphereCloudSpec.Datastore vs)]
      else []).

(** ** The shape of a clean path *)

(** What [path.Clean] returns for the elements [out] it has written, last
    first. *)
Definition render (rooted : bool) (out : list string) : string :=
  let body := String.concat "/" (rev out) in
  if rooted then "/" +:+ body
  else if GoString.nonempty body then body else ".".

Definition isDotDot (elem : string) : bool := String.eqb elem "..".

(** The elements [path.Clean] can have written, last first: in a rooted
    path single path elements only, otherwise single path elements on top
    of leading [".."] elements. *)
Definition written (rooted : bool) (out : list string) : Prop :=
  exists plains dotdots,
    out = plains ++ dotdots
    /\ Forall (fun e => GoPath.plain_element e = true) plains
    /\ Forall (fun e => isDotDot e = true) dotdots
    /\ (rooted = true -> dotdots = []).

(** * The dashboard components *)

(** ** Machine deployment details: the metrics of the nodes *)

Module MachineDeploymentDetails.

(** [_storeNodeMetrics(metrics)]: the map that becomes [this.metrics]; of a
    metric only its name is read. *)
Definition storeNodeMetrics {NodeMetrics : Type} (name : NodeMetrics -> string)
    (metrics : list NodeMetrics) : gmap string NodeMetrics :=
  fold_left (fun map m => <[ name m := m ]> map) metrics ∅.

End MachineDeploymentDetails.

(** ** Edit project: the labels that are sent *)

Module EditProject.

(** The value of a label: the label form hands back null for a label that
    was removed. *)
Inductive LabelValue : Type :=
| Null
| Undefined
| Text (value : string).

Definition isNull (v : LabelValue) : bool :=
  match v with
  | Null => true
  | _ => false
  end.

(** [labels] is the one object the component keeps in [this.labels] and
    puts into the project it sends; [None] is undefined. *)
Record Component := mkComponent {
  projectID : string;
  formName : string;
  labels : option (gmap string LabelValue)
}.

Record ProjectModel := mkProjectModel {
  name : string;
  modelLabels : option (gmap string LabelValue)
}.

(** The body of the loop: [if (hasOwnProperty(label) && labels[label] ===
    null) delete labels[label]]. *)
Definition dropIfNull (ls : gmap string LabelValue) (label : string)
  : gmap string LabelValue :=
  match ls !! label with
  | Some Null => delete label ls
  | _ => ls
  end.

(** [for (const label in project.labels) ...], over the properties the
    object has when the loop starts. *)
Definition removeNullified (ls : gmap string LabelValue) : gmap string LabelValue :=
  fold_left dropIfNull (map fst (map_to_list ls)) ls.

(** [getObservable()]: the arguments of [_projectService.edit] and the
    component afterwards; the loop changes the object both share. *)
Definition getObservable (c : Component) : (string * ProjectModel) * Component :=
  let cleaned := option_map removeNullified (labels c) in
  ((projectID c, mkProjectModel (formName c) cleaned),
   mkComponent (projectID c) (formName c) cleaned).

End EditProject.

(** ** Add node on vSphere: the template and the operating system *)

Module VSphereAddNode.

Section Numbers.

(** The values of the cpu and memory controls, which the component only
    hands on, and the validity of the form, which Angular works out. *)
Variable Number : Type.

Record Form := mkForm {
  cpu : Number;
  memory : Number;
  template : string
}.

Variable formValid : Form -> bool.

Record NodeProviderData := mkNodeProviderData {
  cpus : Number;
  specMemory : Number;
  specTemplate : string;
  valid : bool
}.

Record NodeOperatingSystemData := mkNodeOperatingSystemData {
  ubuntu : bool;
  containerLinux : bool
}.

Record Component := mkComponent {
  vsphereNodeForm : Form;
  defaultTemplate : string
}.

Definition getNodeProviderData (c : Component) : NodeProviderData :=
  mkNodeProviderData (cpu (vsphereNodeForm c)) (memory (vsphereNodeForm c))
    (template (vsphereNodeForm c)) (formValid (vsphereNodeForm c)).

(** [vsphereNodeForm.setValue(value)]: the form changes and the
    subscription to its value changes hands the provider data on. *)
Definition setValue (c : Component) (value : Form)
  : Component * list NodeProviderData :=
  let c' := mkComponent value (defaultTemplate c) in
  (c', [getNodeProviderData c']).

(** [template === '' || template === 'ubuntu-template' || template ===
    'coreos_production_vmware_ova'] *)
Definition isStockTemplate (t : string) : bool :=
  String.eqb t "" || String.eqb t "ubuntu-template"
  || String.eqb t "coreos_production_vmware_ova".

Definition useTemplate (c : Component) (t : string)
  : Component * list NodeProviderData :=
  let (c1, sent) :=
    if isStockTemplate (template (vsphereNodeForm c))
    then setValue c (mkForm (cpu (vsphereNodeForm c)) (memory (vsphereNodeForm c)) t)
    else (c, []) in
  (mkComponent (vsphereNodeForm c1) t, sent).

(** The subscription to [nodeOperatingSystemDataChanges$]: the component
    afterwards and the provider data handed on. *)
Definition onOperatingSystemData (c : Component) (data : NodeOperatingSystemData)
  : Component * list NodeProviderData :=
  if ubuntu data then useTemplate c "ubuntu-template"
  else if containerLinux data then useTemplate c "coreos_production_vmware_ova"
  else (mkComponent (vsphereNodeForm c) "ubuntu-template", []).

End Numbers.

End VSphereAddNode.

(** ** Project quota dialog: what is sent *)

Module ProjectQuotaDialog.

Section Numbers.

(** The numbers of the form with the three things the component does with
    them: [v > 0], [value === 0] and [v.toString()]. *)
Variable Number : Type.
Variable positive : Number -> bool.
Variable isZero : Number -> bool.
Variable toString : Number -> string.

(** [QuotaVariables<number>] of the form: [None] is null. *)
Record QuotaVariables := mkQuotaVariables {
  cpu : option Number;
  memory : option Number;
  storage : option Number
}.

Record FormValue := mkFormValue {
  quota : QuotaVariables;
  subjectKind : string;
  subjectName : string
}.

(** [QuotaDetails], of which the name and the subject name are read. *)
Record QuotaDetails := mkQuotaDetails {
  name : string;
  detailsSubjectName : string
}.

Inductive Request : Type :=
| UpdateQuota (name : string) (quota : list (string * string))
| CreateQuota (subjectKind subjectName : string) (quota : list (string * string)).

(** [Object.entries(formValue.quota)] *)
Definition entries (q : QuotaVariables) : list (string * option Number) :=
  [("cpu", cpu q); ("memory", memory q); ("storage", storage q)].

(** [v > 0], false for null. *)
Definition greaterThanZero (v : option Number) : bool :=
  match v with
  | Some n => positive n
  | None => false
  end.

(** [.filter(([_, v]) => v > 0).map(([k, v]) => [k, v.toString()])] *)
Definition quotaPayload (q : QuotaVariables) : list (string * string) :=
  flat_map (fun kv =>
              match snd kv with
              | Some n => [(fst kv, toString n)]
              | None => []
              end)
    (List.filter (fun kv => greaterThanZero (snd kv)) (entries q)).

(** [getObservable()]: the request the returned observable makes when it
    is subscribed to; [None] is [of(null)]. *)
Definition getObservable (formInvalid : bool) (formValue : FormValue)
    (selectedQuota : option QuotaDetails) : option Request :=
  if formInvalid then None
  else
    let quota := quotaPayload (quota formValue) in
    Some (match selectedQuota with
          | Some selected => UpdateQuota (name selected) quota
          | None => CreateQuota (subjectKind formValue) (subjectName formValue) quota
          end).

(** The subscription to the changes of the subject name: the selected
    quota afterwards. *)
Definition onSubjectName (quotas : list QuotaDetails)
    (selectedQuota : option QuotaDetails) (projectId : string)
  : option QuotaDetails :=
  if GoString.nonempty projectId
  then List.find (fun q => String.eqb (detailsSubjectName q) projectId) quotas
  else selectedQuota.

(** The subscription to the changes of the quota group: a control whose
    value is 0 is set to null. *)
Definition zeroToNull (v : option Number) : option Number :=
  match v with
  | Some n => if isZero n then None else Some n
  | None => None
  end.

Definition onQuotaGroup (q : QuotaVariables) : QuotaVariables :=
  mkQuotaVariables (zeroToNull (cpu q)) (zeroToNull (memory q))
    (zeroToNull (storage q)).

End Numbers.

End ProjectQuotaDialog.


(** * Theorems *)

(** ** Strings and paths *)

Lemma nonempty_true s : GoString.nonempty s = true <-> s <> "".
Proof. destruct s; simpl; split; congruence. Qed.

Lemma nonempty_false s : GoString.nonempty s = false <-> s = "".
Proof. destruct s; simpl; split; congruence. Qed.

Lemma HasPrefix_app s p :
  GoString.HasPrefix s p = true <-> exists rest, s = p +:+ rest.
Proof.
  unfold GoString.HasPrefix. revert s.
  induction p as [|a p IH]; intros s; simpl.
  - split; [exists s; reflexivity | destruct s; reflexivity].
  - destruct s as [|b s]; simpl.
    + split; [discriminate | intros [r Hr]; discriminate].
    + destruct (Ascii.ascii_dec a b) as [->|Hne].
      * rewrite IH. split; intros [r Hr]; exists r.
        -- subst s. reflexivity.
        -- now inversion Hr.
      * split; [discriminate | intros [r Hr]; inversion Hr; congruence].
Qed.

Example Clean_double_slash : GoPath.Clean "//dc/vm" = "/dc/vm".
Proof. reflexivity. Qed.

Example Clean_dotdot : GoPath.Clean "a/b/../../../c/./d/" = "../c/d".
Proof. reflexivity. Qed.

Example Clean_rooted_dotdot : GoPath.Clean "/../a//b/.." = "/a".
Proof. reflexivity. Qed.

Example Clean_only_dot : GoPath.Clean "./" = ".".
Proof. reflexivity. Qed.

Example Join_root : GoPath.Join ["/"; "dc"; "vm"] = "/dc/vm".
Proof. reflexivity. Qed.

Example Join_skips_empty : GoPath.Join [""; ""; "a"; ""; "b"] = "a/b".
Proof. reflexivity. Qed.

Lemma append_cons c s t : String c s +:+ t = String c (s +:+ t).
Proof. reflexivity. Qed.

Lemma append_empty_l t : "" +:+ t = t.
Proof. reflexivity. Qed.

(** A name without slash is the first element of whatever follows it. *)
Lemma split_plain d rest :
  GoPath.no_slash d = true ->
  GoPath.split (d +:+ String GoPath.slash rest) = d :: GoPath.split rest.
Proof.
  induction d as [|c d IH]; intros Hd.
  - reflexivity.
  - simpl in Hd. apply andb_prop in Hd as [Hc Hd].
    rewrite append_cons. simpl.
    apply negb_true_iff in Hc. rewrite Hc.
    rewrite (IH Hd). reflexivity.
Qed.

Lemma append_slash_vm d : (d +:+ "/") +:+ "vm" = d +:+ String GoPath.slash "vm".
Proof. induction d; [reflexivity | rewrite !append_cons; congruence]. Qed.

Lemma join_steps_datacenter_vm d :
  GoString.nonempty d = true ->
  fold_left GoPath.join_step ["/"; d; "vm"] ""
  = String GoPath.slash (String GoPath.slash (d +:+ String GoPath.slash "vm")).
Proof.
  intros Hne. rewrite <- append_slash_vm.
  destruct d as [|c d]; [discriminate | reflexivity].
Qed.

Lemma Clean_rooted rest :
  GoPath.Clean (String GoPath.slash rest)
  = "/" +:+ String.concat "/"
              (rev (fold_left (GoPath.clean_step true)
                      (GoPath.split (String GoPath.slash rest)) [])).
Proof. reflexivity. Qed.

Lemma split_slash rest :
  GoPath.split (String GoPath.slash rest) = "" :: GoPath.split rest.
Proof. reflexivity. Qed.

Lemma clean_step_empty rooted out : GoPath.clean_step rooted out "" = out.
Proof. reflexivity. Qed.

Lemma clean_step_plain rooted out d :
  GoPath.plain_element d = true ->
  GoPath.clean_step rooted out d = d :: out.
Proof.
  unfold GoPath.plain_element, GoPath.clean_step. intros H.
  apply andb_prop in H as [H Hdd]. apply andb_prop in H as [H Hd].
  apply andb_prop in H as [Hne _].
  apply negb_true_iff in Hdd, Hd. rewrite Hd, Hdd.
  destruct d; [discriminate | reflexivity].
Qed.

Lemma Join_datacenter_vm d :
  GoPath.plain_element d = true ->
  GoPath.Join ["/"; d; "vm"] = "/" +:+ d +:+ "/vm".
Proof.
  intros H.
  assert (Hne : GoString.nonempty d = true).
  { unfold GoPath.plain_element in H.
    destruct (GoString.nonempty d); [reflexivity | discriminate]. }
  assert (Hs : GoPath.no_slash d = true).
  { unfold GoPath.plain_element in H. rewrite Hne in H.
    destruct (GoPath.no_slash d); [reflexivity | discriminate]. }
  unfold GoPath.Join.
  replace (fold_left (fun n e => n + String.length e) ["/"; d; "vm"] 0)
    with (S (String.length d + 2)) by (simpl; lia).
  cbn [Nat.eqb].
  rewrite (join_steps_datacenter_vm d Hne), Clean_rooted.
  rewrite !split_slash, (split_plain d "vm" Hs).
  cbn [fold_left].
  rewrite !clean_step_empty, (clean_step_plain true [] d H).
  reflexivity.
Qed.

(** ** The log only grows *)

Lemma emits_lift {A} (P : Call -> Prop) (r : outcome A) : emits P (lift r).
Proof. intros h. exists []. split; [symmetry; apply app_nil_r | constructor]. Qed.

Lemma emits_ret {A} (P : Call -> Prop) (a : A) : emits P (ret a).
Proof. apply emits_lift. Qed.

Lemma emits_fail {A} (P : Call -> Prop) (e : error) : emits P (@fail A e).
Proof. apply emits_lift. Qed.

Lemma emits_deref {A} (P : Call -> Prop) (p : option A) : emits P (deref p).
Proof. apply emits_lift. Qed.

Lemma emits_call {A} (P : Call -> Prop) (c : Call) (answer : Log -> outcome A) :
  P c -> emits P (call c answer).
Proof. intros Hc h. exists [c]. split; [reflexivity | repeat constructor; exact Hc]. Qed.

Lemma emits_bind {A B} (P : Call -> Prop) (m : M A) (k : A -> M B) :
  emits P m -> (forall a, emits P (k a)) -> emits P (bind m k).
Proof.
  intros Hm Hk h. unfold bind.
  destruct (Hm h) as (t1 & E1 & F1).
  destruct (m h) as [[a|e|] h1]; simpl in E1; subst h1.
  - destruct (Hk a (h ++ t1)) as (t2 & E2 & F2).
    exists (t1 ++ t2). rewrite E2, app_assoc.
    split; [reflexivity | apply Forall_app; split; assumption].
  - exists t1. split; [reflexivity | assumption].
  - exists t1. split; [reflexivity | assumption].
Qed.

Lemma emits_wrap {A} (P : Call -> Prop) format args (m : M A) :
  emits P m -> emits P (wrap format args m).
Proof.
  intros Hm h. unfold wrap.
  destruct (Hm h) as (t & E & F).
  destruct (m h) as [[a|e|] h1]; simpl in *; exists t; split; assumption.
Qed.

Lemma emits_defer {A} (P : Call -> Prop) (cleanup : M unit) (body : M A) :
  emits P cleanup -> emits P body -> emits P (defer cleanup body).
Proof.
  intros Hc Hb h. unfold defer.
  destruct (Hb h) as (t1 & E1 & F1).
  destruct (body h) as [r h1]; simpl in E1; subst h1.
  destruct (Hc (h ++ t1)) as (t2 & E2 & F2).
  exists (t1 ++ t2). simpl. rewrite E2, app_assoc.
  split; [reflexivity | apply Forall_app; split; assumption].
Qed.

Lemma emits_weaken {A} (P Q : Call -> Prop) (m : M A) :
  (forall c, P c -> Q c) -> emits P m -> emits Q m.
Proof.
  intros HPQ Hm h. destruct (Hm h) as (t & E & F).
  exists t. split; [assumption | eapply Forall_impl; eassumption].
Qed.

(** Walks through a computation built from the combinators; what is left
    are the calls themselves. *)
Ltac emits_walk :=
  repeat first
    [ apply emits_ret | apply emits_fail | apply emits_deref | apply emits_lift
    | apply emits_wrap
    | apply emits_defer
    | apply emits_bind; [| intros ?]
    | progress cbv zeta
    | match goal with
      | |- emits _ (if ?b then _ else _) => destruct b eqn:?
      | |- emits _ (match ?x with _ => _ end) => destruct x eqn:?
      end ].

Ltac emits_calls := emits_walk; try (apply emits_call; simpl; tauto).

Lemma emits_GetCredentialsForCluster (P : Call -> Prop) cloud secretKeySelector dc :
  (forall ref key, P (CallSecret ref key)) ->
  emits P (GetCredentialsForCluster cloud secretKeySelector dc).
Proof.
  intros HP.
  unfold GetCredentialsForCluster, getUsernameAndPassword, selectSecret.
  emits_walk; apply emits_call; apply HP.
Qed.

Lemma emits_newSession (P : Call -> Prop) env dc username password caBundle :
  (forall c, kind c = KSessionOpen -> P c) ->
  emits P (newSession env dc username password caBundle).
Proof.
  intros HP. unfold newSession.
  emits_walk; apply emits_call; apply HP; reflexivity.
Qed.

(** ** getVMRootPath *)

(** C8 as written: without an override the root path would be the
    datacenter name followed by ["/vm"]. It is not: the code joins from the
    root, so the path is absolute. *)
Lemma getVMRootPath_is_rooted_counterexample :
  DatacenterSpecVSphere.RootPath (Fixture.datacenter "" None) = ""
  /\ getVMRootPath (Fixture.datacenter "" None) = "/dc/vm"
  /\ getVMRootPath (Fixture.datacenter "" None)
     <> DatacenterSpecVSphere.Datacenter (Fixture.datacenter "" None) +:+ "/vm".
Proof. repeat split. discriminate. Qed.

(** C8, amended: without an override root path, getVMRootPath is
    [path.Join("/", datacenter, "vm")], which for a datacenter name that is
    a single path element is the absolute path ["/" + datacenter + "/vm"];
    with an override it is [path.Clean] of the override and does not depend
    on anything else in the datacenter spec. *)
Theorem getVMRootPath_spec (dc : DatacenterSpecVSphere.t) :
  (DatacenterSpecVSphere.RootPath dc = "" ->
     getVMRootPath dc = GoPath.Join ["/"; DatacenterSpecVSphere.Datacenter dc; "vm"]
     /\ (GoPath.plain_element (DatacenterSpecVSphere.Datacenter dc) = true ->
         getVMRootPath dc = "/" +:+ DatacenterSpecVSphere.Datacenter dc +:+ "/vm"))
  /\ (DatacenterSpecVSphere.RootPath dc <> "" ->
     getVMRootPath dc = GoPath.Clean (DatacenterSpecVSphere.RootPath dc)
     /\ forall dc',
          DatacenterSpecVSphere.RootPath dc' = DatacenterSpecVSphere.RootPath dc ->
          getVMRootPath dc' = getVMRootPath dc).
Proof.
  unfold getVMRootPath. split.
  - intros ->. cbn [GoString.nonempty]. split; [reflexivity |].
    apply Join_datacenter_vm.
  - intros Hne. apply nonempty_true in Hne. rewrite Hne.
    split; [reflexivity |]. intros dc' ->. rewrite Hne. reflexivity.
Qed.

Lemma getVMRootPath_spec_witness :
  getVMRootPath (Fixture.datacenter "" None) = "/" +:+ "dc" +:+ "/vm"
  /\ getVMRootPath (Fixture.datacenter "/kubermatic//clusters/" None)
     = "/kubermatic/clusters".
Proof.
  split.
  - apply (proj2 (proj1 (getVMRootPath_spec (Fixture.datacenter "" None))
                    eq_refl)).
    reflexivity.
  - destruct (proj2 (getVMRootPath_spec
                       (Fixture.datacenter "/kubermatic//clusters/" None)))
      as [H _]; [discriminate | exact H].
Defined.

(** ** ValidateCloudSpecUpdate *)

(** C6 as written: the update would fail exactly when the old folder is
    set and the new one differs. An old spec without vSphere section has no
    folder, and the update to a spec with a folder is still refused. *)
Lemma ValidateCloudSpecUpdate_nil_counterexample :
  let oldSpec := CloudSpec.mk None in
  let newSpec :=
    Fixture.cloud (Fixture.vsphere None "" "" Fixture.noCredentials
                     "/dc/vm/b" "" "" "") in
  ValidateCloudSpecUpdate oldSpec newSpec
    = Some (errors_New "'vsphere' spec is empty")
  /\ ~ (ValidateCloudSpecUpdate oldSpec newSpec <> None
        <-> folderOf oldSpec <> "" /\ folderOf newSpec <> folderOf oldSpec).
Proof.
  split; [reflexivity |].
  intros [H _]. destruct H as [H _]; [discriminate |]. apply H. reflexivity.
Qed.

(** C6, amended: ValidateCloudSpecUpdate makes no call; when both specs
    have a vSphere section it fails exactly when the old folder is
    non-empty and the new folder differs from it; when either has none it
    fails with the error that the vsphere spec is empty. *)
Theorem ValidateCloudSpecUpdate_spec (oldSpec newSpec : CloudSpec.t) :
  (forall oldV newV,
     CloudSpec.VSphere oldSpec = Some oldV ->
     CloudSpec.VSphere newSpec = Some newV ->
     (ValidateCloudSpecUpdate oldSpec newSpec <> None
      <-> VSphereCloudSpec.Folder oldV <> ""
          /\ VSphereCloudSpec.Folder newV <> VSphereCloudSpec.Folder oldV))
  /\ (CloudSpec.VSphere oldSpec = None \/ CloudSpec.VSphere newSpec = None ->
      ValidateCloudSpecUpdate oldSpec newSpec
      = Some (errors_New "'vsphere' spec is empty")).
Proof.
  unfold ValidateCloudSpecUpdate. split.
  - intros oldV newV -> ->.
    destruct (GoString.nonempty (VSphereCloudSpec.Folder oldV)) eqn:Hne;
      destruct (String.eqb_spec (VSphereCloudSpec.Folder oldV)
                                (VSphereCloudSpec.Folder newV)) as [Heq|Hneq];
      cbn [andb negb].
    + split; [congruence |]. intros [_ H]. congruence.
    + apply nonempty_true in Hne. split; [| discriminate].
      intros _. split; congruence.
    + apply nonempty_false in Hne. split; [congruence |]. intros [H _]. congruence.
    + apply nonempty_false in Hne. split; [congruence |]. intros [H _]. congruence.
  - intros [-> | H]; [reflexivity |]. rewrite H.
    destruct (CloudSpec.VSphere oldSpec); reflexivity.
Qed.

Lemma ValidateCloudSpecUpdate_spec_witness :
  let spec folder :=
    Fixture.cloud (Fixture.vsphere None "" "" Fixture.noCredentials
                     folder "" "" "") in
  ValidateCloudSpecUpdate (spec "/dc/vm/a") (spec "/dc/vm/b") <> None
  /\ ValidateCloudSpecUpdate (CloudSpec.mk None) (spec "/dc/vm/b")
     = Some (errors_New "'vsphere' spec is empty").
Proof.
  intros spec. split.
  - apply (proj1 (ValidateCloudSpecUpdate_spec (spec "/dc/vm/a") (spec "/dc/vm/b"))
             _ _ eq_refl eq_refl).
    split; discriminate.
  - apply (proj2 (ValidateCloudSpecUpdate_spec (CloudSpec.mk None) (spec "/dc/vm/b"))).
    left. reflexivity.
Defined.

Example relocation_rejected :
  ValidateCloudSpecUpdate
    (Fixture.cloud (Fixture.vsphere None "" "" Fixture.noCredentials "/dc/vm/a" "" "" ""))
    (Fixture.cloud (Fixture.vsphere None "" "" Fixture.noCredentials "/dc/vm/b" "" "" ""))
  = Some (fmt_Errorf "updating vSphere folder is not supported (was %s, updated to %s)"
            ["/dc/vm/a"; "/dc/vm/b"]).
Proof. reflexivity. Qed.

Example first_folder_accepted :
  ValidateCloudSpecUpdate
    (Fixture.cloud (Fixture.vsphere None "" "" Fixture.noCredentials "" "" "" ""))
    (Fixture.cloud (Fixture.vsphere None "" "" Fixture.noCredentials "/dc/vm/b" "" "" ""))
  = None.
Proof. reflexivity. Qed.

(** ** GetVMFolders *)

Lemma belowRoot_spec rootPath folderRef :
  belowRoot rootPath folderRef = true
  <-> FolderRef.InventoryPath folderRef = rootPath
      \/ exists rest,
           FolderRef.InventoryPath folderRef = (rootPath +:+ "/") +:+ rest.
Proof.
  unfold belowRoot. rewrite orb_true_iff, String.eqb_eq, HasPrefix_app.
  reflexivity.
Qed.

(** The loop keeps the folders below the root, in the order of the
    inventory. *)
Lemma appendIfBelow_fold rootPath folderRefs acc :
  fold_left (appendIfBelow rootPath) folderRefs acc
  = acc ++ map toFolder (List.filter (belowRoot rootPath) folderRefs).
Proof.
  revert acc. induction folderRefs as [|r refs IH]; intros acc; simpl.
  - symmetry. apply app_nil_r.
  - rewrite IH. unfold appendIfBelow, belowRoot.
    destruct (GoString.HasPrefix (FolderRef.InventoryPath r) (rootPath +:+ "/"));
      destruct (String.eqb (FolderRef.InventoryPath r) rootPath); simpl;
      try reflexivity; rewrite <- app_assoc; reflexivity.
Qed.

(** C7: once the session is open and the inventory listed, GetVMFolders
    returns exactly the folders whose path equals the root path or begins
    with the root path followed by a slash, in inventory order; with the
    inventory /dc/vm, /dc/vm/a, /dc/vm/ab, /dc/other and the root /dc/vm/a
    only /dc/vm/a is returned. *)
Theorem GetVMFolders_spec env dc username password caBundle h s h1 folderRefs :
  newSession env dc username password caBundle h = (Ok s, h1) ->
  finder_FolderList env h1 s "*" = inr folderRefs ->
  GetVMFolders env dc username password caBundle h
  = (Ok (map toFolder (List.filter (belowRoot (getVMRootPath dc)) folderRefs)),
     h1 ++ [CallFolderList s "*"; CallLogout s])
  /\ (forall folderRef,
        belowRoot (getVMRootPath dc) folderRef = true
        <-> FolderRef.InventoryPath folderRef = getVMRootPath dc
            \/ exists rest,
                 FolderRef.InventoryPath folderRef
                 = (getVMRootPath dc +:+ "/") +:+ rest)
  /\ (getVMRootPath dc = "/dc/vm/a" ->
      folderRefs = [ FolderRef.mk "/dc/vm"; FolderRef.mk "/dc/vm/a";
                     FolderRef.mk "/dc/vm/ab"; FolderRef.mk "/dc/other" ] ->
      fst (GetVMFolders env dc username password caBundle h)
      = Ok [Folder.mk "/dc/vm/a"]).
Proof.
  intros Hs Hl.
  assert (E : GetVMFolders env dc username password caBundle h
              = (Ok (map toFolder
                       (List.filter (belowRoot (getVMRootPath dc)) folderRefs)),
                 h1 ++ [CallFolderList s "*"; CallLogout s])).
  { unfold GetVMFolders, Logout. unfold bind, wrap, defer, call, ret, lift.
    rewrite Hs, Hl. cbn [of_sum fst snd].
    rewrite appendIfBelow_fold, <- app_assoc. reflexivity. }
  split; [exact E |]. split; [intros r; apply belowRoot_spec |].
  intros Hroot ->. rewrite E, Hroot. reflexivity.
Qed.

Lemma GetVMFolders_spec_witness :
  fst (GetVMFolders Fixture.healthy (Fixture.datacenter "/dc/vm/a" None)
         "admin" "hunter2" [] [])
  = Ok [Folder.mk "/dc/vm/a"].
Proof.
  eapply (proj2 (proj2 (GetVMFolders_spec Fixture.healthy
                          (Fixture.datacenter "/dc/vm/a" None)
                          "admin" "hunter2" [] [] _ _ _ eq_refl eq_refl)));
    reflexivity.
Defined.

Example prefix_without_slash_is_dropped :
  belowRoot "/dc/vm/a" (FolderRef.mk "/dc/vm/ab") = false
  /\ belowRoot "/dc/vm/a" (FolderRef.mk "/dc/vm/a/b") = true.
Proof. split; reflexivity. Qed.

(** ** newSession *)

(** C9: with a datacenter-level management user, newSession does the same
    whatever username and password it is given: every login it makes
    carries the management user's fields, empty or not, and that login is
    made as soon as the client exists. *)
Theorem newSession_ignores_credentials env dc imu caBundle h u1 p1 u2 p2 :
  DatacenterSpecVSphere.InfraManagementUser dc = Some imu ->
  let user := Userinfo.UserPassword (VSphereCredentials.Username imu)
                                    (VSphereCredentials.Password imu) in
  newSession env dc u1 p1 caBundle h = newSession env dc u2 p2 caBundle h
  /\ emits (logsInAs user) (newSession env dc u1 p1 caBundle)
  /\ (forall u client,
        url_Parse env (DatacenterSpecVSphere.Endpoint dc +:+ "/sdk") = inr u ->
        vim25_NewClient env h u (DatacenterSpecVSphere.AllowInsecure dc) caBundle
        = inr client ->
        exists t,
          snd (newSession env dc u1 p1 caBundle h)
          = h ++ [CallNewClient u (DatacenterSpecVSphere.AllowInsecure dc) caBundle;
                  CallLogin client user] ++ t).
Proof.
  intros Himu user. unfold newSession. rewrite Himu. fold user.
  split; [reflexivity |]. split.
  - emits_walk; apply emits_call; exact I || reflexivity.
  - intros u client Hu Hc. unfold bind, lift, call, wrap, ret.
    rewrite Hu. cbn [of_sum]. rewrite Hc. cbn [of_sum].
    destruct (client_Login env _ client user); cbn [of_err].
    + exists []. rewrite <- app_assoc. reflexivity.
    + destruct (finder_Datacenter env _ client _); cbn [of_sum];
        eexists; rewrite <- !app_assoc; reflexivity.
Qed.

Lemma newSession_ignores_credentials_witness :
  let dc := Fixture.datacenter "" (Some Fixture.noCredentials) in
  newSession Fixture.healthy dc "admin" "hunter2" [] []
  = newSession Fixture.healthy dc "mallory" "guess" [] [].
Proof.
  intros dc.
  apply (newSession_ignores_credentials Fixture.healthy dc Fixture.noCredentials
           [] [] "admin" "hunter2" "mallory" "guess" eq_refl).
Defined.

Example empty_management_user_logs_in_empty :
  snd (newSession Fixture.healthy
         (Fixture.datacenter "" (Some Fixture.noCredentials))
         "admin" "hunter2" [] [])
  = [ CallNewClient "https://vcenter.example.com/sdk" false [];
      CallLogin 1 (Userinfo.UserPassword "" "");
      CallFinderDatacenter 1 "dc" ].
Proof. reflexivity. Qed.

(** ** Credentials *)

(** What the code does for a cluster is the walk through the two chains. *)
Lemma getUsernameAndPassword_chain secretKeySelector cloud vs h :
  CloudSpec.VSphere cloud = Some vs ->
  getUsernameAndPassword cloud secretKeySelector true h
  = resolveByPrecedence secretKeySelector vs h.
Proof.
  intros Hvs. unfold getUsernameAndPassword, resolveByPrecedence.
  rewrite Hvs.
  destruct vs as [ref u p [iu ip] folder ds dsc rp tag].
  unfold usernameChain, passwordChain.
  cbn [VSphereCloudSpec.CredentialsReference VSphereCloudSpec.Username
       VSphereCloudSpec.Password VSphereCloudSpec.InfraManagementUser
       VSphereCredentials.Username VSphereCredentials.Password firstNonEmpty].
  unfold selectSecret. unfold bind, deref, call, ret, fail, lift.
  cbn [VSphereCloudSpec.CredentialsReference VSphereCloudSpec.Username
       VSphereCloudSpec.Password VSphereCloudSpec.InfraManagementUser
       VSphereCredentials.Username VSphereCredentials.Password].
  destruct iu as [|? ?], ip as [|? ?], u as [|? ?], p as [|? ?], ref as [r|];
    cbn [GoString.nonempty andb negb]; try reflexivity.
  all: repeat (match goal with
       | |- context [of_sum (?f ?r ?k)] =>
           destruct (f r k) as [?|[|? ?]]
       end; cbn [of_sum GoString.nonempty andb negb]; try reflexivity).
Qed.

Lemma firstNonEmpty_no_panic secretKeySelector ref chain h :
  fst (firstNonEmpty secretKeySelector ref chain h) <> Panic.
Proof.
  revert h. induction chain as [|[value|key] rest IH]; intros h; simpl.
  - discriminate.
  - destruct (GoString.nonempty value); [discriminate | apply IH].
  - destruct ref as [r|]; [| discriminate].
    unfold bind, selectSecret, call.
    destruct (secretKeySelector r key) as [e|value]; simpl; [discriminate |].
    destruct (GoString.nonempty value); [discriminate | apply IH].
Qed.

Lemma datacenterCredentials_GetCredentialsForCluster cloud secretKeySelector dc :
  GetCredentialsForCluster cloud secretKeySelector dc
  = match datacenterCredentials dc with
    | Some cred => ret cred
    | None => getUsernameAndPassword cloud secretKeySelector true
    end.
Proof.
  unfold GetCredentialsForCluster, datacenterCredentials.
  destruct dc as [[? ? ? ? ? [imu|]]|]; reflexivity.
Qed.

(** With a vSphere cloud spec at hand, resolving credentials returns or
    fails; it never dereferences nil. *)
Lemma GetCredentialsForCluster_no_panic cloud secretKeySelector dc vs h :
  CloudSpec.VSphere cloud = Some vs ->
  fst (GetCredentialsForCluster cloud secretKeySelector dc h) <> Panic.
Proof.
  intros Hvs. rewrite datacenterCredentials_GetCredentialsForCluster.
  destruct (datacenterCredentials dc); [discriminate |].
  rewrite (getUsernameAndPassword_chain _ _ _ _ Hvs).
  unfold resolveByPrecedence, bind.
  pose proof (firstNonEmpty_no_panic secretKeySelector
                (VSphereCloudSpec.CredentialsReference vs) (usernameChain vs) h) as Hu.
  destruct (firstNonEmpty _ _ (usernameChain vs) h) as [[u|e|] h1];
    [| discriminate | contradiction].
  pose proof (firstNonEmpty_no_panic secretKeySelector
                (VSphereCloudSpec.CredentialsReference vs) (passwordChain vs) h1) as Hp.
  destruct (firstNonEmpty _ _ (passwordChain vs) h1) as [[p|e|] h2];
    [| discriminate | contradiction].
  destruct (GoString.nonempty u), (GoString.nonempty p); discriminate.
Qed.

(** C4: a datacenter-level management user with both fields set is
    returned as it is, without any lookup; otherwise username and password
    are each the first non-empty value of their chain: the cluster's
    management user, the cluster's inline field, the management-user key of
    the secret, the plain key of the secret, a secret being looked up only
    when everything before it was empty. *)
Theorem credential_precedence secretKeySelector cloud dc h :
  (forall d imu,
     dc = Some d ->
     DatacenterSpecVSphere.InfraManagementUser d = Some imu ->
     VSphereCredentials.Username imu <> "" ->
     VSphereCredentials.Password imu <> "" ->
     GetCredentialsForCluster cloud secretKeySelector dc h
     = (Ok (VSphereCredentials.Username imu, VSphereCredentials.Password imu), h))
  /\ (forall vs,
     datacenterCredentials dc = None ->
     CloudSpec.VSphere cloud = Some vs ->
     GetCredentialsForCluster cloud secretKeySelector dc h
     = resolveByPrecedence secretKeySelector vs h).
Proof.
  split.
  - intros d imu -> Himu Hu Hp.
    apply nonempty_true in Hu, Hp.
    unfold GetCredentialsForCluster. rewrite Himu, Hu, Hp. reflexivity.
  - intros vs Hdc Hvs.
    rewrite datacenterCredentials_GetCredentialsForCluster, Hdc.
    apply getUsernameAndPassword_chain, Hvs.
Qed.

Lemma credential_precedence_witness :
  let inline :=
    Fixture.cloud (Fixture.vsphere None "u2" "p2" Fixture.noCredentials
                     "" "" "" "") in
  let managed :=
    Fixture.cloud (Fixture.vsphere None "u2" "p2"
                     (VSphereCredentials.mk "u3" "p3") "" "" "" "") in
  GetCredentialsForCluster inline Fixture.plainSecret
    (Some (Fixture.datacenter "" (Some (VSphereCredentials.mk "u1" "p1")))) []
  = (Ok ("u1", "p1"), [])
  /\ GetCredentialsForCluster managed Fixture.plainSecret
       (Some (Fixture.datacenter "" None)) []
     = (Ok ("u3", "p3"), []).
Proof.
  intros inline managed. split.
  - apply (proj1 (credential_precedence Fixture.plainSecret inline
                    (Some (Fixture.datacenter ""
                             (Some (VSphereCredentials.mk "u1" "p1")))) [])
             _ _ eq_refl eq_refl); discriminate.
  - apply (proj2 (credential_precedence Fixture.plainSecret managed
                    (Some (Fixture.datacenter "" None)) [])
             _ eq_refl eq_refl).
Defined.

(** Username inline, password from the plain key of the secret, asked for
    after the management-user key. *)
Example username_inline_password_from_secret :
  GetCredentialsForCluster
    (Fixture.cloud (Fixture.vsphere (Some Fixture.secretRef) "u2" ""
                      Fixture.noCredentials "" "" "" ""))
    Fixture.plainSecret (Some (Fixture.datacenter "" None)) []
  = (Ok ("u2", "secret-pass"),
     [ CallSecret Fixture.secretRef VsphereInfraManagementUserPassword;
       CallSecret Fixture.secretRef VspherePassword ]).
Proof. reflexivity. Qed.

(** A datacenter-level management user with an empty field is passed
    over. *)
Example incomplete_datacenter_user_is_skipped :
  GetCredentialsForCluster
    (Fixture.cloud (Fixture.vsphere None "u2" "p2" Fixture.noCredentials
                      "" "" "" ""))
    Fixture.plainSecret
    (Some (Fixture.datacenter "" (Some (VSphereCredentials.mk "u1" "")))) []
  = (Ok ("u2", "p2"), []).
Proof. reflexivity. Qed.

(** ** Running the embedding *)

Ltac unfold_steps :=
  unfold run_update, createVMFolder, deleteVMFolder, createTagCategory,
    deleteTagCategory, newRESTSession, lookupIfSet, Logout, RESTLogout;
  unfold bind, wrap, defer, call, ret, fail, deref, lift;
  cbv zeta.

Ltac reduce_steps := cbn [fst snd of_sum of_err negb andb orb].

(** What was logged up to an open session holds no update. *)
Lemma opening_logs (P : Call -> Prop) cloud secretKeySelector dcs env dc caBundle
    h cred h1 username password s h2 :
  (forall c, kind c = KSecret \/ kind c = KSessionOpen -> P c) ->
  GetCredentialsForCluster cloud secretKeySelector dcs h = (Ok cred, h1) ->
  newSession env dc username password caBundle h1 = (Ok s, h2) ->
  exists t, h2 = h ++ t /\ Forall P t.
Proof.
  intros HP Hc Hs.
  destruct (emits_GetCredentialsForCluster P cloud secretKeySelector dcs
              (fun r k => HP (CallSecret r k) (or_introl eq_refl)) h) as (t1 & E1 & F1).
  rewrite Hc in E1. simpl in E1. subst h1.
  destruct (emits_newSession P env dc username password caBundle
              (fun c Hk => HP c (or_intror Hk)) (h ++ t1)) as (t2 & E2 & F2).
  rewrite Hs in E2. simpl in E2. subst h2.
  exists (t1 ++ t2). rewrite app_assoc.
  split; [reflexivity | apply Forall_app; split; assumption].
Qed.

(** ** ValidateCloudSpec *)

Lemma ValidateCloudSpec_conflict env v spec vs h :
  CloudSpec.VSphere spec = Some vs ->
  noDatastore (Provider.dc v) vs = true \/ bothDatastores vs = true ->
  ValidateCloudSpec env v spec h
  = bind (GetCredentialsForCluster spec (Provider.secretKeySelector v)
            (Some (Provider.dc v)))
         (fun _ => fail (configurationError (Provider.dc v) vs)) h.
Proof.
  intros Hvs Hbad. unfold ValidateCloudSpec, bind.
  destruct (GetCredentialsForCluster _ _ _ h) as [[cred|e|] h1]; try reflexivity.
  rewrite Hvs. unfold deref, lift, configurationError.
  fold (noDatastore (Provider.dc v) vs). fold (bothDatastores vs).
  destruct (noDatastore (Provider.dc v) vs) eqn:Hno; [reflexivity |].
  destruct Hbad as [Hbad | Hbad]; [discriminate |]. rewrite Hbad. reflexivity.
Qed.

(** C5 as written: with both datastore and datastore cluster set the call
    would return the configuration error. When the credentials do not
    resolve, the error of the credentials comes first. *)
Lemma ValidateCloudSpec_credentials_first_counterexample :
  let vs := Fixture.vsphere None "" "" Fixture.noCredentials "" "" "ds1" "dc1" in
  bothDatastores vs = true
  /\ ValidateCloudSpec Fixture.healthy Fixture.provider (Fixture.cloud vs) []
     = (Err (errors_New
               "cluster contains no password an and empty credentialsReference"),
        [])
  /\ fst (ValidateCloudSpec Fixture.healthy Fixture.provider (Fixture.cloud vs) [])
     <> Err (configurationError (Provider.dc Fixture.provider) vs).
Proof. repeat split. discriminate. Qed.

(** C5, amended: for a vSphere cloud spec with no datastore at all, or with
    both a datastore and a datastore cluster, ValidateCloudSpec fails and
    logs nothing but secret lookups, so no session is opened; when the
    credentials resolve, the error is the configuration error. *)
Theorem ValidateCloudSpec_datastore_conflict env v spec vs h :
  CloudSpec.VSphere spec = Some vs ->
  noDatastore (Provider.dc v) vs = true \/ bothDatastores vs = true ->
  (exists e, fst (ValidateCloudSpec env v spec h) = Err e)
  /\ (exists t, snd (ValidateCloudSpec env v spec h) = h ++ t
                /\ Forall (fun c => kind c = KSecret) t)
  /\ (forall cred h1,
        GetCredentialsForCluster spec (Provider.secretKeySelector v)
          (Some (Provider.dc v)) h = (Ok cred, h1) ->
        ValidateCloudSpec env v spec h
        = (Err (configurationError (Provider.dc v) vs), h1)).
Proof.
  intros Hvs Hbad. rewrite (ValidateCloudSpec_conflict env v spec vs h Hvs Hbad).
  split; [| split].
  - pose proof (GetCredentialsForCluster_no_panic spec
                  (Provider.secretKeySelector v) (Some (Provider.dc v)) vs h Hvs)
      as Hnp.
    unfold bind.
    destruct (GetCredentialsForCluster _ _ _ h) as [[cred|e|] h1]; simpl in *.
    + eexists; reflexivity.
    + eexists; reflexivity.
    + contradiction.
  - apply emits_bind; [| intros ?; apply emits_fail].
    apply emits_GetCredentialsForCluster. reflexivity.
  - intros cred h1 Hc. unfold bind. rewrite Hc. reflexivity.
Qed.

Lemma ValidateCloudSpec_datastore_conflict_witness :
  let vs := Fixture.vsphere None "admin" "hunter2" Fixture.noCredentials
              "" "" "ds1" "dc1" in
  ValidateCloudSpec Fixture.healthy Fixture.provider (Fixture.cloud vs) []
  = (Err (errors_New "either datastore or datastore cluster can be selected"), []).
Proof.
  intros vs.
  apply (proj2 (proj2 (ValidateCloudSpec_datastore_conflict Fixture.healthy
                         Fixture.provider (Fixture.cloud vs) vs []
                         eq_refl (or_intror eq_refl)))
           ("admin", "hunter2") []).
  reflexivity.
Defined.

Example no_datastore_at_all :
  ValidateCloudSpec Fixture.healthy Fixture.provider
    (Fixture.cloud (Fixture.vsphere None "admin" "hunter2" Fixture.noCredentials
                      "" "" "" "")) []
  = (Err (errors_New
     "no default datastore provided at datacenter nor datastore/datastore cluster at cluster level"),
     []).
Proof. reflexivity. Qed.

Example datastore_resolves :
  ValidateCloudSpec Fixture.healthy Fixture.provider
    (Fixture.cloud (Fixture.vsphere None "admin" "hunter2" Fixture.noCredentials
                      "" "" "ds1" "")) []
  = (Ok tt,
     [ CallNewClient "https://vcenter.example.com/sdk" false [];
       CallLogin 1 (Userinfo.UserPassword "admin" "hunter2");
       CallFinderDatacenter 1 "dc";
       CallFinderDatastore (Session.mk 1 2) "ds1";
       CallLogout (Session.mk 1 2) ]).
Proof. reflexivity. Qed.

(** ** InitializeCloudProvider *)

Lemma emits_initializeTagCategory env v username password cluster update :
  emits (fun c => In (kind c) [KRESTOpen; KCreateTagCategory; KUpdate; KRESTLogout])
        (initializeTagCategory env v username password cluster update).
Proof.
  unfold initializeTagCategory, run_update, createTagCategory, newRESTSession,
    RESTLogout.
  emits_calls.
Qed.

(** With the folder already set, initializing is resolving the credentials
    and then the tag category step. *)
Lemma InitializeCloudProvider_folder_set env v cluster update vs h :
  Cluster.vsphere cluster = Some vs ->
  VSphereCloudSpec.Folder vs <> "" ->
  InitializeCloudProvider env v cluster update h
  = bind (GetCredentialsForCluster (ClusterSpec.Cloud (Cluster.Spec cluster))
            (Provider.secretKeySelector v) (Some (Provider.dc v)))
         (fun cred =>
            initializeTagCategory env v (fst cred) (snd cred) cluster update) h.
Proof.
  intros Hvs Hf. apply nonempty_true in Hf.
  unfold InitializeCloudProvider, bind.
  destruct (GetCredentialsForCluster _ _ _ h) as [[cred|e|] h1]; try reflexivity.
  rewrite Hvs. unfold deref, lift. rewrite Hf. reflexivity.
Qed.

(** C1: when the folder is not set yet, the credentials resolve, the
    session opens and createVMFolder fails, InitializeCloudProvider returns
    that error wrapped, logs out, and has called the updater not once: the
    folder and the finalizers of the cluster are what they were. *)
Theorem InitializeCloudProvider_folder_creation_fails
    env v cluster update h vs cred h1 s h2 e :
  Cluster.vsphere cluster = Some vs ->
  VSphereCloudSpec.Folder vs = "" ->
  GetCredentialsForCluster (ClusterSpec.Cloud (Cluster.Spec cluster))
    (Provider.secretKeySelector v) (Some (Provider.dc v)) h = (Ok cred, h1) ->
  newSession env (Provider.dc v) (fst cred) (snd cred) (Provider.caBundle v) h1
  = (Ok s, h2) ->
  createVMFolder_answer env h2 s
    (GoPath.Join [getVMRootPath (Provider.dc v); Cluster.Name cluster]) = Some e ->
  InitializeCloudProvider env v cluster update h
  = (Err (fmt_Errorf_w "failed to create the VM folder %q: %w"
            [GoPath.Join [getVMRootPath (Provider.dc v); Cluster.Name cluster]] e),
     h2 ++ [ CallCreateVMFolder s
               (GoPath.Join [getVMRootPath (Provider.dc v); Cluster.Name cluster]);
             CallLogout s ])
  /\ exists t,
       snd (InitializeCloudProvider env v cluster update h) = h ++ t
       /\ Forall (fun c => kind c <> KUpdate) t.
Proof.
  intros Hvs Hf Hc Hs He.
  assert (E : InitializeCloudProvider env v cluster update h
              = (Err (fmt_Errorf_w "failed to create the VM folder %q: %w"
                        [GoPath.Join [getVMRootPath (Provider.dc v);
                                      Cluster.Name cluster]] e),
                 h2 ++ [ CallCreateVMFolder s
                           (GoPath.Join [getVMRootPath (Provider.dc v);
                                         Cluster.Name cluster]);
                         CallLogout s ])).
  { unfold InitializeCloudProvider. unfold_steps.
    rewrite Hc, Hvs, Hf. cbn [GoString.nonempty negb].
    rewrite Hs, He. reduce_steps. rewrite <- app_assoc. reflexivity. }
  split; [exact E |]. rewrite E. cbn [snd].
  destruct (opening_logs (fun c => kind c <> KUpdate) _ _ _ _ _ _ _ _ _ _ _ _ _
              ltac:(intros c [Hk | Hk]; rewrite Hk; discriminate) Hc Hs)
    as (t & -> & Ft).
  exists (t ++ [ CallCreateVMFolder s
                   (GoPath.Join [getVMRootPath (Provider.dc v); Cluster.Name cluster]);
                 CallLogout s ]).
  rewrite app_assoc. split; [reflexivity |].
  apply Forall_app. split; [exact Ft |].
  repeat constructor; discriminate.
Qed.

Lemma InitializeCloudProvider_folder_creation_fails_witness :
  InitializeCloudProvider
    (Fixture.vcenter (Some Fixture.denied) None (inr "urn:category:1") None)
    Fixture.provider (Fixture.cluster ∅ "" "")
    (Fixture.updaterOf (Fixture.cluster ∅ "" "")) []
  = (Err (fmt_Errorf_w "failed to create the VM folder %q: %w" ["/dc/vm/c1"]
            Fixture.denied),
     [ CallNewClient "https://vcenter.example.com/sdk" false [];
       CallLogin 1 (Userinfo.UserPassword "admin" "hunter2");
       CallFinderDatacenter 1 "dc";
       CallCreateVMFolder (Session.mk 1 2) "/dc/vm/c1";
       CallLogout (Session.mk 1 2) ]).
Proof.
  apply (proj1 (InitializeCloudProvider_folder_creation_fails
                  (Fixture.vcenter (Some Fixture.denied) None
                     (inr "urn:category:1") None)
                  Fixture.provider (Fixture.cluster ∅ "" "")
                  (Fixture.updaterOf (Fixture.cluster ∅ "" "")) []
                  _ ("admin", "hunter2") [] (Session.mk 1 2) _ Fixture.denied
                  eq_refl eq_refl eq_refl eq_refl eq_refl)).
Defined.

(** What the mutation of the tag category step does to the cluster it is
    applied to. *)
Lemma setTagCategoryID_spec categoryID c cvs :
  Cluster.vsphere c = Some cvs ->
  exists c',
    setTagCategoryID categoryID c = Some c'
    /\ Cluster.vsphere c' = Some (VSphereCloudSpec.with_TagCategoryID cvs categoryID)
    /\ Cluster.Finalizers c' = {[ tagCategoryCleanupFinilizer ]} ∪ Cluster.Finalizers c
    /\ Cluster.Name c' = Cluster.Name c.
Proof.
  intros Hc. unfold setTagCategoryID.
  replace (Cluster.vsphere (AddFinalizer c tagCategoryCleanupFinilizer))
    with (Some cvs) by (rewrite <- Hc; reflexivity).
  eexists. split; [reflexivity |]. repeat split.
Qed.

(** C2: with the folder set and the tag category not, InitializeCloudProvider
    never creates a folder nor opens a data-plane session; when the
    credentials resolve, the REST session opens and the category is created,
    it makes exactly the calls of the tag category step, and the mutation
    it hands to the updater sets the category ID and adds the cleanup
    finalizer, leaving the folder as it is. *)
Theorem InitializeCloudProvider_resumes_at_tag_category
    env v cluster update h vs :
  Cluster.vsphere cluster = Some vs ->
  VSphereCloudSpec.Folder vs <> "" ->
  VSphereCloudSpec.TagCategoryID vs = "" ->
  (exists t,
     snd (InitializeCloudProvider env v cluster update h) = h ++ t
     /\ Forall (fun c => In (kind c) [KSecret; KRESTOpen; KCreateTagCategory;
                                      KUpdate; KRESTLogout]) t)
  /\ (forall cred h1 restSession categoryID,
        GetCredentialsForCluster (ClusterSpec.Cloud (Cluster.Spec cluster))
          (Provider.secretKeySelector v) (Some (Provider.dc v)) h = (Ok cred, h1) ->
        let open := CallNewRESTSession (Provider.dc v) (fst cred) (snd cred)
                      (Provider.caBundle v) in
        newRESTSession_answer env h1 (Provider.dc v) (fst cred) (snd cred)
          (Provider.caBundle v) = inr restSession ->
        createTagCategory_answer env (h1 ++ [open]) restSession cluster
        = inr categoryID ->
        InitializeCloudProvider env v cluster update h
        = (of_sum (update (h1 ++ [open; CallCreateTagCategory restSession cluster])
                     (Cluster.Name cluster) (setTagCategoryID categoryID)),
           h1 ++ [ open;
                   CallCreateTagCategory restSession cluster;
                   CallUpdate (Cluster.Name cluster) (setTagCategoryID categoryID);
                   CallRESTLogout restSession ]))
  /\ (forall categoryID c cvs,
        Cluster.vsphere c = Some cvs ->
        exists c',
          setTagCategoryID categoryID c = Some c'
          /\ Cluster.vsphere c'
             = Some (VSphereCloudSpec.with_TagCategoryID cvs categoryID)
          /\ VSphereCloudSpec.Folder (VSphereCloudSpec.with_TagCategoryID cvs categoryID)
             = VSphereCloudSpec.Folder cvs
          /\ Cluster.Finalizers c'
             = {[ tagCategoryCleanupFinilizer ]} ∪ Cluster.Finalizers c).
Proof.
  intros Hvs Hf Ht. split; [| split].
  - rewrite (InitializeCloudProvider_folder_set env v cluster update vs h Hvs Hf).
    apply emits_bind.
    + apply emits_GetCredentialsForCluster. intros; simpl; tauto.
    + intros cred. eapply emits_weaken;
        [| apply emits_initializeTagCategory]. simpl. tauto.
  - intros cred h1 rs categoryID Hc open Hr Hcat.
    rewrite (InitializeCloudProvider_folder_set env v cluster update vs h Hvs Hf).
    unfold initializeTagCategory. unfold_steps.
    rewrite Hc, Hvs, Ht. cbn [GoString.nonempty negb].
    fold open. rewrite Hr. reduce_steps. rewrite Hcat. reduce_steps.
    rewrite <- !app_assoc. cbn [app].
    destruct (update _ _ _); reduce_steps; rewrite <- ?app_assoc; reflexivity.
  - intros categoryID c cvs Hc.
    destruct (setTagCategoryID_spec categoryID c cvs Hc) as (c' & E & V & F & _).
    exists c'. repeat split; assumption.
Qed.

Lemma InitializeCloudProvider_resumes_at_tag_category_witness :
  let cluster := Fixture.cluster ∅ "/dc/vm/c1" "" in
  let restSession := RESTSession.mk 3 in
  InitializeCloudProvider Fixture.healthy Fixture.provider cluster
    (Fixture.updaterOf cluster) []
  = (Ok (Cluster.mk "c1" ({[ tagCategoryCleanupFinilizer ]} ∪ ∅)
           (ClusterSpec.mk
              (Fixture.cloud
                 (Fixture.vsphere None "admin" "hunter2" Fixture.noCredentials
                    "/dc/vm/c1" "urn:category:1" "ds1" "")))),
     [ CallNewRESTSession (Provider.dc Fixture.provider) "admin" "hunter2" [];
       CallCreateTagCategory restSession cluster;
       CallUpdate "c1" (setTagCategoryID "urn:category:1");
       CallRESTLogout restSession ]).
Proof.
  intros cluster restSession.
  apply (proj1 (proj2 (InitializeCloudProvider_resumes_at_tag_category
                         Fixture.healthy Fixture.provider cluster
                         (Fixture.updaterOf cluster) [] _
                         eq_refl ltac:(discriminate) eq_refl))
           ("admin", "hunter2") [] restSession "urn:category:1"
           eq_refl eq_refl eq_refl).
Defined.

Example initialize_from_scratch :
  let cluster := Fixture.cluster ∅ "" "" in
  snd (InitializeCloudProvider Fixture.healthy Fixture.provider cluster
         (Fixture.updaterOf cluster) [])
  = [ CallNewClient "https://vcenter.example.com/sdk" false [];
      CallLogin 1 (Userinfo.UserPassword "admin" "hunter2");
      CallFinderDatacenter 1 "dc";
      CallCreateVMFolder (Session.mk 1 2) "/dc/vm/c1";
      CallUpdate "c1" (setFolder "/dc/vm/c1");
      CallNewRESTSession (Provider.dc Fixture.provider) "admin" "hunter2" [];
      CallCreateTagCategory (RESTSession.mk 3)
        (Cluster.mk "c1" ({[ folderCleanupFinalizer ]} ∪ ∅)
           (ClusterSpec.mk
              (Fixture.cloud
                 (Fixture.vsphere None "admin" "hunter2" Fixture.noCredentials
                    "/dc/vm/c1" "" "ds1" ""))));
      CallUpdate "c1" (setTagCategoryID "urn:category:1");
      CallRESTLogout (RESTSession.mk 3);
      CallLogout (Session.mk 1 2) ].
Proof. reflexivity. Qed.

(** ** CleanUpCloudProvider *)


(** ** CleanUpCloudProvider *)

(** As [emits_walk], through the credentials and the data-plane session as
    well. *)
Ltac emits_program :=
  repeat first
    [ match goal with
      | |- emits _ (GetCredentialsForCluster _ _ _) =>
          apply emits_GetCredentialsForCluster; intros ? ?
      | |- emits _ (newSession _ _ _ _ _) =>
          let Hk := fresh "Hk" in
          apply emits_newSession; intros [] Hk; try discriminate Hk
      end
    | apply emits_ret | apply emits_fail | apply emits_deref | apply emits_lift
    | apply emits_wrap
    | apply emits_defer
    | apply emits_bind; [| intros ?]
    | progress cbv zeta
    | match goal with
      | |- emits _ (if ?b then _ else _) => destruct b eqn:?
      | |- emits _ (match ?x with _ => _ end) => destruct x eqn:?
      end ];
  try congruence;
  try (apply emits_call).

Lemma opened_logs (P : Call -> Prop) env v cluster h cred s restSession h2 :
  (forall c, In (kind c) [KSecret; KSessionOpen; KRESTOpen] -> P c) ->
  opened env v cluster h cred s restSession h2 ->
  exists t,
    h2 ++ [CallNewRESTSession (Provider.dc v) (fst cred) (snd cred)
             (Provider.caBundle v)] = h ++ t
    /\ Forall P t.
Proof.
  intros HP (h1 & Hc & Hs & _).
  destruct (opening_logs P _ _ _ _ _ _ _ _ _ _ _ _ _
              ltac:(intros c [Hk | Hk]; apply HP; rewrite Hk; simpl; tauto) Hc Hs)
    as (t & -> & Ft).
  eexists. rewrite <- app_assoc. split; [reflexivity |].
  apply Forall_app. split; [exact Ft |].
  repeat constructor. apply HP. simpl. tauto.
Qed.

(** C3 as written: without the folder finalizer, with credentials resolved
    and both sessions open, the clean-up would succeed. The tag category
    finalizer is still looked at, and when the deletion of the category
    fails, so does the clean-up. *)
Lemma CleanUpCloudProvider_tag_category_counterexample :
  let env := Fixture.vcenter None None (inr "urn:category:1")
               (Some Fixture.denied) in
  let cluster :=
    Fixture.cluster {[ tagCategoryCleanupFinilizer ]} "/dc/vm/c1" "urn:category:1" in
  HasFinalizer cluster folderCleanupFinalizer = false
  /\ opened env Fixture.provider cluster [] ("admin", "hunter2")
       (Session.mk 1 2) (RESTSession.mk 3)
       [ CallNewClient "https://vcenter.example.com/sdk" false [];
         CallLogin 1 (Userinfo.UserPassword "admin" "hunter2");
         CallFinderDatacenter 1 "dc" ]
  /\ fst (CleanUpCloudProvider env Fixture.provider cluster
            (Fixture.updaterOf cluster) [])
     = Err Fixture.denied.
Proof.
  intros env cluster. split; [reflexivity |]. split; [| reflexivity].
  exists []. repeat split.
Qed.

(** C3, amended: without the folder finalizer CleanUpCloudProvider never
    calls deleteVMFolder, and with credentials resolved and both sessions
    open it succeeds when the tag category finalizer is absent as well, or
    when the category is deleted and the updater takes the removal of its
    finalizer; with the folder finalizer, when deleteVMFolder fails the
    clean-up returns that error and the updater has not been called, so the
    finalizer stays. *)
Theorem CleanUpCloudProvider_folder_finalizer env v cluster update h :
  (HasFinalizer cluster folderCleanupFinalizer = false ->
     (exists t,
        snd (CleanUpCloudProvider env v cluster update h) = h ++ t
        /\ Forall (fun c => kind c <> KDeleteVMFolder) t)
     /\ forall cred s restSession h2,
          opened env v cluster h cred s restSession h2 ->
          let h3 := h2 ++ [CallNewRESTSession (Provider.dc v) (fst cred) (snd cred)
                             (Provider.caBundle v)] in
          (HasFinalizer cluster tagCategoryCleanupFinilizer = false ->
             CleanUpCloudProvider env v cluster update h
             = (Ok cluster, h3 ++ [CallRESTLogout restSession; CallLogout s]))
          /\ (HasFinalizer cluster tagCategoryCleanupFinilizer = true ->
              forall c',
                deleteTagCategory_answer env h3 restSession cluster = None ->
                update (h3 ++ [CallDeleteTagCategory restSession cluster])
                  (Cluster.Name cluster) (dropFinalizer tagCategoryCleanupFinilizer)
                = inr c' ->
                CleanUpCloudProvider env v cluster update h
                = (Ok c',
                   h3 ++ [ CallDeleteTagCategory restSession cluster;
                           CallUpdate (Cluster.Name cluster)
                             (dropFinalizer tagCategoryCleanupFinilizer);
                           CallRESTLogout restSession; CallLogout s ])))
  /\ (HasFinalizer cluster folderCleanupFinalizer = true ->
      forall cred s restSession h2 vs e,
        opened env v cluster h cred s restSession h2 ->
        let h3 := h2 ++ [CallNewRESTSession (Provider.dc v) (fst cred) (snd cred)
                           (Provider.caBundle v)] in
        Cluster.vsphere cluster = Some vs ->
        deleteVMFolder_answer env h3 s (VSphereCloudSpec.Folder vs) = Some e ->
        CleanUpCloudProvider env v cluster update h
        = (Err e,
           h3 ++ [ CallDeleteVMFolder s (VSphereCloudSpec.Folder vs);
                   CallRESTLogout restSession; CallLogout s ])
        /\ exists t,
             snd (CleanUpCloudProvider env v cluster update h) = h ++ t
             /\ Forall (fun c => kind c <> KUpdate) t).
Proof.
  split.
  - intros Hf. split.
    + unfold CleanUpCloudProvider, run_update, deleteVMFolder, deleteTagCategory,
        newRESTSession, Logout, RESTLogout.
      emits_program; simpl; discriminate.
    + intros cred s rs h2 (h1 & Hc & Hs & Hr) h3. subst h3. split.
      * intros Ht. unfold CleanUpCloudProvider. unfold_steps.
        rewrite Hc, Hs, Hr, Hf. reduce_steps. rewrite Ht.
        rewrite <- !app_assoc. reflexivity.
      * intros Ht c' Hd Hu. unfold CleanUpCloudProvider. unfold_steps.
        rewrite Hc, Hs, Hr, Hf. reduce_steps. rewrite Ht.
        rewrite Hd. reduce_steps. rewrite Hu. reduce_steps.
        rewrite <- !app_assoc. reflexivity.
  - intros Hf cred s rs h2 vs e Ho h3 Hvs Hd. subst h3.
    assert (E : CleanUpCloudProvider env v cluster update h
                = (Err e,
                   (h2 ++ [CallNewRESTSession (Provider.dc v) (fst cred) (snd cred)
                             (Provider.caBundle v)])
                   ++ [ CallDeleteVMFolder s (VSphereCloudSpec.Folder vs);
                        CallRESTLogout rs; CallLogout s ])).
    { destruct Ho as (h1 & Hc & Hs & Hr).
      unfold CleanUpCloudProvider. unfold_steps.
      rewrite Hc, Hs, Hr, Hf, Hvs. reduce_steps. rewrite Hd.
      reduce_steps. rewrite <- !app_assoc. reflexivity. }
    split; [exact E |]. rewrite E. cbn [snd].
    destruct (opened_logs (fun c => kind c <> KUpdate) _ _ _ _ _ _ _ _
                ltac:(simpl; intros c Hk Hu; rewrite Hu in Hk;
                      intuition discriminate) Ho)
      as (t & Et & Ft).
    rewrite Et, <- app_assoc.
    eexists. split; [reflexivity |].
    apply Forall_app. split; [exact Ft |]. repeat constructor; discriminate.
Qed.

Lemma CleanUpCloudProvider_folder_finalizer_witness :
  let opening :=
    [ CallNewClient "https://vcenter.example.com/sdk" false [];
      CallLogin 1 (Userinfo.UserPassword "admin" "hunter2");
      CallFinderDatacenter 1 "dc";
      CallNewRESTSession (Provider.dc Fixture.provider) "admin" "hunter2" [] ] in
  let clean := Fixture.cluster ∅ "/dc/vm/c1" "urn:category:1" in
  let marked :=
    Fixture.cluster {[ folderCleanupFinalizer ]} "/dc/vm/c1" "urn:category:1" in
  CleanUpCloudProvider Fixture.healthy Fixture.provider clean
    (Fixture.updaterOf clean) []
  = (Ok clean,
     opening ++ [CallRESTLogout (RESTSession.mk 3); CallLogout (Session.mk 1 2)])
  /\ CleanUpCloudProvider
       (Fixture.vcenter None (Some Fixture.denied) (inr "urn:category:1") None)
       Fixture.provider marked (Fixture.updaterOf marked) []
     = (Err Fixture.denied,
        opening ++ [ CallDeleteVMFolder (Session.mk 1 2) "/dc/vm/c1";
                     CallRESTLogout (RESTSession.mk 3);
                     CallLogout (Session.mk 1 2) ]).
Proof.
  intros opening clean marked. split.
  - apply (proj1 (proj2 (proj1 (CleanUpCloudProvider_folder_finalizer
                                  Fixture.healthy Fixture.provider clean
                                  (Fixture.updaterOf clean) [])
                           eq_refl)
                    ("admin", "hunter2") (Session.mk 1 2) (RESTSession.mk 3) _
                    (ex_intro _ [] (conj eq_refl (conj eq_refl eq_refl))))
             eq_refl).
  - apply (proj1 (proj2 (CleanUpCloudProvider_folder_finalizer
                           (Fixture.vcenter None (Some Fixture.denied)
                              (inr "urn:category:1") None)
                           Fixture.provider marked (Fixture.updaterOf marked) [])
                    eq_refl
                    ("admin", "hunter2") (Session.mk 1 2) (RESTSession.mk 3) _ _
                    Fixture.denied
                    (ex_intro _ [] (conj eq_refl (conj eq_refl eq_refl)))
                    eq_refl eq_refl)).
Defined.

(** C10: with neither finalizer on the cluster, CleanUpCloudProvider still
    resolves the credentials and opens both sessions: a failure of any of
    the three is what it returns, and only when all three succeed does it
    return the cluster, after logging out of both sessions. In no case is
    the updater called. *)
Theorem CleanUpCloudProvider_without_finalizers env v cluster update h :
  HasFinalizer cluster folderCleanupFinalizer = false ->
  HasFinalizer cluster tagCategoryCleanupFinilizer = false ->
  (exists t,
     snd (CleanUpCloudProvider env v cluster update h) = h ++ t
     /\ Forall (fun c => kind c <> KUpdate) t)
  /\ match GetCredentialsForCluster (ClusterSpec.Cloud (Cluster.Spec cluster))
             (Provider.secretKeySelector v) (Some (Provider.dc v)) h with
     | (Ok cred, h1) =>
         match newSession env (Provider.dc v) (fst cred) (snd cred)
                 (Provider.caBundle v) h1 with
         | (Ok s, h2) =>
             let open := CallNewRESTSession (Provider.dc v) (fst cred) (snd cred)
                           (Provider.caBundle v) in
             match newRESTSession_answer env h2 (Provider.dc v) (fst cred)
                     (snd cred) (Provider.caBundle v) with
             | inr restSession =>
                 CleanUpCloudProvider env v cluster update h
                 = (Ok cluster,
                    h2 ++ [open; CallRESTLogout restSession; CallLogout s])
             | inl e =>
                 CleanUpCloudProvider env v cluster update h
                 = (Err (fmt_Errorf_w "failed to create REST client session: %w" [] e),
                    h2 ++ [open; CallLogout s])
             end
         | (Err e, h2) =>
             CleanUpCloudProvider env v cluster update h
             = (Err (fmt_Errorf_w "failed to create vCenter session: %w" [] e), h2)
         | (Panic, h2) =>
             CleanUpCloudProvider env v cluster update h = (Panic, h2)
         end
     | (Err e, h1) => CleanUpCloudProvider env v cluster update h = (Err e, h1)
     | (Panic, h1) => CleanUpCloudProvider env v cluster update h = (Panic, h1)
     end.
Proof.
  intros Hf Ht.
  pose proof (emits_GetCredentialsForCluster (fun c => kind c <> KUpdate)
                (ClusterSpec.Cloud (Cluster.Spec cluster))
                (Provider.secretKeySelector v) (Some (Provider.dc v))
                ltac:(discriminate) h) as (t1 & E1 & F1).
  unfold CleanUpCloudProvider. unfold_steps.
  destruct (GetCredentialsForCluster _ _ _ h) as [[cred|e|] h1];
    cbn [snd] in E1; subst h1;
    [| split; [exists t1; split; [reflexivity | assumption] | reflexivity] ..].
  pose proof (emits_newSession (fun c => kind c <> KUpdate) env (Provider.dc v)
                (fst cred) (snd cred) (Provider.caBundle v)
                ltac:(intros c Hk; cbv beta; rewrite Hk; discriminate) (h ++ t1))
    as (t2 & E2 & F2).
  destruct (newSession env _ _ _ _ (h ++ t1)) as [[s|e|] h2];
    cbn [snd] in E2; subst h2;
    [| split; [exists (t1 ++ t2); rewrite app_assoc;
               split; [reflexivity | apply Forall_app; split; assumption]
              | reflexivity] ..].
  destruct (newRESTSession_answer env _ _ _ _ _) as [e|rs]; reduce_steps;
    rewrite ?Hf; reduce_steps; rewrite ?Ht; rewrite <- !app_assoc;
    (split; [| reflexivity]); cbn [snd];
    eexists; (split; [reflexivity |]);
    repeat (apply Forall_app; split; try assumption);
    repeat constructor; discriminate.
Qed.

Lemma CleanUpCloudProvider_without_finalizers_witness :
  let cluster := Fixture.cluster ∅ "/dc/vm/c1" "urn:category:1" in
  CleanUpCloudProvider Fixture.healthy Fixture.provider cluster
    (Fixture.updaterOf cluster) []
  = (Ok cluster,
     [ CallNewClient "https://vcenter.example.com/sdk" false [];
       CallLogin 1 (Userinfo.UserPassword "admin" "hunter2");
       CallFinderDatacenter 1 "dc";
       CallNewRESTSession (Provider.dc Fixture.provider) "admin" "hunter2" [];
       CallRESTLogout (RESTSession.mk 3);
       CallLogout (Session.mk 1 2) ]).
Proof.
  intros cluster.
  exact (proj2 (CleanUpCloudProvider_without_finalizers Fixture.healthy
                  Fixture.provider cluster (Fixture.updaterOf cluster) []
                  eq_refl eq_refl)).
Defined.

Example clean_up_of_nothing_needs_vcenter :
  let cluster := Fixture.cluster ∅ "/dc/vm/c1" "urn:category:1" in
  CleanUpCloudProvider Fixture.unreachable Fixture.provider cluster
    (Fixture.updaterOf cluster) []
  = (Err (fmt_Errorf_w "failed to create vCenter session: %w" [] Fixture.refused),
     [ CallNewClient "https://vcenter.example.com/sdk" false [] ]).
Proof. reflexivity. Qed.

Example clean_up_of_nothing_needs_credentials :
  let cluster :=
    Cluster.mk "c1" ∅
      (ClusterSpec.mk
         (Fixture.cloud (Fixture.vsphere None "" "" Fixture.noCredentials
                           "/dc/vm/c1" "urn:category:1" "ds1" ""))) in
  CleanUpCloudProvider Fixture.healthy Fixture.provider cluster
    (Fixture.updaterOf cluster) []
  = (Err (errors_New
            "cluster contains no password an and empty credentialsReference"),
     []).
Proof. reflexivity. Qed.

Example clean_up_removes_both_finalizers :
  let cluster :=
    Fixture.cluster ({[ folderCleanupFinalizer ]} ∪ {[ tagCategoryCleanupFinilizer ]})
      "/dc/vm/c1" "urn:category:1" in
  map kind
    (snd (CleanUpCloudProvider Fixture.healthy Fixture.provider cluster
            (Fixture.updaterOf cluster) []))
  = [ KSessionOpen; KSessionOpen; KSessionOpen; KRESTOpen;
      KDeleteVMFolder; KUpdate; KDeleteTagCategory; KUpdate;
      KRESTLogout; KLogout ].
Proof. vm_compute. reflexivity. Qed.

(** * Further properties of the provider *)

(** ** Credentials *)

(** X1: credentials that resolve are complete: whenever
    GetCredentialsForCluster returns without error, neither the username
    nor the password is empty. *)
Theorem GetCredentialsForCluster_complete cloud secretKeySelector dc h u p h' :
  GetCredentialsForCluster cloud secretKeySelector dc h = (Ok (u, p), h') ->
  u <> "" /\ p <> "".
Proof.
  rewrite datacenterCredentials_GetCredentialsForCluster.
  destruct (datacenterCredentials dc) as [[du dp]|] eqn:Hdc.
  - intros [= <- <- _]. unfold datacenterCredentials in Hdc.
    destruct dc as [[? ? ? ? ? [[iu ip]|]]|]; try discriminate.
    cbn in Hdc.
    destruct (GoString.nonempty iu) eqn:Hu; [| discriminate].
    destruct (GoString.nonempty ip) eqn:Hp; [| discriminate].
    injection Hdc as <- <-. split; apply nonempty_true; assumption.
  - destruct (CloudSpec.VSphere cloud) as [vs|] eqn:Hvs.
    + rewrite (getUsernameAndPassword_chain _ _ _ _ Hvs).
      unfold resolveByPrecedence, bind.
      destruct (firstNonEmpty _ _ (usernameChain vs) h) as [[u0|e|] h1];
        try discriminate.
      destruct (firstNonEmpty _ _ (passwordChain vs) h1) as [[p0|e|] h2];
        try discriminate.
      destruct (GoString.nonempty u0) eqn:Hu; [| discriminate].
      destruct (GoString.nonempty p0) eqn:Hp; [| discriminate].
      intros [= <- <- _]. split; apply nonempty_true; assumption.
    + unfold getUsernameAndPassword, bind, deref, lift. rewrite Hvs.
      discriminate.
Qed.

Lemma GetCredentialsForCluster_complete_witness :
  "u2" <> "" /\ "secret-pass" <> "".
Proof.
  apply (GetCredentialsForCluster_complete
           (Fixture.cloud (Fixture.vsphere (Some Fixture.secretRef) "u2" ""
                             Fixture.noCredentials "" "" "" ""))
           Fixture.plainSecret (Some (Fixture.datacenter "" None)) []
           "u2" "secret-pass"
           [ CallSecret Fixture.secretRef VsphereInfraManagementUserPassword;
             CallSecret Fixture.secretRef VspherePassword ]).
  reflexivity.
Defined.

(** X2: a lookup that fails ends the resolution: when the username has to
    come from the secret and the lookup of the management-user key fails,
    that error is returned as it is and the plain key is never asked for. *)
Theorem GetCredentialsForCluster_lookup_error
    cloud secretKeySelector dc vs ref e h :
  datacenterCredentials dc = None ->
  CloudSpec.VSphere cloud = Some vs ->
  VSphereCredentials.Username (VSphereCloudSpec.InfraManagementUser vs) = "" ->
  VSphereCloudSpec.Username vs = "" ->
  VSphereCloudSpec.CredentialsReference vs = Some ref ->
  secretKeySelector ref VsphereInfraManagementUserUsername = inl e ->
  GetCredentialsForCluster cloud secretKeySelector dc h
  = (Err e, h ++ [CallSecret ref VsphereInfraManagementUserUsername]).
Proof.
  intros Hdc Hvs Hiu Hu Href He.
  rewrite datacenterCredentials_GetCredentialsForCluster, Hdc.
  rewrite (getUsernameAndPassword_chain _ _ _ _ Hvs).
  unfold resolveByPrecedence, usernameChain. rewrite Hiu, Hu, Href.
  cbn [firstNonEmpty GoString.nonempty]. unfold selectSecret.
  unfold bind, call. rewrite He. reflexivity.
Qed.

Lemma GetCredentialsForCluster_lookup_error_witness :
  GetCredentialsForCluster
    (Fixture.cloud (Fixture.vsphere (Some Fixture.secretRef) "" "hunter2"
                      Fixture.noCredentials "" "" "" ""))
    (fun _ _ => inl Fixture.denied) (Some (Fixture.datacenter "" None)) []
  = (Err Fixture.denied,
     [CallSecret Fixture.secretRef VsphereInfraManagementUserUsername]).
Proof.
  apply (GetCredentialsForCluster_lookup_error
           (Fixture.cloud (Fixture.vsphere (Some Fixture.secretRef) "" "hunter2"
                             Fixture.noCredentials "" "" "" ""))
           (fun _ _ => inl Fixture.denied) (Some (Fixture.datacenter "" None))
           _ Fixture.secretRef Fixture.denied []
           eq_refl eq_refl eq_refl eq_refl eq_refl eq_refl).
Defined.

(** X3: without the management user, getUsernameAndPassword walks the two
    short chains of its comment: the cluster's inline field, then the plain
    key of the secret; the management user of the cluster and the
    management-user keys of the secret play no part. *)
Theorem getUsernameAndPassword_plain secretKeySelector cloud vs h :
  CloudSpec.VSphere cloud = Some vs ->
  getUsernameAndPassword cloud secretKeySelector false h
  = bind (firstNonEmpty secretKeySelector
            (VSphereCloudSpec.CredentialsReference vs) (plainUsernameChain vs))
      (fun username =>
         bind (firstNonEmpty secretKeySelector
                 (VSphereCloudSpec.CredentialsReference vs) (plainPasswordChain vs))
           (fun password =>
              if negb (GoString.nonempty username)
              then fail (errors_New "unable to get username")
              else if negb (GoString.nonempty password)
              then fail (errors_New "unable to get password")
              else ret (username, password))) h.
Proof.
  intros Hvs. unfold getUsernameAndPassword. rewrite Hvs.
  destruct vs as [ref u p [iu ip] folder ds dsc rp tag].
  unfold plainUsernameChain, plainPasswordChain.
  cbn [VSphereCloudSpec.CredentialsReference VSphereCloudSpec.Username
       VSphereCloudSpec.Password firstNonEmpty].
  unfold selectSecret. unfold bind, deref, call, ret, fail, lift.
  cbn [VSphereCloudSpec.CredentialsReference VSphereCloudSpec.Username
       VSphereCloudSpec.Password GoString.nonempty andb negb].
  destruct u as [|? ?], p as [|? ?], ref as [r|];
    cbn [GoString.nonempty andb negb]; try reflexivity.
  all: repeat (match goal with
       | |- context [of_sum (?f ?r ?k)] =>
           destruct (f r k) as [?|[|? ?]]
       end; cbn [of_sum GoString.nonempty andb negb]; try reflexivity).
Qed.

Lemma getUsernameAndPassword_plain_witness :
  getUsernameAndPassword
    (Fixture.cloud (Fixture.vsphere (Some Fixture.secretRef) "" "hunter2"
                      (VSphereCredentials.mk "u3" "p3") "" "" "" ""))
    Fixture.plainSecret false []
  = (Ok ("secret-user", "hunter2"), [CallSecret Fixture.secretRef VsphereUsername]).
Proof.
  exact (getUsernameAndPassword_plain Fixture.plainSecret
           (Fixture.cloud (Fixture.vsphere (Some Fixture.secretRef) "" "hunter2"
                             (VSphereCredentials.mk "u3" "p3") "" "" "" ""))
           _ [] eq_refl).
Defined.

(** ** Sessions *)

Lemma newSession_loginUser env dc username password caBundle h :
  newSession env dc username password caBundle h
  = bind (lift (of_sum (url_Parse env (DatacenterSpecVSphere.Endpoint dc +:+ "/sdk"))))
      (fun u =>
         bind (call (CallNewClient u (DatacenterSpecVSphere.AllowInsecure dc) caBundle)
                 (fun h => of_sum (vim25_NewClient env h u
                                     (DatacenterSpecVSphere.AllowInsecure dc) caBundle)))
           (fun client =>
              bind (wrap "failed to login: %w" []
                      (call (CallLogin client (loginUser dc username password))
                         (fun h => of_err (client_Login env h client
                                             (loginUser dc username password)))))
                (fun _ =>
                   bind (wrap "failed to get vSphere datacenter %q: %w"
                           [DatacenterSpecVSphere.Datacenter dc]
                           (call (CallFinderDatacenter client
                                    (DatacenterSpecVSphere.Datacenter dc))
                              (fun h => of_sum (finder_Datacenter env h client
                                                  (DatacenterSpecVSphere.Datacenter dc)))))
                     (fun datacenter => ret (Session.mk client datacenter))))) h.
Proof.
  unfold newSession, loginUser.
  destruct (DatacenterSpecVSphere.InfraManagementUser dc); reflexivity.
Qed.

(** X4: newSession never logs out. When the login went through and the
    datacenter is then not found, it returns the error wrapped with the
    datacenter's name, and the log ends with the lookup: the session just
    logged in is left open; a failed login is wrapped as well and ends the
    log. *)
Theorem newSession_failures env dc username password caBundle h u client :
  url_Parse env (DatacenterSpecVSphere.Endpoint dc +:+ "/sdk") = inr u ->
  vim25_NewClient env h u (DatacenterSpecVSphere.AllowInsecure dc) caBundle
  = inr client ->
  let opening :=
    [ CallNewClient u (DatacenterSpecVSphere.AllowInsecure dc) caBundle;
      CallLogin client (loginUser dc username password) ] in
  (forall e,
     client_Login env (h ++ [CallNewClient u (DatacenterSpecVSphere.AllowInsecure dc)
                               caBundle])
       client (loginUser dc username password) = Some e ->
     newSession env dc username password caBundle h
     = (Err (fmt_Errorf_w "failed to login: %w" [] e), h ++ opening))
  /\ (forall e,
     client_Login env (h ++ [CallNewClient u (DatacenterSpecVSphere.AllowInsecure dc)
                               caBundle])
       client (loginUser dc username password) = None ->
     finder_Datacenter env (h ++ opening) client (DatacenterSpecVSphere.Datacenter dc)
     = inl e ->
     newSession env dc username password caBundle h
     = (Err (fmt_Errorf_w "failed to get vSphere datacenter %q: %w"
               [DatacenterSpecVSphere.Datacenter dc] e),
        h ++ opening
          ++ [CallFinderDatacenter client (DatacenterSpecVSphere.Datacenter dc)]))
  /\ emits (fun c => kind c <> KLogout)
       (newSession env dc username password caBundle).
Proof.
  intros Hu Hc opening. subst opening. split; [| split].
  - intros e Hl. rewrite newSession_loginUser.
    unfold bind, lift, call, wrap, ret. rewrite Hu. cbn [of_sum].
    rewrite Hc. cbn [of_sum]. rewrite Hl. cbn [of_err].
    rewrite <- app_assoc. reflexivity.
  - intros e Hl Hd. rewrite newSession_loginUser.
    unfold bind, lift, call, wrap, ret. rewrite Hu. cbn [of_sum].
    rewrite Hc. cbn [of_sum]. rewrite Hl. cbn [of_err].
    rewrite <- app_assoc. cbn [app]. rewrite Hd. cbn [of_sum].
    rewrite <- app_assoc. reflexivity.
  - apply emits_newSession. intros c Hk. rewrite Hk. discriminate.
Qed.

Lemma newSession_failures_witness :
  let env :=
    {| url_Parse := fun raw => inr raw;
       vim25_NewClient := fun _ _ _ _ => inr 1;
       client_Login := fun _ _ _ => None;
       finder_Datacenter := fun _ _ _ => inl Fixture.denied;
       finder_FolderList := fun _ _ _ => inr [];
       finder_Datastore := fun _ _ _ => None;
       finder_ResourcePool := fun _ _ _ => None;
       finder_DatastoreCluster := fun _ _ _ => None;
       newRESTSession_answer := fun _ _ _ _ _ => inr (RESTSession.mk 3);
       createVMFolder_answer := fun _ _ _ => None;
       deleteVMFolder_answer := fun _ _ _ => None;
       createTagCategory_answer := fun _ _ _ => inr "urn:category:1";
       deleteTagCategory_answer := fun _ _ _ => None |} in
  newSession env (Fixture.datacenter "" None) "admin" "hunter2" [] []
  = (Err (fmt_Errorf_w "failed to get vSphere datacenter %q: %w" ["dc"]
            Fixture.denied),
     [ CallNewClient "https://vcenter.example.com/sdk" false [];
       CallLogin 1 (Userinfo.UserPassword "admin" "hunter2");
       CallFinderDatacenter 1 "dc" ]).
Proof.
  intros env.
  apply (proj1 (proj2 (newSession_failures env (Fixture.datacenter "" None)
                         "admin" "hunter2" [] [] _ 1 eq_refl eq_refl))
           Fixture.denied eq_refl eq_refl).
Defined.





(** The cluster's own credentials are resolved and then not used. *)
Example resolved_credentials_are_not_used :
  let v := Provider.mk (Fixture.datacenter "" (Some (VSphereCredentials.mk "svc" "")))
             Fixture.plainSecret [] in
  let cluster := Fixture.cluster ∅ "" "urn:category:1" in
  firstn 2 (snd (InitializeCloudProvider Fixture.healthy v cluster
                   (Fixture.updaterOf cluster) []))
  = [ CallNewClient "https://vcenter.example.com/sdk" false [];
      CallLogin 1 (Userinfo.UserPassword "svc" "") ].
Proof. reflexivity. Qed.

(** ** InitializeCloudProvider, step by step *)

(** What the mutation of the folder step does to the cluster it is applied
    to. *)
Lemma setFolder_spec clusterFolder c cvs :
  Cluster.vsphere c = Some cvs ->
  setFolder clusterFolder c
  = Some (Cluster.mk (Cluster.Name c)
            ({[ folderCleanupFinalizer ]} ∪ Cluster.Finalizers c)
            (ClusterSpec.mk
               (CloudSpec.mk (Some (VSphereCloudSpec.with_Folder cvs clusterFolder))))).
Proof.
  intros Hc. unfold setFolder.
  replace (Cluster.vsphere (AddFinalizer c folderCleanupFinalizer))
    with (Some cvs) by (rewrite <- Hc; reflexivity).
  reflexivity.
Qed.

(** With folder and tag category both set, initializing is resolving the
    credentials. *)
Lemma InitializeCloudProvider_both_set env v cluster update vs h :
  Cluster.vsphere cluster = Some vs ->
  VSphereCloudSpec.Folder vs <> "" ->
  VSphereCloudSpec.TagCategoryID vs <> "" ->
  InitializeCloudProvider env v cluster update h
  = bind (GetCredentialsForCluster (ClusterSpec.Cloud (Cluster.Spec cluster))
            (Provider.secretKeySelector v) (Some (Provider.dc v)))
         (fun _ => ret cluster) h.
Proof.
  intros Hvs Hf Ht. apply nonempty_true in Ht.
  rewrite (InitializeCloudProvider_folder_set env v cluster update vs h Hvs Hf).
  unfold bind. destruct (GetCredentialsForCluster _ _ _ h) as [[cred|e|] h1];
    try reflexivity.
  unfold initializeTagCategory, bind, deref, lift. rewrite Hvs, Ht. reflexivity.
Qed.

(** X6: a cluster that has both its folder and its tag category is left
    alone: InitializeCloudProvider resolves the credentials and returns the
    cluster as it got it, without a session, a vCenter call or an update. *)
Theorem InitializeCloudProvider_provisioned env v cluster update h vs :
  Cluster.vsphere cluster = Some vs ->
  VSphereCloudSpec.Folder vs <> "" ->
  VSphereCloudSpec.TagCategoryID vs <> "" ->
  (exists t,
     snd (InitializeCloudProvider env v cluster update h) = h ++ t
     /\ Forall (fun c => kind c = KSecret) t)
  /\ (forall cred h1,
        GetCredentialsForCluster (ClusterSpec.Cloud (Cluster.Spec cluster))
          (Provider.secretKeySelector v) (Some (Provider.dc v)) h = (Ok cred, h1) ->
        InitializeCloudProvider env v cluster update h = (Ok cluster, h1)).
Proof.
  intros Hvs Hf Ht. split.
  - rewrite (InitializeCloudProvider_both_set env v cluster update vs h Hvs Hf Ht).
    apply emits_bind; [| intros ?; apply emits_ret].
    apply emits_GetCredentialsForCluster. reflexivity.
  - intros cred h1 Hc.
    rewrite (InitializeCloudProvider_both_set env v cluster update vs h Hvs Hf Ht).
    unfold bind. rewrite Hc. reflexivity.
Qed.

Lemma InitializeCloudProvider_provisioned_witness :
  let cluster := Fixture.cluster ∅ "/dc/vm/c1" "urn:category:1" in
  InitializeCloudProvider Fixture.unreachable Fixture.provider cluster
    (Fixture.updaterOf cluster) []
  = (Ok cluster, []).
Proof.
  intros cluster.
  apply (proj2 (InitializeCloudProvider_provisioned Fixture.unreachable
                  Fixture.provider cluster (Fixture.updaterOf cluster) [] _
                  eq_refl ltac:(discriminate) ltac:(discriminate))
           ("admin", "hunter2") [] eq_refl).
Defined.

(** The folder step up to the call of the updater. *)
Lemma InitializeCloudProvider_folder_created
    env v cluster update h vs cred h1 s h2 :
  Cluster.vsphere cluster = Some vs ->
  VSphereCloudSpec.Folder vs = "" ->
  GetCredentialsForCluster (ClusterSpec.Cloud (Cluster.Spec cluster))
    (Provider.secretKeySelector v) (Some (Provider.dc v)) h = (Ok cred, h1) ->
  newSession env (Provider.dc v) (fst cred) (snd cred) (Provider.caBundle v) h1
  = (Ok s, h2) ->
  let clusterFolder :=
    GoPath.Join [getVMRootPath (Provider.dc v); Cluster.Name cluster] in
  createVMFolder_answer env h2 s clusterFolder = None ->
  InitializeCloudProvider env v cluster update h
  = defer (Logout s)
      (bind (lift (of_sum (update (h2 ++ [CallCreateVMFolder s clusterFolder])
                             (Cluster.Name cluster) (setFolder clusterFolder))))
         (fun c1 =>
            initializeTagCategory env v (fst cred) (snd cred) c1 update))
      (h2 ++ [ CallCreateVMFolder s clusterFolder;
               CallUpdate (Cluster.Name cluster) (setFolder clusterFolder) ]).
Proof.
  intros Hvs Hf Hc Hs clusterFolder Hcreate. subst clusterFolder.
  unfold InitializeCloudProvider.
  unfold run_update, createVMFolder, Logout.
  unfold bind at 1. rewrite Hc. unfold bind at 1, deref, lift at 1. rewrite Hvs, Hf.
  cbn [GoString.nonempty negb]. cbv zeta.
  unfold bind at 1, wrap at 1. rewrite Hs.
  unfold defer, bind, wrap, call, lift. rewrite Hcreate. cbn [of_err].
  rewrite <- app_assoc. cbn [app].
  destruct (update _ _ _); reflexivity.
Qed.

(** X7: when the folder was created and the updater then fails to record
    it, InitializeCloudProvider returns the updater's error as it is and
    logs out; the tag category step is not attempted and nothing removes
    the folder again. *)
Theorem InitializeCloudProvider_folder_not_recorded
    env v cluster update h vs cred h1 s h2 e :
  Cluster.vsphere cluster = Some vs ->
  VSphereCloudSpec.Folder vs = "" ->
  GetCredentialsForCluster (ClusterSpec.Cloud (Cluster.Spec cluster))
    (Provider.secretKeySelector v) (Some (Provider.dc v)) h = (Ok cred, h1) ->
  newSession env (Provider.dc v) (fst cred) (snd cred) (Provider.caBundle v) h1
  = (Ok s, h2) ->
  let clusterFolder :=
    GoPath.Join [getVMRootPath (Provider.dc v); Cluster.Name cluster] in
  createVMFolder_answer env h2 s clusterFolder = None ->
  update (h2 ++ [CallCreateVMFolder s clusterFolder]) (Cluster.Name cluster)
    (setFolder clusterFolder) = inl e ->
  InitializeCloudProvider env v cluster update h
  = (Err e,
     h2 ++ [ CallCreateVMFolder s clusterFolder;
             CallUpdate (Cluster.Name cluster) (setFolder clusterFolder);
             CallLogout s ]).
Proof.
  intros Hvs Hf Hc Hs clusterFolder Hcreate Hu.
  rewrite (InitializeCloudProvider_folder_created env v cluster update h vs
             cred h1 s h2 Hvs Hf Hc Hs Hcreate).
  fold clusterFolder. unfold defer, bind, lift, Logout, call. rewrite Hu.
  cbn [of_sum snd]. rewrite <- app_assoc. reflexivity.
Qed.

Lemma InitializeCloudProvider_folder_not_recorded_witness :
  let cluster := Fixture.cluster ∅ "" "" in
  InitializeCloudProvider Fixture.healthy Fixture.provider cluster
    (fun _ _ _ => inl Fixture.denied) []
  = (Err Fixture.denied,
     [ CallNewClient "https://vcenter.example.com/sdk" false [];
       CallLogin 1 (Userinfo.UserPassword "admin" "hunter2");
       CallFinderDatacenter 1 "dc";
       CallCreateVMFolder (Session.mk 1 2) "/dc/vm/c1";
       CallUpdate "c1" (setFolder "/dc/vm/c1");
       CallLogout (Session.mk 1 2) ]).
Proof.
  intros cluster.
  apply (InitializeCloudProvider_folder_not_recorded Fixture.healthy
           Fixture.provider cluster (fun _ _ _ => inl Fixture.denied) []
           _ ("admin", "hunter2") [] (Session.mk 1 2) _ Fixture.denied
           eq_refl eq_refl eq_refl eq_refl eq_refl eq_refl).
Defined.

(** X8: when the folder was created and recorded, the mutation handed to
    the updater is the one that adds the folder finalizer and sets the
    folder to the root path joined with the cluster's name; the tag
    category step then runs on the cluster the updater returned, and the
    session of the folder step is logged out only after it, as the last
    call of all. *)
Theorem InitializeCloudProvider_folder_recorded
    env v cluster update h vs cred h1 s h2 c1 :
  Cluster.vsphere cluster = Some vs ->
  VSphereCloudSpec.Folder vs = "" ->
  GetCredentialsForCluster (ClusterSpec.Cloud (Cluster.Spec cluster))
    (Provider.secretKeySelector v) (Some (Provider.dc v)) h = (Ok cred, h1) ->
  newSession env (Provider.dc v) (fst cred) (snd cred) (Provider.caBundle v) h1
  = (Ok s, h2) ->
  let clusterFolder :=
    GoPath.Join [getVMRootPath (Provider.dc v); Cluster.Name cluster] in
  createVMFolder_answer env h2 s clusterFolder = None ->
  update (h2 ++ [CallCreateVMFolder s clusterFolder]) (Cluster.Name cluster)
    (setFolder clusterFolder) = inr c1 ->
  let recorded :=
    h2 ++ [ CallCreateVMFolder s clusterFolder;
            CallUpdate (Cluster.Name cluster) (setFolder clusterFolder) ] in
  InitializeCloudProvider env v cluster update h
  = (fst (initializeTagCategory env v (fst cred) (snd cred) c1 update recorded),
     snd (initializeTagCategory env v (fst cred) (snd cred) c1 update recorded)
     ++ [CallLogout s])
  /\ (exists t,
        snd (initializeTagCategory env v (fst cred) (snd cred) c1 update recorded)
        = recorded ++ t
        /\ Forall (fun c => kind c <> KLogout) t)
  /\ (forall c cvs,
        Cluster.vsphere c = Some cvs ->
        exists c',
          setFolder clusterFolder c = Some c'
          /\ Cluster.vsphere c' = Some (VSphereCloudSpec.with_Folder cvs clusterFolder)
          /\ Cluster.Finalizers c'
             = {[ folderCleanupFinalizer ]} ∪ Cluster.Finalizers c).
Proof.
  intros Hvs Hf Hc Hs clusterFolder Hcreate Hu recorded. split; [| split].
  - rewrite (InitializeCloudProvider_folder_created env v cluster update h vs
               cred h1 s h2 Hvs Hf Hc Hs Hcreate).
    fold clusterFolder. fold recorded.
    unfold defer, bind at 1, lift, Logout, call. rewrite Hu. cbn [of_sum].
    destruct (initializeTagCategory _ _ _ _ _ _ _); reflexivity.
  - destruct (emits_initializeTagCategory env v (fst cred) (snd cred) c1 update
                recorded) as (t & Et & Ft).
    exists t. split; [exact Et |].
    revert Ft. apply List.Forall_impl.
    simpl. intros c Hk Hl. rewrite Hl in Hk. intuition discriminate.
  - intros c cvs Hcv. rewrite (setFolder_spec clusterFolder c cvs Hcv).
    eexists. repeat split.
Qed.

Lemma InitializeCloudProvider_folder_recorded_witness :
  let cluster := Fixture.cluster ∅ "" "" in
  let c1 :=
    Cluster.mk "c1" ({[ folderCleanupFinalizer ]} ∪ ∅)
      (ClusterSpec.mk
         (Fixture.cloud
            (Fixture.vsphere None "admin" "hunter2" Fixture.noCredentials
               "/dc/vm/c1" "" "ds1" ""))) in
  snd (InitializeCloudProvider Fixture.healthy Fixture.provider cluster
         (Fixture.updaterOf cluster) [])
  = [ CallNewClient "https://vcenter.example.com/sdk" false [];
      CallLogin 1 (Userinfo.UserPassword "admin" "hunter2");
      CallFinderDatacenter 1 "dc";
      CallCreateVMFolder (Session.mk 1 2) "/dc/vm/c1";
      CallUpdate "c1" (setFolder "/dc/vm/c1");
      CallNewRESTSession (Provider.dc Fixture.provider) "admin" "hunter2" [];
      CallCreateTagCategory (RESTSession.mk 3) c1;
      CallUpdate "c1" (setTagCategoryID "urn:category:1");
      CallRESTLogout (RESTSession.mk 3) ]
    ++ [CallLogout (Session.mk 1 2)].
Proof.
  intros cluster c1.
  exact (f_equal snd
           (proj1 (InitializeCloudProvider_folder_recorded Fixture.healthy
                     Fixture.provider cluster (Fixture.updaterOf cluster) []
                     _ ("admin", "hunter2") [] (Session.mk 1 2) _ c1
                     eq_refl eq_refl eq_refl eq_refl eq_refl eq_refl))).
Defined.

(** ** CleanUpCloudProvider, step by step *)

(** The clean-up of a cluster with the folder finalizer, up to the answer
    of the updater. *)
Lemma CleanUpCloudProvider_folder_deleted
    env v cluster update h cred s restSession h2 vs :
  opened env v cluster h cred s restSession h2 ->
  HasFinalizer cluster folderCleanupFinalizer = true ->
  Cluster.vsphere cluster = Some vs ->
  let h3 := h2 ++ [CallNewRESTSession (Provider.dc v) (fst cred) (snd cred)
                     (Provider.caBundle v)] in
  deleteVMFolder_answer env h3 s (VSphereCloudSpec.Folder vs) = None ->
  CleanUpCloudProvider env v cluster update h
  = defer (Logout s)
      (defer (RESTLogout restSession)
         (bind (lift (of_sum (update (h3 ++ [CallDeleteVMFolder s
                                               (VSphereCloudSpec.Folder vs)])
                                (Cluster.Name cluster)
                                (dropFinalizer folderCleanupFinalizer))))
            (fun c1 =>
               bind (if HasFinalizer c1 tagCategoryCleanupFinilizer
                     then bind (deleteTagCategory env restSession c1)
                            (fun _ => run_update update (Cluster.Name c1)
                                        (dropFinalizer tagCategoryCleanupFinilizer))
                     else ret c1)
                 (fun c2 => ret c2))))
      (h3 ++ [ CallDeleteVMFolder s (VSphereCloudSpec.Folder vs);
               CallUpdate (Cluster.Name cluster)
                 (dropFinalizer folderCleanupFinalizer) ]).
Proof.
  intros (h1 & Hc & Hs & Hr) Hf Hvs h3 Hd. subst h3.
  unfold CleanUpCloudProvider. unfold_steps.
  rewrite Hc, Hs, Hr, Hf, Hvs. reduce_steps. rewrite Hd. reduce_steps.
  rewrite <- !app_assoc. cbn [app].
  destruct (update _ _ _) as [e|c1]; reduce_steps; [reflexivity |].
  destruct (HasFinalizer c1 tagCategoryCleanupFinilizer); [| reflexivity].
  destruct (deleteTagCategory_answer env _ restSession c1); reduce_steps;
    [reflexivity |].
  destruct (update _ _ _); reflexivity.
Qed.

(** X9: the clean-up does not take back what it has done. After the folder
    was deleted, a failure of the updater is returned as it is, with the
    tag category not looked at; and once the removal of the folder
    finalizer is recorded, a failing deletion of the tag category is
    returned with that update still standing. The tag category is deleted
    for the cluster the updater returned. Both sessions are logged out in
    either case, the REST session first. *)
Theorem CleanUpCloudProvider_keeps_progress
    env v cluster update h cred s restSession h2 vs :
  opened env v cluster h cred s restSession h2 ->
  HasFinalizer cluster folderCleanupFinalizer = true ->
  Cluster.vsphere cluster = Some vs ->
  let h3 := h2 ++ [CallNewRESTSession (Provider.dc v) (fst cred) (snd cred)
                     (Provider.caBundle v)] in
  let deleted := CallDeleteVMFolder s (VSphereCloudSpec.Folder vs) in
  let recorded := CallUpdate (Cluster.Name cluster)
                    (dropFinalizer folderCleanupFinalizer) in
  deleteVMFolder_answer env h3 s (VSphereCloudSpec.Folder vs) = None ->
  (forall e,
     update (h3 ++ [deleted]) (Cluster.Name cluster)
       (dropFinalizer folderCleanupFinalizer) = inl e ->
     CleanUpCloudProvider env v cluster update h
     = (Err e,
        h3 ++ [deleted; recorded; CallRESTLogout restSession; CallLogout s]))
  /\ (forall c1 e,
     update (h3 ++ [deleted]) (Cluster.Name cluster)
       (dropFinalizer folderCleanupFinalizer) = inr c1 ->
     HasFinalizer c1 tagCategoryCleanupFinilizer = true ->
     deleteTagCategory_answer env (h3 ++ [deleted; recorded]) restSession c1
     = Some e ->
     CleanUpCloudProvider env v cluster update h
     = (Err e,
        h3 ++ [ deleted; recorded; CallDeleteTagCategory restSession c1;
                CallRESTLogout restSession; CallLogout s ])).
Proof.
  intros Ho Hf Hvs h3 deleted recorded Hd. split.
  - intros e Hu.
    rewrite (CleanUpCloudProvider_folder_deleted env v cluster update h cred s
               restSession h2 vs Ho Hf Hvs Hd).
    fold h3. fold deleted. unfold defer, bind, lift, Logout, RESTLogout, call.
    rewrite Hu. cbn [of_sum fst snd]. rewrite <- !app_assoc. reflexivity.
  - intros c1 e Hu Ht Hdt.
    rewrite (CleanUpCloudProvider_folder_deleted env v cluster update h cred s
               restSession h2 vs Ho Hf Hvs Hd).
    fold h3. fold deleted. fold recorded.
    unfold defer, bind, lift, Logout, RESTLogout, deleteTagCategory, call.
    rewrite Hu. cbn [of_sum fst snd]. rewrite Ht, Hdt. cbn [of_err fst snd].
    rewrite <- !app_assoc. reflexivity.
Qed.

Lemma CleanUpCloudProvider_keeps_progress_witness :
  let env := Fixture.vcenter None None (inr "urn:category:1")
               (Some Fixture.denied) in
  let cluster :=
    Fixture.cluster ({[ folderCleanupFinalizer ]} ∪ {[ tagCategoryCleanupFinilizer ]})
      "/dc/vm/c1" "urn:category:1" in
  fst (CleanUpCloudProvider env Fixture.provider cluster
         (Fixture.updaterOf cluster) [])
  = Err Fixture.denied.
Proof.
  intros env cluster.
  exact (f_equal fst
           (proj2 (CleanUpCloudProvider_keeps_progress env Fixture.provider
                     cluster (Fixture.updaterOf cluster) [] ("admin", "hunter2")
                     (Session.mk 1 2) (RESTSession.mk 3) _ _
                     (ex_intro _ [] (conj eq_refl (conj eq_refl eq_refl)))
                     eq_refl eq_refl eq_refl)
              (RemoveFinalizer cluster folderCleanupFinalizer) Fixture.denied
              eq_refl eq_refl eq_refl)).
Defined.

(** X10: the complete clean-up of a cluster with both finalizers: the
    folder is deleted at the path the cluster stores, the removal of its
    finalizer is recorded, then the tag category of the cluster the updater
    returned is deleted and the removal of its finalizer recorded under
    that cluster's name; the result is what the second update returned, and
    the REST session is logged out before the data-plane session. Without
    the tag category finalizer on the cluster the first update returned,
    that cluster is the result. *)
Theorem CleanUpCloudProvider_complete
    env v cluster update h cred s restSession h2 vs c1 :
  opened env v cluster h cred s restSession h2 ->
  HasFinalizer cluster folderCleanupFinalizer = true ->
  Cluster.vsphere cluster = Some vs ->
  let h3 := h2 ++ [CallNewRESTSession (Provider.dc v) (fst cred) (snd cred)
                     (Provider.caBundle v)] in
  let deleted := CallDeleteVMFolder s (VSphereCloudSpec.Folder vs) in
  let recorded := CallUpdate (Cluster.Name cluster)
                    (dropFinalizer folderCleanupFinalizer) in
  deleteVMFolder_answer env h3 s (VSphereCloudSpec.Folder vs) = None ->
  update (h3 ++ [deleted]) (Cluster.Name cluster)
    (dropFinalizer folderCleanupFinalizer) = inr c1 ->
  (HasFinalizer c1 tagCategoryCleanupFinilizer = false ->
     CleanUpCloudProvider env v cluster update h
     = (Ok c1,
        h3 ++ [deleted; recorded; CallRESTLogout restSession; CallLogout s]))
  /\ (forall c2,
     HasFinalizer c1 tagCategoryCleanupFinilizer = true ->
     deleteTagCategory_answer env (h3 ++ [deleted; recorded]) restSession c1
     = None ->
     update (h3 ++ [deleted; recorded; CallDeleteTagCategory restSession c1])
       (Cluster.Name c1) (dropFinalizer tagCategoryCleanupFinilizer) = inr c2 ->
     CleanUpCloudProvider env v cluster update h
     = (Ok c2,
        h3 ++ [ deleted; recorded; CallDeleteTagCategory restSession c1;
                CallUpdate (Cluster.Name c1)
                  (dropFinalizer tagCategoryCleanupFinilizer);
                CallRESTLogout restSession; CallLogout s ])).
Proof.
  intros Ho Hf Hvs h3 deleted recorded Hd Hu.
  rewrite (CleanUpCloudProvider_folder_deleted env v cluster update h cred s
             restSession h2 vs Ho Hf Hvs Hd).
  fold h3. fold deleted. fold recorded.
  unfold run_update, deleteTagCategory.
  unfold defer, bind, ret, lift, Logout, RESTLogout, call.
  rewrite Hu. cbn [of_sum fst snd].
  split.
  - intros Ht. rewrite Ht. cbn [fst snd]. rewrite <- !app_assoc. reflexivity.
  - intros c2 Ht Hdt Hu2. rewrite Ht, Hdt. cbn [of_err].
    rewrite <- !app_assoc. cbn [app].
    rewrite Hu2. cbn [of_sum fst snd]. rewrite <- !app_assoc. reflexivity.
Qed.

Lemma CleanUpCloudProvider_complete_witness :
  let cluster :=
    Fixture.cluster ({[ folderCleanupFinalizer ]} ∪ {[ tagCategoryCleanupFinilizer ]})
      "/dc/vm/c1" "urn:category:1" in
  let c1 := RemoveFinalizer cluster folderCleanupFinalizer in
  CleanUpCloudProvider Fixture.healthy Fixture.provider cluster
    (Fixture.updaterOf cluster) []
  = (Ok (RemoveFinalizer cluster tagCategoryCleanupFinilizer),
     [ CallNewClient "https://vcenter.example.com/sdk" false [];
       CallLogin 1 (Userinfo.UserPassword "admin" "hunter2");
       CallFinderDatacenter 1 "dc";
       CallNewRESTSession (Provider.dc Fixture.provider) "admin" "hunter2" [];
       CallDeleteVMFolder (Session.mk 1 2) "/dc/vm/c1";
       CallUpdate "c1" (dropFinalizer folderCleanupFinalizer);
       CallDeleteTagCategory (RESTSession.mk 3) c1;
       CallUpdate "c1" (dropFinalizer tagCategoryCleanupFinilizer);
       CallRESTLogout (RESTSession.mk 3);
       CallLogout (Session.mk 1 2) ]).
Proof.
  intros cluster c1.
  apply (proj2 (CleanUpCloudProvider_complete Fixture.healthy Fixture.provider
                  cluster (Fixture.updaterOf cluster) [] ("admin", "hunter2")
                  (Session.mk 1 2) (RESTSession.mk 3) _ _ c1
                  (ex_intro _ [] (conj eq_refl (conj eq_refl eq_refl)))
                  eq_refl eq_refl eq_refl eq_refl)
           (RemoveFinalizer cluster tagCategoryCleanupFinilizer)
           eq_refl eq_refl eq_refl).
Defined.

(** ** The mutations handed to the updater *)

Lemma union_singleton_twice (x : string) (S : gset string) :
  {[ x ]} ∪ ({[ x ]} ∪ S) = {[ x ]} ∪ S.
Proof. apply set_eq. intros y. rewrite !elem_of_union. tauto. Qed.

Lemma difference_singleton_twice (x : string) (S : gset string) :
  (S ∖ {[ x ]}) ∖ {[ x ]} = S ∖ {[ x ]}.
Proof. apply set_eq. intros y. rewrite !elem_of_difference. tauto. Qed.

Lemma add_add_drop_drop (f t : string) (S : gset string) :
  f ∉ S -> t ∉ S ->
  (({[ t ]} ∪ ({[ f ]} ∪ S)) ∖ {[ f ]}) ∖ {[ t ]} = S.
Proof.
  intros Hf Ht. apply set_eq. intros y.
  rewrite !elem_of_difference, !elem_of_union, !elem_of_singleton.
  split; [tauto |].
  intros Hy. repeat split; [tauto | |]; intros ->; contradiction.
Qed.

(** X11: the mutations can be applied again: setting the folder, setting
    the tag category or dropping a finalizer a second time changes nothing,
    so an updater that applies a mutation more than once does no harm. *)
Theorem mutations_idempotent (c c' : Cluster.t) :
  (forall clusterFolder,
     setFolder clusterFolder c = Some c' -> setFolder clusterFolder c' = Some c')
  /\ (forall categoryID,
     setTagCategoryID categoryID c = Some c' ->
     setTagCategoryID categoryID c' = Some c')
  /\ (forall name,
     dropFinalizer name c = Some c' -> dropFinalizer name c' = Some c').
Proof.
  destruct c as [name fs [[vsp]]]. split; [| split].
  - intros p. unfold setFolder, AddFinalizer, Cluster.vsphere,
      Cluster.with_Finalizers, Cluster.with_vsphere. cbn.
    destruct vsp as [vs|]; [| discriminate]. intros H. simplify_eq. cbn.
    do 2 f_equal. apply union_singleton_twice.
  - intros id. unfold setTagCategoryID, AddFinalizer, Cluster.vsphere,
      Cluster.with_Finalizers, Cluster.with_vsphere. cbn.
    destruct vsp as [vs|]; [| discriminate]. intros H. simplify_eq. cbn.
    do 2 f_equal. apply union_singleton_twice.
  - intros f. unfold dropFinalizer, RemoveFinalizer, Cluster.with_Finalizers. cbn.
    intros H. simplify_eq. cbn. do 2 f_equal. apply difference_singleton_twice.
Qed.

Lemma mutations_idempotent_witness :
  let c' :=
    Cluster.mk "c1" ({[ folderCleanupFinalizer ]} ∪ ∅)
      (ClusterSpec.mk
         (Fixture.cloud
            (Fixture.vsphere None "admin" "hunter2" Fixture.noCredentials
               "/dc/vm/c1" "" "ds1" ""))) in
  setFolder "/dc/vm/c1" c' = Some c'.
Proof.
  intros c'.
  apply (proj1 (mutations_idempotent (Fixture.cluster ∅ "" "") c') "/dc/vm/c1").
  reflexivity.
Defined.

(** The four mutations of a cluster's life, one after the other. *)
Lemma lifecycle_mutations clusterFolder categoryID c vs :
  Cluster.vsphere c = Some vs ->
  folderCleanupFinalizer ∉ Cluster.Finalizers c ->
  tagCategoryCleanupFinilizer ∉ Cluster.Finalizers c ->
  ((setFolder clusterFolder c
      ≫= setTagCategoryID categoryID)
     ≫= dropFinalizer folderCleanupFinalizer)
    ≫= dropFinalizer tagCategoryCleanupFinilizer
  = Some (Cluster.mk (Cluster.Name c) (Cluster.Finalizers c)
            (ClusterSpec.mk
               (CloudSpec.mk
                  (Some (VSphereCloudSpec.with_TagCategoryID
                           (VSphereCloudSpec.with_Folder vs clusterFolder)
                           categoryID))))).
Proof.
  intros Hvs Hf Ht. rewrite (setFolder_spec clusterFolder c vs Hvs). cbn.
  unfold dropFinalizer, RemoveFinalizer, AddFinalizer, Cluster.with_vsphere,
    Cluster.with_Finalizers. cbn.
  do 2 f_equal. apply add_add_drop_drop; assumption.
Qed.

(** X12: initializing and cleaning up take the finalizers back to where
    they were, but not the cluster: the mutations of the clean-up only drop
    the finalizers, so folder and tag category stay recorded, and a later
    InitializeCloudProvider on that cluster creates nothing. *)
Theorem lifecycle_leaves_fields_set clusterFolder categoryID c vs :
  Cluster.vsphere c = Some vs ->
  folderCleanupFinalizer ∉ Cluster.Finalizers c ->
  tagCategoryCleanupFinilizer ∉ Cluster.Finalizers c ->
  exists c4,
    ((setFolder clusterFolder c
        ≫= setTagCategoryID categoryID)
       ≫= dropFinalizer folderCleanupFinalizer)
      ≫= dropFinalizer tagCategoryCleanupFinilizer = Some c4
    /\ Cluster.Finalizers c4 = Cluster.Finalizers c
    /\ Cluster.vsphere c4
       = Some (VSphereCloudSpec.with_TagCategoryID
                 (VSphereCloudSpec.with_Folder vs clusterFolder) categoryID)
    /\ (clusterFolder <> "" -> categoryID <> "" ->
        forall env v update h cred h1,
          GetCredentialsForCluster (ClusterSpec.Cloud (Cluster.Spec c4))
            (Provider.secretKeySelector v) (Some (Provider.dc v)) h
          = (Ok cred, h1) ->
          InitializeCloudProvider env v c4 update h = (Ok c4, h1)).
Proof.
  intros Hvs Hf Ht.
  eexists. split; [apply (lifecycle_mutations _ _ _ _ Hvs Hf Ht) |].
  split; [reflexivity |]. split; [reflexivity |].
  intros Hp Hid env v update h cred h1 Hc.
  erewrite InitializeCloudProvider_both_set;
    [unfold bind; rewrite Hc; reflexivity | reflexivity | exact Hp | exact Hid].
Qed.

Lemma lifecycle_leaves_fields_set_witness :
  let c := Fixture.cluster ∅ "" "" in
  let c4 :=
    Cluster.mk "c1" ∅
      (ClusterSpec.mk
         (Fixture.cloud
            (Fixture.vsphere None "admin" "hunter2" Fixture.noCredentials
               "/dc/vm/c1" "urn:category:1" "ds1" ""))) in
  exists c4',
    ((setFolder "/dc/vm/c1" c
        ≫= setTagCategoryID "urn:category:1")
       ≫= dropFinalizer folderCleanupFinalizer)
      ≫= dropFinalizer tagCategoryCleanupFinilizer = Some c4'
    /\ Cluster.vsphere c4' = Cluster.vsphere c4.
Proof.
  intros c c4.
  destruct (lifecycle_leaves_fields_set "/dc/vm/c1" "urn:category:1" c _ eq_refl
              ltac:(apply not_elem_of_empty) ltac:(apply not_elem_of_empty))
    as (c4' & E & _ & V & _).
  exists c4'. split; [exact E | exact V].
Defined.

(** ** ValidateCloudSpec, past the datastore checks *)

(** With a datastore configuration that passes, validating is looking up
    the names that are set within one session. *)
Lemma ValidateCloudSpec_session env v spec vs h cred h1 s h2 :
  CloudSpec.VSphere spec = Some vs ->
  noDatastore (Provider.dc v) vs = false ->
  bothDatastores vs = false ->
  GetCredentialsForCluster spec (Provider.secretKeySelector v)
    (Some (Provider.dc v)) h = (Ok cred, h1) ->
  newSession env (Provider.dc v) (fst cred) (snd cred) (Provider.caBundle v) h1
  = (Ok s, h2) ->
  ValidateCloudSpec env v spec h
  = defer (Logout s)
      (bind (lookupIfSet (CallFinderDatastore s)
               (fun h => finder_Datastore env h s)
               "failed to get default datastore provided by datacenter spec %q: %w"
               (DatacenterSpecVSphere.DefaultDatastore (Provider.dc v)))
         (fun _ =>
            bind (lookupIfSet (CallFinderResourcePool s)
                    (fun h => finder_ResourcePool env h s)
                    "failed to get resource pool %s: %w"
                    (VSphereCloudSpec.ResourcePool vs))
              (fun _ =>
                 bind (lookupIfSet (CallFinderDatastoreCluster s)
                         (fun h => finder_DatastoreCluster env h s)
                         "failed to get datastore cluster provided by cluster spec %q: %w"
                         (VSphereCloudSpec.DatastoreCluster vs))
                   (fun _ =>
                      bind (lookupIfSet (CallFinderDatastore s)
                              (fun h => finder_Datastore env h s)
                              "failed to get datastore cluster provided by cluste spec %q: %w"
                              (VSphereCloudSpec.Datastore vs))
                        (fun _ => ret tt))))) h2.
Proof.
  intros Hvs Hno Hboth Hc Hs.
  unfold ValidateCloudSpec. unfold bind at 1. rewrite Hc.
  unfold bind at 1, deref, lift at 1. rewrite Hvs.
  fold (noDatastore (Provider.dc v) vs). fold (bothDatastores vs).
  rewrite Hno, Hboth. cbv zeta.
  unfold bind at 1, wrap at 1. rewrite Hs. reflexivity.
Qed.

(** X13: the default datastore of the datacenter is looked up first and
    whenever it is set, also for a cluster that names a datastore of its
    own: when that lookup fails, ValidateCloudSpec fails with its error
    wrapped and looks up nothing else before logging out. *)
Theorem ValidateCloudSpec_default_datastore env v spec vs h cred h1 s h2 e :
  CloudSpec.VSphere spec = Some vs ->
  bothDatastores vs = false ->
  GetCredentialsForCluster spec (Provider.secretKeySelector v)
    (Some (Provider.dc v)) h = (Ok cred, h1) ->
  newSession env (Provider.dc v) (fst cred) (snd cred) (Provider.caBundle v) h1
  = (Ok s, h2) ->
  DatacenterSpecVSphere.DefaultDatastore (Provider.dc v) <> "" ->
  finder_Datastore env h2 s (DatacenterSpecVSphere.DefaultDatastore (Provider.dc v))
  = Some e ->
  ValidateCloudSpec env v spec h
  = (Err (fmt_Errorf_w
            "failed to get default datastore provided by datacenter spec %q: %w"
            [DatacenterSpecVSphere.DefaultDatastore (Provider.dc v)] e),
     h2 ++ [ CallFinderDatastore s
               (DatacenterSpecVSphere.DefaultDatastore (Provider.dc v));
             CallLogout s ]).
Proof.
  intros Hvs Hboth Hc Hs Hds He.
  apply nonempty_true in Hds.
  rewrite (ValidateCloudSpec_session env v spec vs h cred h1 s h2 Hvs
             ltac:(unfold noDatastore; rewrite Hds; reflexivity) Hboth Hc Hs).
  unfold lookupIfSet at 1. rewrite Hds.
  unfold defer, bind at 1, wrap, call at 1, Logout. rewrite He. cbn [of_err].
  unfold call. cbn [snd]. rewrite <- app_assoc. reflexivity.
Qed.

Lemma ValidateCloudSpec_default_datastore_witness :
  let env :=
    {| url_Parse := fun raw => inr raw;
       vim25_NewClient := fun _ _ _ _ => inr 1;
       client_Login := fun _ _ _ => None;
       finder_Datacenter := fun _ _ _ => inr 2;
       finder_FolderList := fun _ _ _ => inr [];
       finder_Datastore :=
         fun _ _ name =>
           if String.eqb name "retired" then Some Fixture.denied else None;
       finder_ResourcePool := fun _ _ _ => None;
       finder_DatastoreCluster := fun _ _ _ => None;
       newRESTSession_answer := fun _ _ _ _ _ => inr (RESTSession.mk 3);
       createVMFolder_answer := fun _ _ _ => None;
       deleteVMFolder_answer := fun _ _ _ => None;
       createTagCategory_answer := fun _ _ _ => inr "urn:category:1";
       deleteTagCategory_answer := fun _ _ _ => None |} in
  let v :=
    Provider.mk
      (DatacenterSpecVSphere.mk "https://vcenter.example.com" false "retired"
         "dc" "" None)
      Fixture.plainSecret [] in
  fst (ValidateCloudSpec env v
         (Fixture.cloud (Fixture.vsphere None "admin" "hunter2"
                           Fixture.noCredentials "" "" "ds1" "")) [])
  = Err (fmt_Errorf_w
           "failed to get default datastore provided by datacenter spec %q: %w"
           ["retired"] Fixture.denied).
Proof.
  intros env v.
  exact (f_equal fst
           (ValidateCloudSpec_default_datastore env v
              (Fixture.cloud (Fixture.vsphere None "admin" "hunter2"
                                Fixture.noCredentials "" "" "ds1" ""))
              _ [] ("admin", "hunter2") [] (Session.mk 1 2) _ Fixture.denied
              eq_refl eq_refl eq_refl eq_refl ltac:(discriminate) eq_refl)).
Defined.

(** X14: with a datastore configuration that passes and a vCenter in which
    every name resolves, ValidateCloudSpec succeeds; between opening the
    session and logging out it makes exactly the lookups for the names that
    are set, in the order default datastore, resource pool, datastore
    cluster, datastore. *)
Theorem ValidateCloudSpec_all_resolve env v spec vs h cred h1 s h2 :
  CloudSpec.VSphere spec = Some vs ->
  noDatastore (Provider.dc v) vs = false ->
  bothDatastores vs = false ->
  GetCredentialsForCluster spec (Provider.secretKeySelector v)
    (Some (Provider.dc v)) h = (Ok cred, h1) ->
  newSession env (Provider.dc v) (fst cred) (snd cred) (Provider.caBundle v) h1
  = (Ok s, h2) ->
  (forall h' name, finder_Datastore env h' s name = None) ->
  (forall h' name, finder_ResourcePool env h' s name = None) ->
  (forall h' name, finder_DatastoreCluster env h' s name = None) ->
  ValidateCloudSpec env v spec h
  = (Ok tt, h2 ++ lookupCalls s (Provider.dc v) vs ++ [CallLogout s]).
Proof.
  intros Hvs Hno Hboth Hc Hs Hds Hrp Hdc.
  rewrite (ValidateCloudSpec_session env v spec vs h cred h1 s h2 Hvs Hno Hboth
             Hc Hs).
  unfold lookupCalls, lookupIfSet, Logout.
  unfold defer, bind, wrap, call, ret, lift.
  destruct (GoString.nonempty (DatacenterSpecVSphere.DefaultDatastore (Provider.dc v)));
    destruct (GoString.nonempty (VSphereCloudSpec.ResourcePool vs));
    destruct (GoString.nonempty (VSphereCloudSpec.DatastoreCluster vs));
    destruct (GoString.nonempty (VSphereCloudSpec.Datastore vs));
    rewrite ?Hds, ?Hrp, ?Hdc; cbn [of_err fst snd app];
    rewrite ?Hds, ?Hrp, ?Hdc; cbn [of_err fst snd app];
    rewrite ?Hds, ?Hrp, ?Hdc; cbn [of_err fst snd app];
    rewrite ?Hds, ?Hrp, ?Hdc; cbn [of_err fst snd app];
    rewrite <- ?app_assoc; reflexivity.
Qed.

Lemma ValidateCloudSpec_all_resolve_witness :
  let vs := VSphereCloudSpec.mk None "admin" "hunter2" Fixture.noCredentials
              "" "" "dsc1" "pool1" "" in
  ValidateCloudSpec Fixture.healthy Fixture.provider (Fixture.cloud vs) []
  = (Ok tt,
     [ CallNewClient "https://vcenter.example.com/sdk" false [];
       CallLogin 1 (Userinfo.UserPassword "admin" "hunter2");
       CallFinderDatacenter 1 "dc" ]
     ++ [ CallFinderResourcePool (Session.mk 1 2) "pool1";
          CallFinderDatastoreCluster (Session.mk 1 2) "dsc1" ]
     ++ [CallLogout (Session.mk 1 2)]).
Proof.
  intros vs.
  apply (ValidateCloudSpec_all_resolve Fixture.healthy Fixture.provider
           (Fixture.cloud vs) vs [] ("admin", "hunter2") [] (Session.mk 1 2) _
           eq_refl eq_refl eq_refl eq_refl eq_refl);
    reflexivity.
Defined.

(** ** GetVMFolders, when it fails *)

(** X15: GetVMFolders logs out exactly when it got a session: a failure to
    open the session is returned wrapped and nothing is listed or logged
    out; a failure to list the folders is returned wrapped after the
    session was logged out. *)
Theorem GetVMFolders_failures env dc username password caBundle h :
  (forall e h1,
     newSession env dc username password caBundle h = (Err e, h1) ->
     GetVMFolders env dc username password caBundle h
     = (Err (fmt_Errorf_w "failed to create vCenter session: %w" [] e), h1))
  /\ (forall s h1 e,
     newSession env dc username password caBundle h = (Ok s, h1) ->
     finder_FolderList env h1 s "*" = inl e ->
     GetVMFolders env dc username password caBundle h
     = (Err (fmt_Errorf_w "couldn't retrieve folder list: %w" [] e),
        h1 ++ [CallFolderList s "*"; CallLogout s])).
Proof.
  split.
  - intros e h1 Hs. unfold GetVMFolders, bind, wrap. rewrite Hs. reflexivity.
  - intros s h1 e Hs Hl. unfold GetVMFolders, Logout.
    unfold bind, wrap, defer, call, ret, lift. rewrite Hs, Hl.
    cbn [of_sum fst snd]. rewrite <- app_assoc. reflexivity.
Qed.

Lemma GetVMFolders_failures_witness :
  GetVMFolders Fixture.unreachable (Fixture.datacenter "" None)
    "admin" "hunter2" [] []
  = (Err (fmt_Errorf_w "failed to create vCenter session: %w" [] Fixture.refused),
     [CallNewClient "https://vcenter.example.com/sdk" false []]).
Proof.
  apply (proj1 (GetVMFolders_failures Fixture.unreachable
                  (Fixture.datacenter "" None) "admin" "hunter2" [] [])
           Fixture.refused _ eq_refl).
Defined.

(** ** [path.Clean] returns clean paths *)

Lemma split_no_slash s : Forall (fun e => GoPath.no_slash e = true) (GoPath.split s).
Proof.
  induction s as [|c s IH]; simpl.
  - repeat constructor.
  - destruct (Ascii.eqb c GoPath.slash) eqn:Hc.
    + constructor; [reflexivity | exact IH].
    + destruct (GoPath.split s) as [|x xs].
      * repeat constructor. simpl. rewrite Hc. reflexivity.
      * inversion IH as [|? ? Hx Hxs]; subst.
        constructor; [| exact Hxs]. simpl. rewrite Hc, Hx. reflexivity.
Qed.

Lemma split_single x : GoPath.no_slash x = true -> GoPath.split x = [x].
Proof.
  induction x as [|c x IH]; simpl; [reflexivity |].
  intros H. apply andb_prop in H as [Hc Hx]. apply negb_true_iff in Hc.
  rewrite Hc, (IH Hx). reflexivity.
Qed.

Lemma split_concat x xs :
  Forall (fun e => GoPath.no_slash e = true) (x :: xs) ->
  GoPath.split (String.concat "/" (x :: xs)) = x :: xs.
Proof.
  revert x. induction xs as [|y ys IH]; intros x H.
  - simpl. apply split_single. inversion H; assumption.
  - inversion H as [|? ? Hx Hrest]; subst.
    change (String.concat "/" (x :: y :: ys))
      with (x +:+ String GoPath.slash (String.concat "/" (y :: ys))).
    rewrite (split_plain x _ Hx), (IH y Hrest). reflexivity.
Qed.

Lemma plain_element_no_slash e :
  GoPath.plain_element e = true -> GoPath.no_slash e = true.
Proof.
  unfold GoPath.plain_element. intros H.
  destruct (GoString.nonempty e); [| discriminate].
  destruct (GoPath.no_slash e); [reflexivity | discriminate].
Qed.

Lemma plain_element_nonempty e :
  GoPath.plain_element e = true -> GoString.nonempty e = true.
Proof.
  unfold GoPath.plain_element. intros H.
  destruct (GoString.nonempty e); [reflexivity | discriminate].
Qed.

Lemma plain_element_not_dotdot e :
  GoPath.plain_element e = true -> String.eqb e ".." = false.
Proof.
  unfold GoPath.plain_element. intros H.
  destruct (String.eqb e ".."); [| reflexivity].
  rewrite andb_false_r in H. discriminate.
Qed.

Lemma isDotDot_eq e : isDotDot e = true -> e = "..".
Proof. apply String.eqb_eq. Qed.

Lemma written_intro rooted plains dotdots :
  Forall (fun e => GoPath.plain_element e = true) plains ->
  Forall (fun e => isDotDot e = true) dotdots ->
  (rooted = true -> dotdots = []) ->
  written rooted (plains ++ dotdots).
Proof. intros Hp Hd Hr. exists plains, dotdots. auto. Qed.

(** One round of the loop keeps the shape. *)
Lemma clean_step_written rooted out elem :
  GoPath.no_slash elem = true ->
  written rooted out -> written rooted (GoPath.clean_step rooted out elem).
Proof.
  intros Hns (plains & dotdots & -> & Hp & Hd & Hr).
  unfold GoPath.clean_step.
  destruct (String.eqb elem "") eqn:He; [apply written_intro; assumption |].
  destruct (String.eqb elem ".") eqn:Hdot; [apply written_intro; assumption |].
  cbn [orb].
  destruct (String.eqb elem "..") eqn:Hdd.
  - destruct plains as [|top below]; cbn [app].
    + destruct dotdots as [|d ds].
      * destruct rooted.
        -- apply (written_intro true [] []); auto.
        -- apply (written_intro false [] [".."]);
             [constructor | repeat constructor | discriminate].
      * inversion Hd as [|? ? Hd1 Hds]; subst.
        assert (Ed := isDotDot_eq d Hd1). subst d.
        replace (String.eqb ".." "..") with true by reflexivity.
        destruct rooted.
        -- specialize (Hr eq_refl). discriminate.
        -- apply (written_intro false [] (".." :: ".." :: ds));
             [constructor | constructor; [reflexivity | exact Hd] | discriminate].
    + inversion Hp as [|? ? Htop Hbelow]; subst.
      rewrite (plain_element_not_dotdot top Htop).
      apply written_intro; assumption.
  - apply (written_intro rooted (elem :: plains) dotdots); [| assumption ..].
    constructor; [| exact Hp].
    unfold GoPath.plain_element. rewrite Hns, Hdot, Hdd.
    destruct elem; [discriminate | reflexivity].
Qed.

Lemma fold_clean_step_written rooted elems out :
  Forall (fun e => GoPath.no_slash e = true) elems ->
  written rooted out ->
  written rooted (fold_left (GoPath.clean_step rooted) elems out).
Proof.
  revert out. induction elems as [|e es IH]; intros out He Hw; simpl.
  - exact Hw.
  - inversion He; subst. apply IH; [assumption |].
    apply clean_step_written; assumption.
Qed.

Lemma Clean_render c rest :
  GoPath.Clean (String c rest)
  = render (Ascii.eqb c GoPath.slash)
      (fold_left (GoPath.clean_step (Ascii.eqb c GoPath.slash))
         (GoPath.split (String c rest)) []).
Proof. reflexivity. Qed.

(** The elements of a clean path, read again, are written as they are. *)
Lemma fold_clean_step_plains rooted plains out :
  Forall (fun e => GoPath.plain_element e = true) plains ->
  fold_left (GoPath.clean_step rooted) plains out = rev plains ++ out.
Proof.
  revert out. induction plains as [|p ps IH]; intros out H; simpl.
  - reflexivity.
  - inversion H; subst. rewrite (clean_step_plain rooted out p) by assumption.
    rewrite IH by assumption. rewrite <- app_assoc. reflexivity.
Qed.

Lemma fold_clean_step_dotdots dotdots out :
  Forall (fun e => isDotDot e = true) dotdots ->
  Forall (fun e => isDotDot e = true) out ->
  fold_left (GoPath.clean_step false) dotdots out = rev dotdots ++ out.
Proof.
  revert out. induction dotdots as [|d ds IH]; intros out H Hout; simpl.
  - reflexivity.
  - inversion H as [|? ? Hd Hds]; subst.
    assert (Ed := isDotDot_eq d Hd). subst d.
    assert (E : GoPath.clean_step false out ".." = ".." :: out).
    { unfold GoPath.clean_step. cbn [orb].
      replace (String.eqb ".." "") with false by reflexivity.
      replace (String.eqb ".." ".") with false by reflexivity.
      replace (String.eqb ".." "..") with true by reflexivity. cbn [orb].
      destruct out as [|o os]; [reflexivity |].
      inversion Hout as [|? ? Ho Hos]; subst.
      assert (Eo := isDotDot_eq o Ho). subst o.
      replace (String.eqb ".." "..") with true by reflexivity. reflexivity. }
    rewrite E, IH; [| assumption | constructor; [reflexivity | assumption]].
    rewrite <- app_assoc. reflexivity.
Qed.

Lemma written_no_slash rooted out :
  written rooted out -> Forall (fun e => GoPath.no_slash e = true) (rev out).
Proof.
  intros (plains & dotdots & -> & Hp & Hd & _).
  apply List.Forall_rev, List.Forall_app. split.
  - revert Hp. apply List.Forall_impl. apply plain_element_no_slash.
  - revert Hd. apply List.Forall_impl. intros e He.
    rewrite (isDotDot_eq e He). reflexivity.
Qed.

Lemma written_nonempty rooted out :
  written rooted out -> Forall (fun e => GoString.nonempty e = true) (rev out).
Proof.
  intros (plains & dotdots & -> & Hp & Hd & _).
  apply List.Forall_rev, List.Forall_app. split.
  - revert Hp. apply List.Forall_impl. apply plain_element_nonempty.
  - revert Hd. apply List.Forall_impl. intros e He.
    rewrite (isDotDot_eq e He). reflexivity.
Qed.

(** Reading the written elements again writes them again. *)
Lemma fold_clean_step_rev rooted out :
  written rooted out ->
  fold_left (GoPath.clean_step rooted) (rev out) [] = out.
Proof.
  intros (plains & dotdots & -> & Hp & Hd & Hr).
  rewrite rev_app_distr, fold_left_app.
  destruct rooted.
  - rewrite (Hr eq_refl). cbn [rev fold_left app].
    rewrite fold_clean_step_plains by (apply List.Forall_rev; assumption).
    rewrite rev_involutive. reflexivity.
  - rewrite (fold_clean_step_dotdots (rev dotdots) []);
      [| apply List.Forall_rev; assumption | constructor].
    rewrite fold_clean_step_plains by (apply List.Forall_rev; assumption).
    rewrite !rev_involutive, app_nil_r. reflexivity.
Qed.

Lemma concat_head a x xs :
  exists b, String.concat "/" (String a x :: xs) = String a b.
Proof. destruct xs; eexists; reflexivity. Qed.

(** A clean path is left as it is. *)
Lemma Clean_written rooted out :
  written rooted out -> GoPath.Clean (render rooted out) = render rooted out.
Proof.
  intros Hw.
  pose proof (written_no_slash rooted out Hw) as Hns.
  pose proof (written_nonempty rooted out Hw) as Hne.
  pose proof (fold_clean_step_rev rooted out Hw) as Hfold.
  unfold render at 1. cbv zeta.
  destruct (rev out) as [|x xs] eqn:HL.
  - assert (out = []) as ->.
    { apply (f_equal (@rev string)) in HL. rewrite rev_involutive in HL. exact HL. }
    destruct rooted; reflexivity.
  - pose proof (List.Forall_inv Hne) as Hx. cbv beta in Hx.
    destruct x as [|a x]; [discriminate |].
    assert (Ha : Ascii.eqb a GoPath.slash = false).
    { pose proof (List.Forall_inv Hns) as Hxs. simpl in Hxs.
      apply andb_prop in Hxs as [Hxs _]. apply negb_true_iff in Hxs. exact Hxs. }
    destruct rooted.
    + change ("/" +:+ String.concat "/" (String a x :: xs))
        with (String GoPath.slash (String.concat "/" (String a x :: xs))).
      rewrite Clean_render.
      replace (Ascii.eqb GoPath.slash GoPath.slash) with true by reflexivity.
      rewrite split_slash, (split_concat _ _ Hns).
      replace (fold_left (GoPath.clean_step true) ("" :: String a x :: xs) [])
        with (fold_left (GoPath.clean_step true) (String a x :: xs) [])
        by reflexivity.
      rewrite Hfold. reflexivity.
    + destruct (concat_head a x xs) as [b Hb].
      rewrite Hb. cbn [GoString.nonempty].
      rewrite Clean_render, Ha, <- Hb, (split_concat _ _ Hns), Hfold.
      reflexivity.
Qed.

Lemma Clean_is_written p :
  exists rooted out, written rooted out /\ GoPath.Clean p = render rooted out.
Proof.
  destruct p as [|c rest].
  - exists false, []. split; [| reflexivity].
    apply (written_intro false [] []); [constructor | constructor | reflexivity].
  - eexists _, _. split; [| apply Clean_render].
    apply fold_clean_step_written; [apply split_no_slash |].
    apply (written_intro _ [] []); [constructor | constructor | reflexivity].
Qed.

Lemma Clean_idempotent p : GoPath.Clean (GoPath.Clean p) = GoPath.Clean p.
Proof.
  destruct (Clean_is_written p) as (rooted & out & Hw & ->).
  apply Clean_written, Hw.
Qed.

Example Clean_twice :
  GoPath.Clean (GoPath.Clean "../a/./b//../c/") = "../a/c".
Proof. reflexivity. Qed.

(** ** Root path and cluster folder *)

Lemma append_assoc (a b c : string) : (a +:+ b) +:+ c = a +:+ (b +:+ c).
Proof. induction a; [reflexivity | rewrite !append_cons; congruence]. Qed.

Lemma render_nonempty rooted out : GoString.nonempty (render rooted out) = true.
Proof.
  unfold render. destruct rooted; [reflexivity |].
  destruct (GoString.nonempty (String.concat "/" (rev out))) eqn:H;
    [exact H | reflexivity].
Qed.

Lemma getVMRootPath_is_Clean dc : exists q, getVMRootPath dc = GoPath.Clean q.
Proof.
  unfold getVMRootPath.
  destruct (GoString.nonempty (DatacenterSpecVSphere.RootPath dc)).
  - eexists. reflexivity.
  - unfold GoPath.Join.
    replace (fold_left (fun n e => n + String.length e)
               ["/"; DatacenterSpecVSphere.Datacenter dc; "vm"] 0)
      with (S (String.length (DatacenterSpecVSphere.Datacenter dc) + 2))
      by (simpl; lia).
    eexists. reflexivity.
Qed.

Lemma getVMRootPath_rendered dc :
  exists rooted out, written rooted out /\ getVMRootPath dc = render rooted out.
Proof.
  destruct (getVMRootPath_is_Clean dc) as [q ->]. apply Clean_is_written.
Qed.

(** X16: the root path is always a clean, non-empty path: cleaning it again
    changes nothing, so a datacenter whose override is the root path
    computed for it has the same root path; and without an override the
    root path is absolute, whatever the datacenter is called. *)
Theorem getVMRootPath_clean dc :
  GoPath.Clean (getVMRootPath dc) = getVMRootPath dc
  /\ getVMRootPath dc <> ""
  /\ getVMRootPath (withRootPath dc (getVMRootPath dc)) = getVMRootPath dc
  /\ (DatacenterSpecVSphere.RootPath dc = "" ->
      exists rest, getVMRootPath dc = String GoPath.slash rest).
Proof.
  assert (Hclean : GoPath.Clean (getVMRootPath dc) = getVMRootPath dc).
  { destruct (getVMRootPath_is_Clean dc) as [q ->]. apply Clean_idempotent. }
  assert (Hne : GoString.nonempty (getVMRootPath dc) = true).
  { destruct (getVMRootPath_rendered dc) as (rooted & out & _ & ->).
    apply render_nonempty. }
  split; [exact Hclean |]. split; [apply nonempty_true; exact Hne |]. split.
  - unfold getVMRootPath at 1, withRootPath.
    cbn [DatacenterSpecVSphere.RootPath]. rewrite Hne. exact Hclean.
  - intros Hroot. unfold getVMRootPath. rewrite Hroot. cbn [GoString.nonempty].
    unfold GoPath.Join.
    replace (fold_left (fun n e => n + String.length e)
               ["/"; DatacenterSpecVSphere.Datacenter dc; "vm"] 0)
      with (S (String.length (DatacenterSpecVSphere.Datacenter dc) + 2))
      by (simpl; lia).
    cbn [Nat.eqb fold_left].
    destruct (DatacenterSpecVSphere.Datacenter dc) as [|a d];
      eexists; apply Clean_rooted.
Qed.

Lemma getVMRootPath_clean_witness :
  exists rest, getVMRootPath (Fixture.datacenter "" None) = String GoPath.slash rest.
Proof.
  apply (proj2 (proj2 (proj2 (getVMRootPath_clean (Fixture.datacenter "" None))))).
  reflexivity.
Defined.

Example getVMRootPath_of_odd_names :
  getVMRootPath (DatacenterSpecVSphere.mk "" false "" "" "" None) = "/vm"
  /\ getVMRootPath (DatacenterSpecVSphere.mk "" false "" "eu/../dc" "" None)
     = "/dc/vm"
  /\ getVMRootPath (DatacenterSpecVSphere.mk "" false "" "dc" "clusters/../." None)
     = ".".
Proof. repeat split. Qed.

Lemma concat_snoc x xs name :
  String.concat "/" ((x :: xs) ++ [name])
  = (String.concat "/" (x :: xs) +:+ "/") +:+ name.
Proof.
  revert x. induction xs as [|y ys IH]; intros x.
  - cbn [app]. change (String.concat "/" [x; name]) with (x +:+ "/" +:+ name).
    change (String.concat "/" [x]) with x. symmetry. apply append_assoc.
  - change (String.concat "/" ((x :: y :: ys) ++ [name]))
      with (x +:+ "/" +:+ String.concat "/" ((y :: ys) ++ [name])).
    rewrite IH.
    change (String.concat "/" (x :: y :: ys))
      with (x +:+ "/" +:+ String.concat "/" (y :: ys)).
    rewrite !append_assoc. reflexivity.
Qed.

Lemma render_push rooted out name :
  out <> [] -> written rooted out ->
  render rooted (name :: out) = (render rooted out +:+ "/") +:+ name.
Proof.
  intros Hout Hw. pose proof (written_nonempty rooted out Hw) as Hne.
  unfold render. cbn [rev].
  destruct (rev out) as [|x xs] eqn:HL.
  { exfalso. apply Hout. apply (f_equal (@rev string)) in HL.
    rewrite rev_involutive in HL. exact HL. }
  rewrite concat_snoc.
  pose proof (List.Forall_inv Hne) as Hx. cbv beta in Hx.
  destruct x as [|a x]; [discriminate |].
  destruct (concat_head a x xs) as [b Hb]. rewrite Hb.
  destruct rooted.
  - rewrite !append_assoc. reflexivity.
  - reflexivity.
Qed.

Lemma Join_below root name rooted out :
  root = render rooted out -> written rooted out -> out <> [] ->
  GoPath.plain_element name = true ->
  GoPath.Join [root; name] = (root +:+ "/") +:+ name.
Proof.
  intros -> Hw Hout Hname.
  pose proof (render_nonempty rooted out) as Hne.
  pose proof (plain_element_nonempty name Hname) as Hn.
  unfold GoPath.Join. cbn [fold_left].
  destruct name as [|a name]; [discriminate |].
  replace (Nat.eqb (0 + String.length (render rooted out)
                    + String.length (String a name)) 0)
    with false by (simpl; rewrite Nat.add_succ_r; reflexivity).
  unfold GoPath.join_step at 2. cbn [GoString.nonempty orb]. rewrite Hne.
  rewrite append_empty_l.
  unfold GoPath.join_step. rewrite Hne. cbn [orb].
  rewrite <- (render_push rooted out (String a name) Hout Hw).
  apply Clean_written.
  destruct Hw as (plains & dotdots & -> & Hp & Hd & Hr).
  apply (written_intro rooted (String a name :: plains) dotdots);
    [constructor; assumption | assumption | assumption].
Qed.

Lemma no_slash_not_rooted name :
  GoPath.plain_element name = true -> GoString.HasPrefix name "/" = false.
Proof.
  intros H. pose proof (plain_element_no_slash name H) as Hs.
  destruct (GoString.HasPrefix name "/") eqn:E; [| reflexivity].
  apply HasPrefix_app in E as [rest ->]. discriminate Hs.
Qed.

Lemma Join_slash name :
  GoPath.plain_element name = true -> GoPath.Join ["/"; name] = "/" +:+ name.
Proof.
  intros H. pose proof (plain_element_no_slash name H) as Hs.
  pose proof (plain_element_nonempty name H) as Hn.
  destruct name as [|a name]; [discriminate |].
  unfold GoPath.Join.
  replace (fold_left (fun n e => n + String.length e) ["/"; String a name] 0)
    with (S (S (String.length name))) by reflexivity.
  cbn [Nat.eqb fold_left].
  change (GoPath.join_step (GoPath.join_step "" "/") (String a name))
    with (String GoPath.slash (String GoPath.slash (String a name))).
  rewrite Clean_rooted, !split_slash, (split_single _ Hs).
  cbn [fold_left]. rewrite !clean_step_empty, (clean_step_plain true [] _ H).
  reflexivity.
Qed.

Lemma Join_dot name :
  GoPath.plain_element name = true -> GoPath.Join ["."; name] = name.
Proof.
  intros H. pose proof (plain_element_no_slash name H) as Hs.
  pose proof (plain_element_nonempty name H) as Hn.
  destruct name as [|a name]; [discriminate |].
  unfold GoPath.Join.
  replace (fold_left (fun n e => n + String.length e) ["."; String a name] 0)
    with (S (S (String.length name))) by reflexivity.
  cbn [Nat.eqb fold_left].
  change (GoPath.join_step (GoPath.join_step "" ".") (String a name))
    with ("." +:+ String GoPath.slash (String a name)).
  change ("." +:+ String GoPath.slash (String a name))
    with (String "." (String GoPath.slash (String a name))) at 1.
  rewrite Clean_render.
  replace (Ascii.eqb "." GoPath.slash) with false by reflexivity.
  change (String "." (String GoPath.slash (String a name)))
    with ("." +:+ String GoPath.slash (String a name)).
  rewrite (split_plain "." _ eq_refl), (split_single _ Hs).
  cbn [fold_left].
  replace (GoPath.clean_step false [] ".") with (@nil string) by reflexivity.
  rewrite (clean_step_plain false [] _ H).
  reflexivity.
Qed.

(** X17: the folder InitializeCloudProvider makes for a cluster whose name
    is a single path element is the root path, a slash and the name, and is
    among the folders GetVMFolders keeps, unless the root path is ["/"] or
    ["."]: then the folder is joined without a second slash and the filter
    of GetVMFolders drops it. *)
Theorem cluster_folder_below_root dc name :
  GoPath.plain_element name = true ->
  (getVMRootPath dc <> "/" -> getVMRootPath dc <> "." ->
     GoPath.Join [getVMRootPath dc; name] = (getVMRootPath dc +:+ "/") +:+ name
     /\ belowRoot (getVMRootPath dc)
          (FolderRef.mk (GoPath.Join [getVMRootPath dc; name])) = true)
  /\ (getVMRootPath dc = "/" \/ getVMRootPath dc = "." ->
      belowRoot (getVMRootPath dc)
        (FolderRef.mk (GoPath.Join [getVMRootPath dc; name])) = false).
Proof.
  intros Hname. split.
  - intros Hslash Hdot.
    destruct (getVMRootPath_rendered dc) as (rooted & out & Hw & Hroot).
    assert (Hout : out <> []).
    { intros ->. rewrite Hroot in Hslash, Hdot.
      destruct rooted; [apply Hslash | apply Hdot]; reflexivity. }
    rewrite (Join_below _ name rooted out Hroot Hw Hout Hname).
    split; [reflexivity |].
    unfold belowRoot. cbn [FolderRef.InventoryPath].
    apply orb_true_iff. right. apply HasPrefix_app. eexists. reflexivity.
  - pose proof (plain_element_nonempty name Hname) as Hn.
    pose proof (plain_element_no_slash name Hname) as Hs.
    intros [-> | ->].
    + rewrite (Join_slash name Hname). unfold belowRoot.
      cbn [FolderRef.InventoryPath].
      destruct name as [|a name]; [discriminate |].
      replace (String.eqb ("/" +:+ String a name) "/") with false by reflexivity.
      cbn [orb].
      destruct (GoString.HasPrefix ("/" +:+ String a name) ("/" +:+ "/")) eqn:E;
        [| reflexivity].
      apply HasPrefix_app in E as [rest E]. injection E as E.
      rewrite E in Hs. discriminate Hs.
    + rewrite (Join_dot name Hname). unfold belowRoot.
      cbn [FolderRef.InventoryPath].
      assert (Hd : String.eqb name "." = false).
      { unfold GoPath.plain_element in Hname.
        destruct (String.eqb name "."); [| reflexivity].
        rewrite andb_false_r in Hname. discriminate. }
      rewrite Hd. cbn [orb].
      destruct (GoString.HasPrefix name ("." +:+ "/")) eqn:E; [| reflexivity].
      apply HasPrefix_app in E as [rest ->]. discriminate Hs.
Qed.

Lemma cluster_folder_below_root_witness :
  belowRoot "/dc/vm" (FolderRef.mk (GoPath.Join ["/dc/vm"; "c1"])) = true
  /\ belowRoot "/" (FolderRef.mk (GoPath.Join ["/"; "c1"])) = false.
Proof.
  split.
  - apply (proj1 (cluster_folder_below_root (Fixture.datacenter "" None) "c1"
                    eq_refl)); discriminate.
  - apply (proj2 (cluster_folder_below_root (Fixture.datacenter "/" None) "c1"
                    eq_refl)).
    left. reflexivity.
Defined.

(** The folder of a cluster under the root ["/"] is not in the list. *)
Example root_slash_hides_cluster_folders :
  fst (GetVMFolders
         (Fixture.vcenter None None (inr "urn:category:1") None)
         (Fixture.datacenter "/" None) "admin" "hunter2" [] [])
  = Ok [].
Proof. reflexivity. Qed.

(** * The dashboard components *)

(** ** The metrics of the nodes *)

Lemma find_append {T : Type} (f : T -> bool) (l1 l2 : list T) :
  List.find f (l1 ++ l2)
  = match List.find f l1 with
    | Some x => Some x
    | None => List.find f l2
    end.
Proof.
  induction l1 as [|x l1 IH]; simpl; [reflexivity |].
  destruct (f x); [reflexivity | exact IH].
Qed.

Lemma storeNodeMetrics_fold {T : Type} (name : T -> string) (metrics : list T)
    (start : gmap string T) (key : string) :
  fold_left (fun map m => <[ name m := m ]> map) metrics start !! key
  = match List.find (fun m => String.eqb (name m) key) (rev metrics) with
    | Some m => Some m
    | None => start !! key
    end.
Proof.
  revert start. induction metrics as [|m ms IH]; intros start; simpl.
  - reflexivity.
  - rewrite IH, find_append.
    destruct (List.find _ (rev ms)) as [m'|]; [reflexivity |].
    simpl. destruct (String.eqb_spec (name m) key) as [-> | Hne].
    + apply lookup_insert_eq.
    + apply lookup_insert_ne. exact Hne.
Qed.

(** X18: the map of node metrics holds, under each name, the last metric
    of the list that carries that name, and nothing under a name no metric
    carries; what an earlier list stored is gone. *)
Theorem storeNodeMetrics_last_wins {T : Type} (name : T -> string)
    (metrics : list T) (key : string) :
  MachineDeploymentDetails.storeNodeMetrics name metrics !! key
  = List.find (fun m => String.eqb (name m) key) (rev metrics).
Proof.
  unfold MachineDeploymentDetails.storeNodeMetrics.
  rewrite storeNodeMetrics_fold, lookup_empty.
  destruct (List.find _ (rev metrics)); reflexivity.
Qed.

Example storeNodeMetrics_duplicate_name :
  MachineDeploymentDetails.storeNodeMetrics fst
    [("node-a", 10); ("node-b", 20); ("node-a", 30)] !! "node-a"
  = Some ("node-a", 30).
Proof. reflexivity. Qed.

(** ** The labels of a project *)

Lemma dropIfNull_fold (keys : list string) (ls : gmap string EditProject.LabelValue)
    (key : string) :
  fold_left EditProject.dropIfNull keys ls !! key
  = match ls !! key with
    | Some EditProject.Null => if bool_decide (key ∈ keys) then None else Some EditProject.Null
    | other => other
    end.
Proof.
  revert ls. induction keys as [|k ks IH]; intros ls; simpl.
  - destruct (ls !! key) as [[| |]|]; reflexivity.
  - rewrite IH. unfold EditProject.dropIfNull.
    destruct (decide (k = key)) as [-> | Hne].
    + destruct (ls !! key) as [[| |]|] eqn:Hk.
      * rewrite lookup_delete_eq.
        rewrite bool_decide_eq_true_2 by (apply list_elem_of_here). reflexivity.
      * rewrite Hk. reflexivity.
      * rewrite Hk. reflexivity.
      * rewrite Hk. reflexivity.
    + assert (E : (match ls !! k with
                   | Some EditProject.Null => delete k ls
                   | _ => ls
                   end) !! key = ls !! key).
      { destruct (ls !! k) as [[| |]|]; try reflexivity.
        apply lookup_delete_ne. exact Hne. }
      rewrite E.
      destruct (ls !! key) as [[| |]|]; try reflexivity.
      destruct (bool_decide (key ∈ ks)) eqn:Hin.
      * apply bool_decide_eq_true in Hin.
        rewrite bool_decide_eq_true_2 by (apply list_elem_of_further; exact Hin).
        reflexivity.
      * apply bool_decide_eq_false in Hin.
        rewrite bool_decide_eq_false_2; [reflexivity |].
        intros Hc. apply elem_of_cons in Hc as [-> | Hc];
          [apply Hne; reflexivity | apply Hin; exact Hc].
Qed.

Lemma removeNullified_lookup (ls : gmap string EditProject.LabelValue) (key : string) :
  EditProject.removeNullified ls !! key
  = match ls !! key with
    | Some EditProject.Null => None
    | other => other
    end.
Proof.
  unfold EditProject.removeNullified. rewrite dropIfNull_fold.
  destruct (ls !! key) as [[| |]|] eqn:Hk; try reflexivity.
  rewrite bool_decide_eq_true_2; [reflexivity |].
  apply list_elem_of_In, in_map_iff. exists (key, EditProject.Null).
  split; [reflexivity |]. apply list_elem_of_In, elem_of_map_to_list. exact Hk.
Qed.

(** X19: the project that is sent carries no label whose value is null and
    carries every other label, an undefined one as well, with its value;
    the component's own labels are changed the same way, since they are the
    same object, so sending again sends the same. *)
Theorem getObservable_removes_null_labels (c : EditProject.Component) :
  let sent := EditProject.modelLabels (snd (fst (EditProject.getObservable c))) in
  let after := snd (EditProject.getObservable c) in
  (forall ls, EditProject.labels c = Some ls ->
     exists cleaned,
       sent = Some cleaned
       /\ (forall key, cleaned !! key <> Some EditProject.Null)
       /\ (forall key v, v <> EditProject.Null ->
             (cleaned !! key = Some v <-> ls !! key = Some v)))
  /\ (EditProject.labels c = None -> sent = None)
  /\ EditProject.labels after = sent
  /\ fst (EditProject.getObservable after) = fst (EditProject.getObservable c).
Proof.
  intros sent after. subst sent after. unfold EditProject.getObservable.
  cbn [fst snd EditProject.modelLabels EditProject.labels
       EditProject.projectID EditProject.formName].
  split; [| split; [| split]].
  - intros ls ->. cbn [option_map]. eexists. split; [reflexivity |]. split.
    + intros key. rewrite removeNullified_lookup.
      destruct (ls !! key) as [[| |]|]; discriminate.
    + intros key v Hv. rewrite removeNullified_lookup.
      destruct (ls !! key) as [[| |]|]; split; intros H; try exact H;
        try discriminate; congruence.
  - intros ->. reflexivity.
  - reflexivity.
  - destruct (EditProject.labels c) as [ls|]; [| reflexivity].
    cbn [option_map]. do 3 f_equal.
    apply map_eq. intros key. rewrite !removeNullified_lookup.
    destruct (ls !! key) as [[| |]|]; reflexivity.
Qed.

Lemma getObservable_removes_null_labels_witness :
  let ls : gmap string EditProject.LabelValue :=
    <[ "env" := EditProject.Text "prod" ]> (<[ "team" := EditProject.Null ]> ∅) in
  exists cleaned,
    EditProject.modelLabels
      (snd (fst (EditProject.getObservable
                   (EditProject.mkComponent "p1" "demo" (Some ls)))))
    = Some cleaned
    /\ cleaned !! "team" <> Some EditProject.Null.
Proof.
  intros ls.
  destruct (proj1 (getObservable_removes_null_labels
                     (EditProject.mkComponent "p1" "demo" (Some ls)))
              ls eq_refl)
    as (cleaned & E & Hnull & _).
  exists cleaned. split; [exact E | apply Hnull].
Defined.

Example getObservable_labels :
  let ls : gmap string EditProject.LabelValue :=
    <[ "env" := EditProject.Text "prod" ]> (<[ "team" := EditProject.Null ]> ∅) in
  EditProject.modelLabels
    (snd (fst (EditProject.getObservable
                 (EditProject.mkComponent "p1" "demo" (Some ls)))))
  = Some (<[ "env" := EditProject.Text "prod" ]> ∅).
Proof. vm_compute. reflexivity. Qed.

(** ** Add node on vSphere *)

(** X20: a template that is not one of the stock ones ([""],
    ["ubuntu-template"], ["coreos_production_vmware_ova"]) survives every
    change of operating system: the form stays as it is and no provider
    data is handed on; only the default template follows the operating
    system. Cpu and memory are never changed, whatever the template. *)
Theorem onOperatingSystemData_keeps_custom_template
    (Number : Type) (formValid : VSphereAddNode.Form Number -> bool)
    (c : VSphereAddNode.Component Number)
    (data : VSphereAddNode.NodeOperatingSystemData) :
  let after := VSphereAddNode.onOperatingSystemData Number formValid c data in
  VSphereAddNode.cpu Number (VSphereAddNode.vsphereNodeForm Number (fst after))
  = VSphereAddNode.cpu Number (VSphereAddNode.vsphereNodeForm Number c)
  /\ VSphereAddNode.memory Number (VSphereAddNode.vsphereNodeForm Number (fst after))
     = VSphereAddNode.memory Number (VSphereAddNode.vsphereNodeForm Number c)
  /\ (VSphereAddNode.isStockTemplate
        (VSphereAddNode.template Number (VSphereAddNode.vsphereNodeForm Number c))
      = false ->
      VSphereAddNode.vsphereNodeForm Number (fst after)
      = VSphereAddNode.vsphereNodeForm Number c
      /\ snd after = []).
Proof.
  intros after. subst after.
  unfold VSphereAddNode.onOperatingSystemData, VSphereAddNode.useTemplate,
    VSphereAddNode.setValue.
  destruct c as [[cpu memory template] dflt]. cbn.
  destruct (VSphereAddNode.ubuntu data), (VSphereAddNode.containerLinux data),
    (VSphereAddNode.isStockTemplate template); cbn;
    repeat split; try reflexivity; discriminate.
Qed.

Lemma onOperatingSystemData_keeps_custom_template_witness :
  let c :=
    VSphereAddNode.mkComponent nat
      (VSphereAddNode.mkForm nat 2 2048 "debian-11-template") "ubuntu-template" in
  let after :=
    VSphereAddNode.onOperatingSystemData nat (fun _ => true) c
      (VSphereAddNode.mkNodeOperatingSystemData false true) in
  VSphereAddNode.vsphereNodeForm nat (fst after)
  = VSphereAddNode.mkForm nat 2 2048 "debian-11-template"
  /\ snd after = [].
Proof.
  intros c after.
  apply (proj2 (proj2 (onOperatingSystemData_keeps_custom_template nat
                         (fun _ => true) c
                         (VSphereAddNode.mkNodeOperatingSystemData false true)))).
  reflexivity.
Defined.

(** X21: a stock template follows the operating system: for Ubuntu it
    becomes ["ubuntu-template"], for Container Linux (when Ubuntu is not
    chosen) ["coreos_production_vmware_ova"], with the default template the
    same and the provider data handed on once, carrying the new template;
    with neither chosen the template is left as it is while the default
    goes back to ["ubuntu-template"]. The default template is one of the
    two in every case, and handling the same data a second time leaves the
    component as the first time did. *)
Theorem onOperatingSystemData_stock_template
    (Number : Type) (formValid : VSphereAddNode.Form Number -> bool)
    (c : VSphereAddNode.Component Number)
    (data : VSphereAddNode.NodeOperatingSystemData) :
  let handle := VSphereAddNode.onOperatingSystemData Number formValid in
  let chosen :=
    if VSphereAddNode.ubuntu data then "ubuntu-template"
    else "coreos_production_vmware_ova" in
  let form := VSphereAddNode.vsphereNodeForm Number in
  (VSphereAddNode.isStockTemplate (VSphereAddNode.template Number (form c)) = true ->
   VSphereAddNode.ubuntu data || VSphereAddNode.containerLinux data = true ->
   VSphereAddNode.template Number (form (fst (handle c data))) = chosen
   /\ VSphereAddNode.defaultTemplate Number (fst (handle c data)) = chosen
   /\ snd (handle c data)
      = [VSphereAddNode.getNodeProviderData Number formValid (fst (handle c data))]
   /\ VSphereAddNode.specTemplate Number
        (VSphereAddNode.getNodeProviderData Number formValid (fst (handle c data)))
      = chosen)
  /\ (VSphereAddNode.ubuntu data = false ->
      VSphereAddNode.containerLinux data = false ->
      handle c data
      = (VSphereAddNode.mkComponent Number (form c) "ubuntu-template", []))
  /\ (VSphereAddNode.defaultTemplate Number (fst (handle c data)) = "ubuntu-template"
      \/ VSphereAddNode.defaultTemplate Number (fst (handle c data))
         = "coreos_production_vmware_ova")
  /\ fst (handle (fst (handle c data)) data) = fst (handle c data).
Proof.
  intros handle chosen form. subst handle chosen form.
  unfold VSphereAddNode.onOperatingSystemData, VSphereAddNode.useTemplate,
    VSphereAddNode.setValue, VSphereAddNode.getNodeProviderData.
  destruct c as [[cpu memory template] dflt]. cbn.
  destruct (VSphereAddNode.ubuntu data), (VSphereAddNode.containerLinux data);
    destruct (VSphereAddNode.isStockTemplate template) eqn:Hstock; cbn;
    rewrite ?Hstock; cbn;
    repeat split; try reflexivity; try discriminate; auto.
Qed.

Lemma onOperatingSystemData_stock_template_witness :
  let c :=
    VSphereAddNode.mkComponent nat
      (VSphereAddNode.mkForm nat 2 2048 "ubuntu-template") "ubuntu-template" in
  VSphereAddNode.template nat
    (VSphereAddNode.vsphereNodeForm nat
       (fst (VSphereAddNode.onOperatingSystemData nat (fun _ => true) c
               (VSphereAddNode.mkNodeOperatingSystemData false true))))
  = "coreos_production_vmware_ova".
Proof.
  intros c.
  apply (proj1 (onOperatingSystemData_stock_template nat (fun _ => true) c
                  (VSphereAddNode.mkNodeOperatingSystemData false true)));
    reflexivity.
Defined.

(** With no operating system chosen the form keeps the Container Linux
    template while the default is the Ubuntu one. *)
Example template_and_default_part :
  VSphereAddNode.onOperatingSystemData nat (fun _ => true)
    (VSphereAddNode.mkComponent nat
       (VSphereAddNode.mkForm nat 1 512 "coreos_production_vmware_ova")
       "coreos_production_vmware_ova")
    (VSphereAddNode.mkNodeOperatingSystemData false false)
  = (VSphereAddNode.mkComponent nat
       (VSphereAddNode.mkForm nat 1 512 "coreos_production_vmware_ova")
       "ubuntu-template",
     []).
Proof. reflexivity. Qed.

(** ** Project quota dialog *)

Lemma quotaPayload_spec (Number : Type) (positive : Number -> bool)
    (toString : Number -> string) (q : ProjectQuotaDialog.QuotaVariables Number)
    (key text : string) :
  In (key, text) (ProjectQuotaDialog.quotaPayload Number positive toString q)
  <-> exists n,
        In (key, Some n) (ProjectQuotaDialog.entries Number q)
        /\ positive n = true /\ text = toString n.
Proof.
  unfold ProjectQuotaDialog.quotaPayload. rewrite in_flat_map. split.
  - intros ([k v] & Hin & Hkv). apply filter_In in Hin as [Hin Hpos].
    cbn [fst snd] in *. destruct v as [n|]; [| contradiction].
    destruct Hkv as [Hkv | []]. injection Hkv as Hk Ht. subst k.
    exists n. split; [exact Hin |]. split; [exact Hpos | symmetry; exact Ht].
  - intros (n & Hin & Hpos & ->). exists (key, Some n). split.
    + apply filter_In. split; [exact Hin | exact Hpos].
    + left. reflexivity.
Qed.

(** X22: what the quota dialog sends. For an invalid form nothing. For a
    valid form, after a project was chosen: an update of the first quota
    whose subject is that project when there is one, under that quota's
    name, and otherwise the creation of a quota for the subject of the
    form. Either way the quota sent holds exactly the variables whose value
    is greater than zero, as strings: a variable that is null or not
    positive is never sent. *)
Theorem quota_dialog_request (Number : Type) (positive : Number -> bool)
    (toString : Number -> string)
    (quotas : list ProjectQuotaDialog.QuotaDetails)
    (selected : option ProjectQuotaDialog.QuotaDetails) (projectId : string)
    (formValue : ProjectQuotaDialog.FormValue Number) :
  let payload :=
    ProjectQuotaDialog.quotaPayload Number positive toString
      (ProjectQuotaDialog.quota Number formValue) in
  let request invalid :=
    ProjectQuotaDialog.getObservable Number positive toString invalid formValue
      (ProjectQuotaDialog.onSubjectName quotas selected projectId) in
  request true = None
  /\ (projectId <> "" ->
      (forall q,
         List.find (fun q => String.eqb (ProjectQuotaDialog.detailsSubjectName q)
                               projectId) quotas = Some q ->
         request false
         = Some (ProjectQuotaDialog.UpdateQuota (ProjectQuotaDialog.name q) payload)
         /\ In q quotas
         /\ ProjectQuotaDialog.detailsSubjectName q = projectId)
      /\ ((forall q, In q quotas ->
             ProjectQuotaDialog.detailsSubjectName q <> projectId) ->
          request false
          = Some (ProjectQuotaDialog.CreateQuota
                    (ProjectQuotaDialog.subjectKind Number formValue)
                    (ProjectQuotaDialog.subjectName Number formValue) payload)))
  /\ (forall key text,
        In (key, text) payload
        <-> exists n,
              In (key, Some n)
                 (ProjectQuotaDialog.entries Number
                    (ProjectQuotaDialog.quota Number formValue))
              /\ positive n = true /\ text = toString n).
Proof.
  intros payload request. subst payload request.
  split; [reflexivity |]. split; [| intros key text; apply quotaPayload_spec].
  intros Hp. apply nonempty_true in Hp.
  unfold ProjectQuotaDialog.getObservable, ProjectQuotaDialog.onSubjectName.
  rewrite Hp. split.
  - intros q Hq. rewrite Hq. split; [reflexivity |].
    apply find_some in Hq as [Hin Heq]. split; [exact Hin |].
    apply String.eqb_eq. exact Heq.
  - intros Hnone.
    destruct (List.find _ quotas) as [q|] eqn:Hq; [| reflexivity].
    apply find_some in Hq as [Hin Heq]. apply String.eqb_eq in Heq.
    exfalso. exact (Hnone q Hin Heq).
Qed.

Lemma quota_dialog_request_witness :
  let quotas :=
    [ ProjectQuotaDialog.mkQuotaDetails "project-abc" "abc";
      ProjectQuotaDialog.mkQuotaDetails "project-xyz" "xyz" ] in
  let formValue :=
    ProjectQuotaDialog.mkFormValue nat
      (ProjectQuotaDialog.mkQuotaVariables nat (Some 4) None (Some 0))
      "project" "xyz" in
  ProjectQuotaDialog.getObservable nat (Nat.ltb 0) (fun _ => "n") false formValue
    (ProjectQuotaDialog.onSubjectName quotas None "xyz")
  = Some (ProjectQuotaDialog.UpdateQuota "project-xyz" [("cpu", "n")]).
Proof.
  intros quotas formValue.
  apply (proj1 (proj1 (proj1 (proj2 (quota_dialog_request nat (Nat.ltb 0)
                                       (fun _ => "n") quotas None "xyz" formValue))
                         ltac:(discriminate))
                  (ProjectQuotaDialog.mkQuotaDetails "project-xyz" "xyz")
                  eq_refl)).
Defined.

(** X23: setting the controls whose value is 0 to null changes nothing in
    what is sent, as long as 0 is not greater than zero for the numbers of
    the form: a variable left at 0 is as absent as one left empty. *)
Theorem onQuotaGroup_keeps_payload (Number : Type) (positive isZero : Number -> bool)
    (toString : Number -> string) (q : ProjectQuotaDialog.QuotaVariables Number) :
  (forall n, isZero n = true -> positive n = false) ->
  ProjectQuotaDialog.quotaPayload Number positive toString
    (ProjectQuotaDialog.onQuotaGroup Number isZero q)
  = ProjectQuotaDialog.quotaPayload Number positive toString q.
Proof.
  intros Hzero.
  assert (Hv : forall v,
             ProjectQuotaDialog.greaterThanZero Number positive
               (ProjectQuotaDialog.zeroToNull Number isZero v)
             = ProjectQuotaDialog.greaterThanZero Number positive v
             /\ (ProjectQuotaDialog.greaterThanZero Number positive v = true ->
                 ProjectQuotaDialog.zeroToNull Number isZero v = v)).
  { intros [n|]; cbn; [| split; reflexivity].
    destruct (isZero n) eqn:Hz; cbn.
    - rewrite (Hzero n Hz). split; [reflexivity | discriminate].
    - split; reflexivity. }
  destruct q as [c m s].
  unfold ProjectQuotaDialog.quotaPayload, ProjectQuotaDialog.onQuotaGroup,
    ProjectQuotaDialog.entries. cbn [ProjectQuotaDialog.cpu
    ProjectQuotaDialog.memory ProjectQuotaDialog.storage List.filter fst snd].
  destruct (Hv c) as [-> Hc], (Hv m) as [-> Hm], (Hv s) as [-> Hs].
  destruct (ProjectQuotaDialog.greaterThanZero Number positive c);
    destruct (ProjectQuotaDialog.greaterThanZero Number positive m);
    destruct (ProjectQuotaDialog.greaterThanZero Number positive s);
    rewrite ?(Hc eq_refl), ?(Hm eq_refl), ?(Hs eq_refl); reflexivity.
Qed.

Lemma onQuotaGroup_keeps_payload_witness :
  let q := ProjectQuotaDialog.mkQuotaVariables nat (Some 4) (Some 0) None in
  ProjectQuotaDialog.quotaPayload nat (Nat.ltb 0) (fun _ => "n")
    (ProjectQuotaDialog.onQuotaGroup nat (Nat.eqb 0) q)
  = ProjectQuotaDialog.quotaPayload nat (Nat.ltb 0) (fun _ => "n") q.
Proof.
  intros q.
  apply (onQuotaGroup_keeps_payload nat (Nat.ltb 0) (Nat.eqb 0) (fun _ => "n") q).
  intros [|n] H; [reflexivity | discriminate H].
Defined.
